(* ===== verification/_CoqProject ===== *)
-Q . S2P
Prelude.v
Go.v
Store.v
PowerV9.v
PowerState.v
Chain.v
Reward.v
Versioned.v
MinerContext.v
FeeDebt.v
Utf8.v
Market.v
Diff.v
PreCommit.v
Registry.v
TableGen.v
Gen.v
Daemon.v
DaemonFlags.v
