(* ===== verification/Prelude.v ===== *)
(** * A verification library for the lily actor-state extraction core

    lily (formerly sentinel-visor) walks the Filecoin chain and, for each
    actor and each tipset, extracts rows that describe how the actor's
    state changed since the previous tipset. The sources verified here
    are the parts of that program that [src/] holds:
    - the power actor state adapter for actors v9
      ([src/chain/actors/builtin/power/v9.go]): typed reads of the power
      state and of its claims HAMT, read lazily through the store;
    - three extractors: the miner fee debt and precommit extractors
      ([src/tasks/actorstate/miner/tasks/extractors/feedebt.go],
      [precommitinfo.go]), the market extraction context, extractor and
      label sanitiser ([src/tasks/actorstate/market/market.go]) and the
      reward extractor ([src/tasks/actorstate/reward.go]), with the
      versioned records they emit ([AsVersion], [Persist] and the list
      [Persist] of each record);
    - the table-name generator and the task table it generated
      ([src/chain/indexer/tablegen/generator/gen.go],
      [src/chain/indexer/table_tasks.go]);
    - the [daemon] command that starts a lily node
      ([src/commands/lily/daemon.go]).
    An extractor receives an extraction context (the current tipset and
    actor state, and the previous ones), reads the states through the
    adapters and the content-addressed store, compares them directly
    (scalar state) or through the differencing engine (collections), and
    returns rows that the storage batch persists under a schema version.

    ** Files, in dependency order
    - [Prelude] (this file): Go errors as [error], fallible results as
      [result] with the [let?] notation, the loop with early exit
      [fold_result] of Go's [for ... { if err != nil { return err } }],
      the hint databases [lily] and [lily_rw] and the shared list lemmas
      (among them that [map_result] commutes with permutations).
    - [Go]: pointers with identity ([ptr], allocated by the monad [GoM],
      so that Go's [==] on pointers and on [big.Int] is [ptr_eqb] and
      [big_eq_go]), int64 to uint64 conversion with its wrap-around, and
      [big.Int.String] with its parser ([Z_String_roundtrip]).
    - [Store]: the store as a [gmap] from CIDs to decoded blocks; a HAMT
      ([adt.Map]) as its entries in iteration order with values kept
      encoded until a read decodes them ([Unmarshal] class);
      [ForEach], [Get] and the addresses of go-address.
    - [PowerV9] (Module [V9]): [state9] and every method of v9.go
      ([load9], [MinerPower], [ForEachClaim], [ListAllMiners],
      [ClaimsChanged], ...), then [V9Facts] and [V9Witnesses].
    - [PowerState]: lotus' [power.State] interface as the class
      [PowerState] of operations and the class [PowerStateLaws] of their
      contract against the claims collection; [state9] is an instance
      (the interface assertion of v9.go), and the client lemmas are
      proved against the interface only.
    - [Chain]: actors, tipsets, [ActorInfo] and the node API
      [ActorStateAPI] as a record of operations.
    - [Reward]: the reward adapter (Module [reward], from the spec) and
      [RewardExtractor_Extract] with the [ChainReward] row.
    - [Versioned]: [model.Version], the values handed to the batch, the
      batch interface [StorageBatch] (a class, with a logging instance)
      and the list-persist shape shared by the records, proved once.
    - [MinerContext]: the miner adapter and
      [MinerStateExtractionContext] (not in src: modelled from the spec
      after the market context, which has the same shape).
    - [FeeDebt]: [MinerFeeDebt], [ExtractMinerFeeDebt] and its facts.
    - [Utf8]: Go's [utf8.DecodeRune], [utf8.ValidString] and
      [runes.ReplaceIllFormed], the library functions [SanitizeLabel]
      calls.
    - [Market]: the market context, [StorageMarketExtract] (its two
      sub-extractors, not in src, are Section variables) and
      [SanitizeLabel].
    - [Diff]: the differencing engine (not in src: modelled from the
      spec, section 4.3) on decoded collections as [gmap]s.
    - [PreCommit]: [MinerPreCommitInfo], [GetPreCommitDiff] (the engine
      on the two precommit HAMT roots) and [ExtractMinerPreCommitInfo].
    - [Registry]: the [init] registrations of the reward, fee debt and
      precommit extractors into registries (gmaps, modelled from the
      spec: "register once, dispatch by type"), dispatch by actor code,
      and the miner extractor that runs every registered miner task on
      one context, in any iteration order of the Go map.
    - [TableGen]: Modules [generator] (gen.go) and [indexer]
      (table_tasks.go).
    - [Gen] (Module [GenDriver]): [Gen] of gen.go over a file system and
      a template engine given as Section variables, with the template
      function [tableNames] and its slice bounds check.
    - [Daemon]: [LilyDaemon.Action] as a run over an environment of
      external calls, recording its calls as a trace.
    - [DaemonFlags]: the six flags of [LilyDaemon] and their resolution
      as urfave/cli v2 does it (command line, then environment
      variable, then default; [strconv.ParseBool] for the bool flag),
      composed with [Daemon]'s run into [start], the command as the
      CLI runs it.

    ** What the theorems show
    - Functional refinement of the adapters and extractors: [ForEachClaim]
      is the loop of the visitor over the decoded claims in HAMT order;
      the precommit rows are exactly the added precommits of the
      differencing engine, whose entries are exactly the added, removed
      and modified keys (and which patches the old collection into the
      new one, and mirrors when its arguments are swapped).
    - Error paths: every decode error, visitor error and lookup error is
      propagated as the code does (wrapped or not), and no partial
      result is returned.
    - Invariants of the contexts: previous state and current state are
      the same pointer exactly at genesis.
    - Round trips: the decimal renderings of the reward row parse back
      to the state's values; [AsVersion] loses nothing; byte case
      conversion round-trips with Go's byte wrap-around.
    - Safety of SanitizeLabel (always valid UTF-8, equal to the library
      transformer, local) and of the daemon (fixed call order, node
      built only after its preconditions); the daemon's liveness
      (with every call succeeding it reaches serving the API).
    - The interface: the v9 adapter satisfies [power.State]'s contract,
      so enumeration, key listing and point lookup agree.
    - Composition: the miner extraction returns the non-nil results of
      both registered extractors whatever the registry's iteration order,
      fails when either fails, and at genesis emits exactly the fee debt
      row.
    - The flags: each option's value is the command line's, else the
      environment's, else the default; an unparsable bool in the
      environment stops the command before any call; [Gen] writes the
      template's output.
    - Findings, stated as theorems: [ExtractMinerFeeDebt] compares
      [big.Int]s by pointer and so emits a row at every height;
      [Underscore] puts no underscore before a final capital; the
      precommit extractor returns an empty list (not nil) when nothing
      changed; empty lists persist at unsupported schema versions; the
      declared default 1234 of the [api] flag never reaches the node.

    ** Fuel and bounds
    Go's loops over a string have no fuel; the model's [valid_loop] and
    [transform_loop] take the input's length as fuel. Each step consumes
    at least one byte, so that is enough: more fuel changes nothing
    ([transform_loop_fuel], [valid_loop_iff]), and the fuel never cuts
    the Go loop short. Integers are [Z]; the one
    conversion whose width matters (int64 to uint64 in [MinerCounts]) is
    [mod 2^64], and bytes are [ascii] with their [N] code, wrapped mod 256.

    ** Not modelled
    Tracing, metrics and logging (no effect on results); the adapters of
    actor versions other than 9; the consensus-minimum check of the
    power adapter and its sha256 claims-map hash, which delegate to
    go-state-types and are Section variables; Go's text/template engine
    and the file system [Gen] uses (Section variables); the
    registries' own code and the miner extractor, which are not in src
    (modelled from the spec in [Registry]); package clauses and imports,
    which carry no behaviour and are the source lines the map leaves
    out; the tests
    ([reward_test.go] supplies a witness's values; [power/task_test.go]
    is commented out). The store's HAMT traversal order is taken as its
    entry list; the differencing engine traverses the decoded [gmap].
    The components recorded as partly modelled (the store, HAMT and
    addresses; the differencing engine; the miner adapter and context;
    the registries; the record batch; Go's UTF-8 library) are not in
    src: they are modelled from the spec or from the libraries'
    documented behaviour as far as the code in src uses them, and no
    more of them can be translated from source. *)

From Stdlib Require Import ZArith String.
From stdpp Require Import base list strings.

Declare Scope lily_scope.
Delimit Scope lily_scope with lily.

(** ** Go errors

    An [error] value as the modelled code produces and propagates it.
    [ErrWrap msg e] is [xerrors.Errorf("msg: %w", e)]; [ErrUser n] is an
    error value chosen by a caller (e.g. returned by a visitor callback);
    [ErrRepoExists] is the sentinel [repo.ErrRepoExists] of lotus. *)
Inductive error :=
| ErrNotFound (what : string)
| ErrDecode (what : string)
| ErrAddress
| ErrActorNotFound
| ErrUnsupportedVersion (code : string)
| ErrSchema (msg : string)
| ErrPanic (msg : string)
| ErrUser (tag : nat)
| ErrRepoExists
| ErrWrap (msg : string) (inner : error).

#[export] Instance error_eq_dec : EqDecision error.
Proof. solve_decision. Defined.

(** A Go [(T, error)] pair where exactly one side is meaningful. *)
Inductive result (A : Type) :=
| Ok (a : A)
| Err (e : error).
Arguments Ok {A} a.
Arguments Err {A} e.

Definition rbind {A B} (m : result A) (k : A -> result B) : result B :=
  match m with
  | Ok a => k a
  | Err e => Err e
  end.

Definition rmap {A B} (f : A -> B) (m : result A) : result B :=
  rbind m (fun a => Ok (f a)).

Notation "'let?' x ':=' m 'in' k" := (rbind m (fun x => k))
  (at level 10, x name, m at level 100, k at level 200) : lily_scope.
Notation "'let?' ' p ':=' m 'in' k" := (rbind m (fun x => match x with p => k end))
  (at level 10, p pattern, m at level 100, k at level 200) : lily_scope.

Open Scope lily_scope.

(** [xerrors.Errorf("msg: %w", err)] around a fallible call. *)
Definition wrap_err {A} (msg : string) (r : result A) : result A :=
  match r with
  | Ok a => Ok a
  | Err e => Err (ErrWrap msg e)
  end.

Definition is_ok {A} (r : result A) : bool :=
  match r with Ok _ => true | Err _ => false end.

(** ** Generic lemmas shared by the components *)

Lemma rbind_Ok {A B} (a : A) (k : A -> result B) : rbind (Ok a) k = k a.
Proof. reflexivity. Qed.

Lemma rbind_Err {A B} (e : error) (k : A -> result B) : rbind (Err e) k = Err e.
Proof. reflexivity. Qed.

Lemma rbind_Ok_inv {A B} (m : result A) (k : A -> result B) (b : B) :
  rbind m k = Ok b -> exists a, m = Ok a /\ k a = Ok b.
Proof. destruct m; simpl; [eauto | discriminate]. Qed.

Lemma rbind_Err_inv {A B} (m : result A) (k : A -> result B) (e : error) :
  rbind m k = Err e -> m = Err e \/ exists a, m = Ok a /\ k a = Err e.
Proof. destruct m; simpl; [eauto | intros [= ->]; auto]. Qed.

Lemma rbind_assoc {A B C} (m : result A) (k : A -> result B) (h : B -> result C) :
  rbind (rbind m k) h = rbind m (fun a => rbind (k a) h).
Proof. destruct m; reflexivity. Qed.

Lemma rbind_ret {A} (m : result A) : rbind m Ok = m.
Proof. destruct m; reflexivity. Qed.

Create HintDb lily discriminated.
Create Rewrite HintDb lily_rw.
#[export] Hint Rewrite @rbind_Ok @rbind_Err @rbind_assoc @rbind_ret : lily_rw.

(** [lily_simp] rewrites with the development's equations and reduces. *)
Ltac lily_simp := repeat (progress (simpl in *; autorewrite with lily_rw in *)).

(** [destruct_result] performs the case split on the first [rbind] or
    [match] on a result in the goal, remembering the equation. *)
Ltac destruct_result :=
  match goal with
  | |- context [rbind ?m _] =>
      let E := fresh "E" in destruct m eqn:E; simpl
  | |- context [match ?m with Ok _ => _ | Err _ => _ end] =>
      let E := fresh "E" in destruct m eqn:E; simpl
  end.

(** ** Folds with early exit

    [fold_result f l s] is a Go [for _, x := range l] loop whose body may
    return an error: the first error ends the loop and is the result. *)
Fixpoint fold_result {A S} (f : A -> S -> result S) (l : list A) (s : S) : result S :=
  match l with
  | [] => Ok s
  | x :: l' => let? s' := f x s in fold_result f l' s'
  end.

(** [map_result f l]: apply a fallible [f] to every element, in order. *)
Fixpoint map_result {A B} (f : A -> result B) (l : list A) : result (list B) :=
  match l with
  | [] => Ok []
  | x :: l' => let? y := f x in let? ys := map_result f l' in Ok (y :: ys)
  end.

Lemma fold_result_app {A S} (f : A -> S -> result S) (l1 l2 : list A) (s : S) :
  fold_result f (l1 ++ l2) s = let? s' := fold_result f l1 s in fold_result f l2 s'.
Proof.
  revert s. induction l1 as [|x l1 IH]; intros s; simpl; [done|].
  destruct (f x s); simpl; [apply IH | done].
Qed.

(** The loop stops at the first error and returns it unchanged. *)
Lemma fold_result_stop {A S} (f : A -> S -> result S) (l1 l2 : list A) (x : A)
      (s s1 : S) (e : error) :
  fold_result f l1 s = Ok s1 -> f x s1 = Err e ->
  fold_result f (l1 ++ x :: l2) s = Err e.
Proof. intros H1 H2. rewrite fold_result_app, H1. simpl. by rewrite H2. Qed.

Lemma map_result_length {A B} (f : A -> result B) (l : list A) (l' : list B) :
  map_result f l = Ok l' -> length l' = length l.
Proof.
  revert l'. induction l as [|x l IH]; simpl; intros l' H; [by injection H as <-|].
  destruct (f x); simpl in H; [|discriminate].
  destruct (map_result f l) eqn:E; simpl in H; [|discriminate].
  injection H as <-. simpl. by rewrite (IH _ eq_refl).
Qed.

Lemma map_result_In {A B} (f : A -> result B) (l : list A) (l' : list B) (y : B) :
  map_result f l = Ok l' -> In y l' -> exists x, In x l /\ f x = Ok y.
Proof.
  revert l'. induction l as [|x l IH]; simpl; intros l' H Hy.
  - injection H as <-. done.
  - destruct (f x) eqn:Ef; simpl in H; [|discriminate].
    destruct (map_result f l) eqn:E; simpl in H; [|discriminate].
    injection H as <-. destruct Hy as [<-|Hy]; [eauto|].
    destruct (IH _ eq_refl Hy) as (x' & ? & ?). eauto.
Qed.

Lemma map_result_In_inv {A B} (f : A -> result B) (l : list A) (l' : list B) (x : A) :
  map_result f l = Ok l' -> In x l -> exists y, In y l' /\ f x = Ok y.
Proof.
  revert l'. induction l as [|x' l IH]; simpl; intros l' H Hx; [done|].
  destruct (f x') eqn:Ef; simpl in H; [|discriminate].
  destruct (map_result f l) eqn:E; simpl in H; [|discriminate].
  injection H as <-. destruct Hx as [<-|Hx]; [eexists; split; [left|]; eauto|].
  destruct (IH _ eq_refl Hx) as (y & ? & ?). exists y. simpl. auto.
Qed.

(** The calls of [map_result] commute: over a permuted list it succeeds
    with the permuted results. *)
Lemma map_result_perm {A B} (f : A -> result B) (l1 l2 : list A) (r1 : list B) :
  l1 ≡ₚ l2 -> map_result f l1 = Ok r1 -> exists r2, map_result f l2 = Ok r2 /\ r1 ≡ₚ r2.
Proof.
  intros Hp. revert r1.
  induction Hp as [|x l1 l2 _ IH|x y l|l1 l2 l3 _ IH1 _ IH2]; intros r1 H; simpl in *.
  - eauto.
  - destruct (f x); simpl in *; [|done].
    destruct (map_result f l1) as [r|]; simpl in H; [|done]. injection H as <-.
    destruct (IH _ eq_refl) as (r2 & -> & ?). simpl. eauto.
  - destruct (f x), (f y); simpl in *; try done.
    destruct (map_result f l); simpl in *; [|done]. injection H as <-.
    eexists; split; [done|]. apply perm_swap.
  - destruct (IH1 _ H) as (r2 & H2 & P1). destruct (IH2 _ H2) as (r3 & H3 & P2).
    exists r3. split; [done|]. by rewrite P1.
Qed.

(** One failing call makes [map_result] fail, whatever the others do. *)
Lemma map_result_Err {A B} (f : A -> result B) (l : list A) (x : A) (e : error) :
  In x l -> f x = Err e -> exists e', map_result f l = Err e'.
Proof.
  induction l as [|x' l IH]; simpl; intros Hin Hf; [done|].
  destruct Hin as [<-|Hin]; [rewrite Hf; eauto|].
  destruct (f x'); simpl; [|eauto]. destruct (IH Hin Hf) as [e' ->]. eauto.
Qed.

#[export] Hint Resolve map_result_length : lily.

(** The Standard Library's [map] and stdpp's [fmap] on lists agree. *)
Lemma fmap_list_map {A B} (f : A -> B) (l : list A) : f <$> l = map f l.
Proof. induction l as [|x l IH]; [done|]. cbn. by f_equal. Qed.
