(* ===== verification/Go.v ===== *)
(** * The Go runtime facts the extraction code relies on

    Pointers with identity (Go [==] on pointers and on [big.Int], which is a
    struct around a [*big.Int]), a monad that allocates them, the int64 and
    uint64 widths, and [big.Int.String]. *)

From Stdlib Require Import ZArith String DecimalString DecimalZ DecimalPos.
From stdpp Require Import base list strings.
From S2P Require Import Prelude.

Open Scope lily_scope.

(** ** Allocation

    A [GoM] computation reads and advances the next free heap address and
    may fail with a Go error. *)
Definition loc := positive.

Definition GoM (A : Type) := loc -> result (A * loc).

Definition gret {A} (a : A) : GoM A := fun n => Ok (a, n).

Definition gbind {A B} (m : GoM A) (k : A -> GoM B) : GoM B :=
  fun n => match m n with
           | Ok (a, n') => k a n'
           | Err e => Err e
           end.

Definition glift {A} (r : result A) : GoM A :=
  fun n => match r with Ok a => Ok (a, n) | Err e => Err e end.

Notation "'let*' x ':=' m 'in' k" := (gbind m (fun x => k))
  (at level 10, x name, m at level 100, k at level 200) : lily_scope.

(** [xerrors.Errorf("msg: %w", err)] around a fallible computation. *)
Definition gwrap {A} (msg : string) (m : GoM A) : GoM A :=
  fun n => match m n with
           | Ok r => Ok r
           | Err e => Err (ErrWrap msg e)
           end.

(** A pointer: its address and the value it points to (the modelled
    objects are never written after they are built). *)
Record ptr (A : Type) := Ptr { addr : loc; deref : A }.
Arguments Ptr {A} addr deref.
Arguments addr {A} p.
Arguments deref {A} p.

(** [new(T)] / [&T{...}]: a fresh address. *)
Definition alloc {A} (v : A) : GoM (ptr A) :=
  fun n => Ok (Ptr n v, Pos.succ n).

(** Go's [p == q] on pointers compares addresses. *)
Definition ptr_eqb {A} (p q : ptr A) : bool := Pos.eqb (addr p) (addr q).

(** ** Machine integers

    Go's [int64] values are the integers of [[-2^63, 2^63)]; the conversion
    [uint64(x)] of an [int64] keeps the 64-bit pattern, i.e. reduces modulo
    [2^64]. *)
Local Open Scope Z_scope.

Definition in_int64 (z : Z) : bool := (- 2 ^ 63 <=? z) && (z <? 2 ^ 63).

Definition uint64_of_int64 (z : Z) : Z := z mod 2 ^ 64.

Lemma uint64_of_int64_range (z : Z) : 0 <= uint64_of_int64 z < 2 ^ 64.
Proof. unfold uint64_of_int64. apply Z.mod_pos_bound. lia. Qed.

Lemma uint64_of_int64_nonneg (z : Z) : 0 <= z < 2 ^ 63 -> uint64_of_int64 z = z.
Proof. intros H. unfold uint64_of_int64. apply Z.mod_small. lia. Qed.

Lemma uint64_of_int64_neg (z : Z) : - 2 ^ 63 <= z < 0 -> uint64_of_int64 z = z + 2 ^ 64.
Proof.
  intros H. unfold uint64_of_int64.
  rewrite <- (Z.mod_add z 1 (2 ^ 64)) by lia. apply Z.mod_small. lia.
Qed.

(** ** big.Int

    go-state-types' [big.Int] is [struct { *big.Int }]: a nil pointer (the
    zero value) or a pointer to a number. *)
Inductive BigInt :=
| BigNil
| BigRef (p : ptr Z).

(** [a == b] on two [big.Int] values compares the embedded pointers. *)
Definition big_eq_go (a b : BigInt) : bool :=
  match a, b with
  | BigNil, BigNil => true
  | BigRef p, BigRef q => ptr_eqb p q
  | _, _ => false
  end.

(** The numeric value ([Int.Cmp] of two non-nil values compares these). *)
Definition big_val (b : BigInt) : option Z :=
  match b with BigNil => None | BigRef p => Some (deref p) end.

(** [big.NewInt(z)] and decoding a big integer: a fresh pointer. *)
Definition big_new (z : Z) : GoM BigInt :=
  let* p := alloc z in gret (BigRef p).

(** [String()] of a [*big.Int]: the decimal rendering, ["<nil>"] for nil. *)
Definition Z_String (z : Z) : string := NilZero.string_of_int (Z.to_int z).

Definition big_String (b : BigInt) : string :=
  match b with BigNil => "<nil>"%string | BigRef p => Z_String (deref p) end.

(** [big.Int.SetString(s, 10)]: the decimal parser. *)
Definition Z_Parse (s : string) : option Z :=
  option_map Z.of_int (NilZero.int_of_string s).

Lemma Z_String_roundtrip (z : Z) : Z_Parse (Z_String z) = Some z.
Proof.
  unfold Z_Parse, Z_String.
  rewrite NilZero.isi.
  - simpl. rewrite DecimalZ.of_to. reflexivity.
  - destruct z; simpl; try discriminate.
    intros [=]. by apply (Unsigned.to_uint_nonnil p).
  - destruct z; simpl; try discriminate.
    intros [=]. by apply (Unsigned.to_uint_nonnil p).
Qed.

Lemma Z_String_inj (z z' : Z) : Z_String z = Z_String z' -> z = z'.
Proof.
  intros H. apply (f_equal Z_Parse) in H.
  rewrite !Z_String_roundtrip in H. congruence.
Qed.
