(* ===== verification/Store.v ===== *)
(** * The content-addressed store and the HAMT collections read through it

    [adt.Store] is a map from CIDs to blocks; [Get(ctx, c, &out)] decodes the
    block at [c] into [out]. The decoded layouts of go-state-types that the
    extraction code reads are the constructors of [block]. An [adt.Map] is a
    HAMT whose entries are visited in the HAMT's own order; its values stay
    encoded ([raw]) until they are read, so a malformed value is only noticed
    by the operations that decode it. Addresses are go-address's
    [Address{str}] around their byte encoding. *)

From Stdlib Require Import ZArith String.
From stdpp Require Import base list strings gmap.
From S2P Require Import Prelude Go.

Open Scope lily_scope.

(** A CID, by its canonical string form ([Cid.String()] is the identity). *)
Abbreviation Cid := string (only parsing).

(** ** go-address *)

(** [address.Address]: the byte encoding (protocol byte, then payload). *)
Record Address := MkAddress { addr_str : string }.

#[export] Instance Address_eq_dec : EqDecision Address.
Proof. solve_decision. Defined.

(** The length check of [address.NewFromBytes] on the protocol byte and the
    payload: ID (0) carries a uvarint of at most 10 bytes, SECP256K1 (1) and
    Actor (2) a 20-byte hash, BLS (3) a 48-byte key. *)
Definition addr_bytes_valid (b : string) : bool :=
  match b with
  | EmptyString => false
  | String p payload =>
      match Ascii.nat_of_ascii p with
      | 0 => (0 <? String.length payload)%nat && (String.length payload <=? 10)%nat
      | 1 | 2 => (String.length payload =? 20)%nat
      | 3 => (String.length payload =? 48)%nat
      | _ => false
      end
  end.

Definition NewFromBytes (b : string) : result Address :=
  if addr_bytes_valid b then Ok (MkAddress b) else Err ErrAddress.

(** [abi.AddrKey(a)] = [string(a.Bytes())]. *)
Definition AddrKey (a : Address) : string := addr_str a.

Definition addr_valid (a : Address) : bool := addr_bytes_valid (addr_str a).

(** ** Decoded layouts of go-state-types *)

(** [smoothing.FilterEstimate] *)
Record FilterEstimate := { PositionEstimate : Z; VelocityEstimate : Z }.

(** [power9.Claim] *)
Record power9_Claim := {
  WindowPoStProofType : Z;
  c9_RawBytePower : Z;
  c9_QualityAdjPower : Z }.

(** [power9.State] *)
Record power9_State := {
  TotalRawBytePower : Z;
  TotalBytesCommitted : Z;
  TotalQualityAdjPower : Z;
  TotalQABytesCommitted : Z;
  TotalPledgeCollateral : Z;
  ThisEpochRawBytePower : Z;
  ThisEpochQualityAdjPower : Z;
  ThisEpochPledgeCollateral : Z;
  ThisEpochQAPowerSmoothed : FilterEstimate;
  MinerCount : Z;
  MinerAboveMinPowerCount : Z;
  CronEventQueue : Cid;
  FirstCronEpoch : Z;
  Claims : Cid;
  ProofValidationBatch : option Cid }.

(** [miner.SectorPreCommitInfo] *)
Record SectorPreCommitInfo := {
  SealProof : Z;
  SectorNumber : Z;
  SealedCID : Cid;
  SealRandEpoch : Z;
  DealIDs : list Z;
  Expiration : Z;
  ReplaceCapacity : bool;
  ReplaceSectorDeadline : Z;
  ReplaceSectorPartition : Z;
  ReplaceSectorNumber : Z }.

(** [miner.SectorPreCommitOnChainInfo] *)
Record SectorPreCommitOnChainInfo := {
  Info : SectorPreCommitInfo;
  PreCommitDeposit : Z;
  PreCommitEpoch : Z;
  DealWeight : Z;
  VerifiedDealWeight : Z }.

(** [reward.State], as the version-independent getters of the reward
    adapter read it ([TotalStoragePowerReward] is [TotalMined] before
    actors v2). *)
Record reward_State := {
  CumsumBaseline : Z;
  CumsumRealized : Z;
  EffectiveNetworkTime : Z;
  EffectiveBaselinePower : Z;
  ThisEpochReward : Z;
  ThisEpochRewardSmoothed : FilterEstimate;
  ThisEpochBaselinePower : Z;
  TotalStoragePowerReward : Z }.

#[export] Instance FilterEstimate_eq_dec : EqDecision FilterEstimate.
Proof. solve_decision. Defined.
#[export] Instance power9_Claim_eq_dec : EqDecision power9_Claim.
Proof. solve_decision. Defined.
#[export] Instance SectorPreCommitInfo_eq_dec : EqDecision SectorPreCommitInfo.
Proof. solve_decision. Defined.
#[export] Instance SectorPreCommitOnChainInfo_eq_dec : EqDecision SectorPreCommitOnChainInfo.
Proof. solve_decision. Defined.

(** An encoded HAMT value ([cbg.Deferred]): the value it decodes to, or
    bytes that decode to nothing. *)
Inductive raw :=
| RawClaim9 (c : power9_Claim)
| RawPreCommit (p : SectorPreCommitOnChainInfo)
| RawBytes (b : string).

(** A block of the store. *)
Inductive block :=
| BPower9 (s : power9_State)
| BReward (s : reward_State)
| BHamt (entries : list (string * raw))
| BMiner (fee_debt : Z) (precommits : Cid)
| BMarket (proposals : Cid) (states : Cid)
| BOpaque (b : string).

Abbreviation Store := (gmap string block) (only parsing).

(** [UnmarshalCBOR] into a value of type [T]. *)
Class Unmarshal (T : Type) := unmarshal : raw -> result T.

#[export] Instance Unmarshal_power9_Claim : Unmarshal power9_Claim :=
  fun r => match r with
           | RawClaim9 c => Ok c
           | _ => Err (ErrDecode "power9.Claim")
           end.

#[export] Instance Unmarshal_SectorPreCommitOnChainInfo : Unmarshal SectorPreCommitOnChainInfo :=
  fun r => match r with
           | RawPreCommit p => Ok p
           | _ => Err (ErrDecode "miner.SectorPreCommitOnChainInfo")
           end.

(** ** adt.Map *)

(** A loaded HAMT: its root and its entries in iteration order. *)
Record Map := { map_root : Cid; map_entries : list (string * raw) }.

(** The HAMT invariant: a key is stored at most once. *)
Definition map_wf (m : Map) : Prop := NoDup (map fst (map_entries m)).

(** [adt9.AsMap(store, root, bitwidth)] of go-state-types: load the root
    node; a failure to load it is wrapped as "failed to load hamt node". *)
Definition AsMap (st : Store) (root : Cid) (bitwidth : nat) : result Map :=
  match st !! root with
  | Some (BHamt es) => Ok {| map_root := root; map_entries := es |}
  | Some _ => Err (ErrWrap "failed to load hamt node" (ErrDecode "hamt node"))
  | None => Err (ErrWrap "failed to load hamt node" (ErrNotFound root))
  end.

(** The encoded value stored under a key. *)
Fixpoint entries_find (es : list (string * raw)) (k : string) : option raw :=
  match es with
  | [] => None
  | (k', r) :: es' => if decide (k' = k) then Some r else entries_find es' k
  end.

Definition map_find (m : Map) (k : string) : option raw := entries_find (map_entries m) k.

(** [Map.Get(k, &out) (found, err)]: the decoded value when found. *)
Definition map_Get {T} `{Unmarshal T} (m : Map) (k : string) : result (option T) :=
  match map_find m k with
  | None => Ok None
  | Some r => rmap Some (unmarshal r)
  end.

Section ForEach.
Context {T S : Type} `{Unmarshal T}.

(** [Map.ForEach(&out, cb)]: decode each value into [out] and call the
  callback, stopping at the first error, which is returned as is. The
  callback's captured state is threaded explicitly as [S]. *)
Fixpoint entries_ForEach (es : list (string * raw))
       (cb : string -> T -> S -> result S) (s : S) : result S :=
match es with
| [] => Ok s
| (k, r) :: es' =>
    let? v := unmarshal r in
    let? s' := cb k v s in
    entries_ForEach es' cb s'
end.

(** [Map.ForEach(nil, cb)]: keys only, values are not decoded. *)
Fixpoint entries_ForEachKey (es : list (string * raw))
       (cb : string -> S -> result S) (s : S) : result S :=
match es with
| [] => Ok s
| (k, _) :: es' =>
    let? s' := cb k s in
    entries_ForEachKey es' cb s'
end.
End ForEach.

Definition map_ForEach {T S} `{Unmarshal T} (m : Map)
           (cb : string -> T -> S -> result S) (s : S) : result S :=
  entries_ForEach (map_entries m) cb s.

Definition map_ForEachKey {S} (m : Map) (cb : string -> S -> result S) (s : S) : result S :=
  entries_ForEachKey (map_entries m) cb s.

(** Decoding every entry of a HAMT, in iteration order. *)
Definition entries_decode {T B} `{Unmarshal T} (f : string -> T -> result B)
    (es : list (string * raw)) : result (list B) :=
  map_result (fun e => let? v := unmarshal e.2 in f e.1 v) es.

(** The store invariant the HAMTs rely on: every HAMT node of the store
    holds each key at most once. *)
Definition store_wf (st : Store) : Prop :=
  forall root es, st !! root = Some (BHamt es) -> NoDup (map fst es).

(** Its decidable check on one block. *)
Definition hamt_keys_distinct (b : block) : bool :=
  match b with BHamt es => bool_decide (NoDup (map fst es)) | _ => true end.

(** ** Lemmas on addresses and HAMT entries *)

Lemma NewFromBytes_AddrKey (a : Address) :
  addr_valid a = true -> NewFromBytes (AddrKey a) = Ok a.
Proof. unfold NewFromBytes, AddrKey, addr_valid. intros ->. by destruct a. Qed.

Lemma NewFromBytes_Ok (b : string) (a : Address) :
  NewFromBytes b = Ok a -> AddrKey a = b /\ addr_valid a = true.
Proof.
  unfold NewFromBytes, addr_valid. destruct (addr_bytes_valid b) eqn:E;
    intros [=<-]; simpl; auto.
Qed.


Lemma entries_find_Some (es : list (string * raw)) (k : string) (r : raw) :
  entries_find es k = Some r -> In (k, r) es.
Proof.
  induction es as [|[k' r'] es IH]; simpl; [done|].
  case_decide; [intros [= <-]; subst; auto | auto].
Qed.

Lemma entries_find_In (es : list (string * raw)) (k : string) (r : raw) :
  NoDup (map fst es) -> In (k, r) es -> entries_find es k = Some r.
Proof.
  induction es as [|[k' r'] es IH]; simpl; [done|].
  intros Hnd Hin. apply NoDup_cons in Hnd as [Hk Hnd].
  case_decide as Heq; subst.
  - destruct Hin as [[= ->]|Hin]; [done|].
    exfalso. apply Hk, list_elem_of_In, in_map_iff. exists (k, r). auto.
  - destruct Hin as [[= -> ->]|Hin]; [done | auto].
Qed.

Lemma entries_find_None (es : list (string * raw)) (k : string) (r : raw) :
  entries_find es k = None -> ~ In (k, r) es.
Proof.
  induction es as [|[k' r'] es IH]; simpl; [by intros _ []|].
  case_decide as Hk; [intros [=]|]. intros Hf [[= -> ->]|Hin]; [by apply Hk | exact (IH Hf Hin)].
Qed.

Section Decode.
Context {T B S : Type} `{Unmarshal T}.

(** When every entry decodes, [ForEach] with a body that first converts
  the entry and then runs [cb] is the loop of [cb] over the decoded
  entries. *)
Lemma entries_ForEach_decode (f : string -> T -> result B) (cb : B -> S -> result S)
    (body : string -> T -> S -> result S)
    (es : list (string * raw)) (l : list B) (s : S) :
(forall k v s, body k v s = let? b := f k v in cb b s) ->
entries_decode f es = Ok l ->
entries_ForEach es body s = fold_result cb l s.
Proof.
intros Hbody. unfold entries_decode. revert l s.
induction es as [|[k r] es IH]; simpl; intros l s Hd.
- by injection Hd as <-.
- destruct (unmarshal r) as [v|e]; simpl in *; [|discriminate].
  rewrite Hbody.
  destruct (f k v) as [b|e]; simpl in *; [|discriminate].
  destruct (map_result _ es) as [l'|e] eqn:E; simpl in Hd; [|discriminate].
  injection Hd as <-. simpl. destruct (cb b s); simpl; [by apply IH | done].
Qed.

(** Visiting keys only: the values are never decoded, and a body that
  appends the converted key collects the converted keys in order. *)
Lemma entries_ForEachKey_collect (g : string -> result B)
    (body : string -> list B -> result (list B))
    (es : list (string * raw)) (l : list B) :
(forall k acc, body k acc = let? b := g k in Ok (acc ++ [b])) ->
map_result (fun e => g e.1) es = Ok l ->
entries_ForEachKey es body [] = Ok l.
Proof.
intros Hbody Hm.
cut (forall acc, entries_ForEachKey es body acc = Ok (acc ++ l)).
{ intros Hc. by rewrite (Hc []). }
revert l Hm. induction es as [|[k r] es IH]; simpl; intros l Hm acc.
- injection Hm as <-. by rewrite app_nil_r.
- rewrite Hbody. destruct (g k) as [b|e]; simpl in *; [|discriminate].
  destruct (map_result _ es) as [l'|e] eqn:E; simpl in Hm; [|discriminate].
  injection Hm as <-. rewrite (IH l' eq_refl). by rewrite <- app_assoc.
Qed.
End Decode.

Lemma AsMap_wf (st : Store) (root : Cid) (bw : nat) (m : Map) :
  store_wf st -> AsMap st root bw = Ok m -> map_wf m.
Proof.
  unfold AsMap, map_wf. intros Hwf.
  destruct (st !! root) as [[]|] eqn:E; intros [= <-]. simpl. eauto.
Qed.

(** Decoding every entry to its (key, value) pair keeps the keys in order,
    and the pairs are exactly the entries whose encoded value decodes. *)
Lemma entries_decode_pairs {T} `{Unmarshal T} (es : list (string * raw)) (l : list (string * T)) :
  entries_decode (fun k v => Ok (k, v)) es = Ok l ->
  map fst l = map fst es /\
  forall k v, (k, v) ∈ l <-> exists r, (k, r) ∈ es /\ unmarshal r = Ok v.
Proof.
  unfold entries_decode. revert l. induction es as [|[k0 r0] es IH]; simpl; intros l Hd.
  - injection Hd as <-. split; [done|]. intros k v. split; [by intros ?%not_elem_of_nil|].
    by intros (r & ?%not_elem_of_nil & _).
  - destruct (unmarshal r0) as [v0|e] eqn:E0; simpl in Hd; [|discriminate].
    destruct (map_result _ es) as [l'|e]; simpl in Hd; [|discriminate].
    injection Hd as <-. destruct (IH l' eq_refl) as [Hk Hm]. simpl. rewrite Hk.
    split; [done|]. intros k v. rewrite elem_of_cons, Hm. split.
    + intros [[= -> ->]|(r & Hr & Hu)]; [exists r0; split; [left|]; done|].
      exists r. split; [by right|done].
    + intros (r & [[= -> ->]|Hr]%elem_of_cons & Hu); [left; congruence|].
      right. eauto.
Qed.

(** The first entry that fails to decode aborts the whole decoding. *)
Lemma entries_decode_error {T B} `{Unmarshal T} (f : string -> T -> result B)
    (es : list (string * raw)) (k : string) (r : raw) (e : error) :
  (k, r) ∈ es -> unmarshal r = Err e -> exists e', entries_decode f es = Err e'.
Proof.
  unfold entries_decode. induction es as [|[k0 r0] es IH]; simpl;
    [by intros ?%not_elem_of_nil|].
  intros [[= -> ->]|Hin]%elem_of_cons Hu.
  - rewrite Hu. simpl. eauto.
  - destruct (unmarshal r0) as [v0|e0]; simpl; [|eauto].
    destruct (f k0 v0); simpl; [|eauto].
    destruct (IH Hin Hu) as [e' ->]. simpl. eauto.
Qed.


(** A store built from a list of blocks is well formed when every HAMT
    node of the list has distinct keys. *)
Lemma store_wf_of_list (l : list (string * block)) :
  forallb (fun p => hamt_keys_distinct p.2) l = true -> store_wf (list_to_map l).
Proof.
  intros Hl root es Hs. apply elem_of_list_to_map_2 in Hs.
  apply forallb_forall with (x := (root, BHamt es)) in Hl; [|by apply list_elem_of_In].
  simpl in Hl. by apply bool_decide_eq_true in Hl.
Qed.
