(* ===== verification/PowerV9.v ===== *)
(** * The power actor state adapter, version 9

    [src/chain/actors/builtin/power/v9.go]: [state9] embeds the decoded
    [power9.State] and keeps the store through which the claims HAMT is read
    lazily. Every method is a function of the state returning a [result];
    [ForEachClaim] threads the visitor's captured state explicitly. The Go
    interface value [State] that [ClaimsChanged] receives is [PState]: a
    version 9 state, or a state of another actor version whose layout this
    file does not model (the adapters v0..v8 are generated from the same
    template and are not in the sources). *)

From Stdlib Require Import ZArith String.
From stdpp Require Import base list strings gmap.
From S2P Require Import Prelude Go Store.

Open Scope lily_scope.

(** lily's version-independent [power.Claim]. *)
Record Claim := { RawBytePower : Z; QualityAdjPower : Z }.

#[export] Instance Claim_eq_dec : EqDecision Claim.
Proof. solve_decision. Defined.

Module V9.

(** [type state9 struct { power9.State; store adt.Store }] *)
Record state9 := { State : power9_State; store : Store }.

(** [builtin9.DefaultHamtBitwidth], [manifest.PowerKey],
  [actorstypes.Version9] *)
Definition DefaultHamtBitwidth : nat := 5.
Definition PowerKey : string := "storagepower".
Definition Version9 : nat := 9.

(** [load9]: decode the root block; the claims HAMT is not read. *)
Definition load9 (st : Store) (root : Cid) : result state9 :=
match st !! root with
| Some (BPower9 s) => Ok {| State := s; store := st |}
| Some _ => Err (ErrDecode "power9.State")
| None => Err (ErrNotFound root)
end.

Definition TotalLocked (s : state9) : result Z :=
Ok (TotalPledgeCollateral (State s)).

Definition TotalPower (s : state9) : result Claim :=
Ok {| RawBytePower := TotalRawBytePower (State s);
      QualityAdjPower := TotalQualityAdjPower (State s) |}.

(** Committed power, including miners below the minimum threshold. *)
Definition TotalCommitted (s : state9) : result Claim :=
Ok {| RawBytePower := TotalBytesCommitted (State s);
      QualityAdjPower := TotalQABytesCommitted (State s) |}.

Definition fromV9Claim (c : power9_Claim) : Claim :=
{| RawBytePower := c9_RawBytePower c; QualityAdjPower := c9_QualityAdjPower c |}.

Definition ClaimsMap (s : state9) : result Map :=
AsMap (store s) (Claims (State s)) DefaultHamtBitwidth.

(** [MinerPower]: a missing claim is [found = false] with the zero claim
  (Go's zero [power9.Claim]; its nil big integers are modelled as 0). *)
Definition MinerPower (s : state9) (a : Address) : result (Claim * bool) :=
let? claims := ClaimsMap s in
let? found := map_Get (T := power9_Claim) claims (AddrKey a) in
match found with
| Some c => Ok (fromV9Claim c, true)
| None => Ok ({| RawBytePower := 0; QualityAdjPower := 0 |}, false)
end.

Definition TotalPowerSmoothed (s : state9) : result FilterEstimate :=
Ok (ThisEpochQAPowerSmoothed (State s)).

(** [uint64(MinerAboveMinPowerCount), uint64(MinerCount)] of the int64
  counters. *)
Definition MinerCounts (s : state9) : result (Z * Z) :=
Ok (uint64_of_int64 (MinerAboveMinPowerCount (State s)),
    uint64_of_int64 (MinerCount (State s))).

Definition RampStartEpoch (s : state9) : Z := 0.
Definition RampDurationEpochs (s : state9) : Z := 0.

(** [ListAllMiners]: [ForEach(nil, ...)] over the claims: keys only. *)
Definition ListAllMiners (s : state9) : result (list Address) :=
let? claims := ClaimsMap s in
map_ForEachKey claims
  (fun k miners => let? a := NewFromBytes k in Ok (miners ++ [a])) [].

(** [ForEachClaim(cb)]: decode each claim, parse its key, call [cb]. *)
Definition ForEachClaim {A} (s : state9) (cb : Address -> Claim -> A -> result A)
         (acc : A) : result A :=
let? claims := ClaimsMap s in
map_ForEach (T := power9_Claim) claims
  (fun k c acc => let? a := NewFromBytes k in cb a (fromV9Claim c) acc) acc.

Definition ClaimsMapBitWidth (s : state9) : nat := DefaultHamtBitwidth.

Section Delegated.
(** What two methods delegate to: go-state-types'
  [power9.State.MinerNominalPowerMeetsConsensusMinimum] (not in the
  sources) and [sha256.Sum256]. *)
Variable power9_MinerNominalPowerMeetsConsensusMinimum :
  power9_State -> Store -> Address -> result bool.
Variable Sum256 : string -> string.

(** [MinerNominalPowerMeetsConsensusMinimum]: the state's own check,
  given the store. *)
Definition MinerNominalPowerMeetsConsensusMinimum (s : state9) (a : Address) : result bool :=
  power9_MinerNominalPowerMeetsConsensusMinimum (State s) (store s) a.

(** [ClaimsMapHashFunction]: the 32 bytes of [sha256.Sum256], as a slice. *)
Definition ClaimsMapHashFunction (s : state9) : string -> string :=
  fun input => Sum256 input.
End Delegated.

Definition decodeClaim (s : state9) (val : raw) : result Claim :=
rmap fromV9Claim (unmarshal val).

Definition ActorKey (s : state9) : string := PowerKey.
Definition ActorVersion (s : state9) : nat := Version9.

(** [Code]: the registry lookup of lotus' [actors.GetActorCodeID]; a
  missing entry panics. *)
Definition Code (registry : gmap (nat * string) Cid) (s : state9) : result Cid :=
match registry !! (ActorVersion s, ActorKey s) with
| Some c => Ok c
| None => Err (ErrPanic "didn't find actor code id")
end.

(** The [power.State] interface value passed to [ClaimsChanged]. *)
Inductive PState :=
| PState9 (s : state9)
| PStateOther (version : nat).

(** [ClaimsChanged(other)]: a state of another version is always a
  change; otherwise compare the claims roots ([cid.Equals]). *)
Definition ClaimsChanged (s : state9) (other : PState) : result bool :=
match other with
| PState9 o => Ok (negb (bool_decide (Claims (State s) = Claims (State o))))
| PStateOther _ => Ok true
end.

(** ** The claims collection as the adapter presents it

  [claims_view s] is the list of (miner, normalised claim) pairs of the
  claims HAMT in iteration order, decoded as [ForEachClaim] decodes them
  (value first, then key). It is the abstract collection against which
  the methods are specified. *)
Definition decode_entry (e : string * raw) : result (Address * Claim) :=
let? c := unmarshal (T := power9_Claim) e.2 in
let? a := NewFromBytes e.1 in Ok (a, fromV9Claim c).

Definition claims_view (s : state9) : result (list (Address * Claim)) :=
let? claims := ClaimsMap s in
map_result decode_entry (map_entries claims).

(** The first claim recorded for a miner. *)
Fixpoint lookup_claim (a : Address) (l : list (Address * Claim)) : option Claim :=
match l with
| [] => None
| (a', c) :: l' => if decide (a' = a) then Some c else lookup_claim a l'
end.

End V9.

(** ** Concrete states for the witnesses *)
Module V9Examples.
Import V9.

(** The ID address f01234 (protocol 0, uvarint 1234 = d2 09). *)
Definition miner_1234 : Address :=
MkAddress (String (Ascii.ascii_of_nat 0)
            (String (Ascii.ascii_of_nat 210) (String (Ascii.ascii_of_nat 9) EmptyString))).

(** The ID address f07. *)
Definition miner_7 : Address :=
MkAddress (String (Ascii.ascii_of_nat 0) (String (Ascii.ascii_of_nat 7) EmptyString)).

Definition claim_10_5 : power9_Claim :=
{| WindowPoStProofType := 3; c9_RawBytePower := 10; c9_QualityAdjPower := 5 |}.

Definition power_state (claims : Cid) (miners : Z) : power9_State :=
{| TotalRawBytePower := 1000; TotalBytesCommitted := 2000;
   TotalQualityAdjPower := 3000; TotalQABytesCommitted := 4000;
   TotalPledgeCollateral := 5000; ThisEpochRawBytePower := 6000;
   ThisEpochQualityAdjPower := 7000; ThisEpochPledgeCollateral := 8000;
   ThisEpochQAPowerSmoothed := {| PositionEstimate := 800; VelocityEstimate := 6 |};
   MinerCount := miners; MinerAboveMinPowerCount := 20;
   CronEventQueue := "cron"; FirstCronEpoch := 0; Claims := claims;
   ProofValidationBatch := None |}.

(** A store with one claim for f01234, and one whose second entry is
  malformed. *)
Definition store_one : Store :=
<["root" := BPower9 (power_state "claims" 10)]>
(<["claims" := BHamt [(addr_str miner_1234, RawClaim9 claim_10_5)]]> ∅).

Definition store_bad : Store :=
<["root" := BPower9 (power_state "claims" (-1))]>
(<["claims" := BHamt [(addr_str miner_1234, RawClaim9 claim_10_5);
                     (addr_str miner_7, RawBytes "garbage")]]> ∅).

Definition st_one : state9 := {| State := power_state "claims" 10; store := store_one |}.
Definition st_bad : state9 := {| State := power_state "claims" (-1); store := store_bad |}.
End V9Examples.

Module V9Facts.
Import V9.

Lemma AddrKey_inj (a a' : Address) : AddrKey a = AddrKey a' -> a = a'.
Proof. destruct a, a'. simpl. congruence. Qed.

(** The point lookup of the HAMT agrees with the first match in the
  decoded list. *)
Lemma entries_Get_lookup (es : list (string * raw)) (l : list (Address * Claim))
    (a : Address) :
map_result decode_entry es = Ok l ->
rmap (option_map fromV9Claim)
  (match entries_find es (AddrKey a) with
   | None => Ok None
   | Some r => rmap Some (unmarshal (T := power9_Claim) r)
   end) = Ok (lookup_claim a l).
Proof.
revert l. induction es as [|[k r] es IH]; simpl; intros l Hl.
- by injection Hl as <-.
- unfold decode_entry in Hl at 1. simpl in Hl.
  destruct (unmarshal r) as [v|] eqn:Hv; simpl in Hl; [|discriminate].
  destruct (NewFromBytes k) as [a0|] eqn:Ha; simpl in Hl; [|discriminate].
  destruct (map_result decode_entry es) as [l'|] eqn:E; simpl in Hl; [|discriminate].
  injection Hl as <-. apply NewFromBytes_Ok in Ha as [Hk _]. simpl.
  case_decide as Hka; case_decide as Haa; subst.
  + by rewrite Hv.
  + exfalso. apply Haa. by apply AddrKey_inj.
  + congruence.
  + by apply IH.
Qed.

Lemma claims_view_map (s : state9) (l : list (Address * Claim)) :
claims_view s = Ok l ->
exists m, ClaimsMap s = Ok m /\ map_result decode_entry (map_entries m) = Ok l.
Proof. unfold claims_view. intros H. apply rbind_Ok_inv in H as (m & ? & ?). eauto. Qed.



(** Decoding the view entry by entry: the keys alone. *)
Lemma view_keys (es : list (string * raw)) (l : list (Address * Claim)) :
map_result decode_entry es = Ok l ->
map_result (fun e => NewFromBytes e.1) es = Ok (map fst l).
Proof.
revert l. induction es as [|[k r] es IH]; simpl; intros l Hl; [by injection Hl as <-|].
unfold decode_entry in Hl at 1. simpl in Hl.
destruct (unmarshal r); simpl in Hl; [|discriminate].
destruct (NewFromBytes k); simpl in Hl; [|discriminate].
destruct (map_result decode_entry es) as [l'|]; simpl in Hl; [|discriminate].
injection Hl as <-. by rewrite (IH l' eq_refl).
Qed.

(** With a visitor that never fails, [ForEach] fails exactly as decoding
  the view fails. *)
Lemma entries_ForEach_total_err {A} (cb : Address -> Claim -> A -> result A)
    (es : list (string * raw)) (e : error) (acc : A) :
(forall a c acc, is_ok (cb a c acc) = true) ->
map_result decode_entry es = Err e ->
entries_ForEach (T := power9_Claim) es
  (fun k c acc => let? a := NewFromBytes k in cb a (fromV9Claim c) acc) acc = Err e.
Proof.
intros Htot. revert acc. induction es as [|[k r] es IH]; simpl; intros acc He; [discriminate|].
unfold decode_entry in He at 1. simpl in He.
destruct (unmarshal r) as [v|]; simpl in *; [|congruence].
destruct (NewFromBytes k) as [a|]; simpl in *; [|congruence].
specialize (Htot a (fromV9Claim v) acc).
destruct (cb a (fromV9Claim v) acc); simpl in *; [|discriminate].
destruct (map_result decode_entry es); simpl in He; [discriminate|]. by apply IH.
Qed.

(** C30: [load9] decodes only the root block: it succeeds even when the
  claims HAMT is absent from the store, and the first method that needs
  the claims then fails with the store's not-found error, wrapped by
  [adt9.AsMap] as "failed to load hamt node". *)
Theorem load9_lazy (st : Store) (root : Cid) (p : power9_State) (a : Address) :
st !! root = Some (BPower9 p) -> st !! Claims p = None ->
load9 st root = Ok {| State := p; store := st |} /\
MinerPower {| State := p; store := st |} a =
  Err (ErrWrap "failed to load hamt node" (ErrNotFound (Claims p))).
Proof.
intros H1 H2. unfold load9, MinerPower, ClaimsMap, AsMap. simpl.
by rewrite H1, H2.
Qed.

(** [load9] fails with not-found when the root is missing and with a
  decode error when the root holds anything but a power state. *)
Theorem load9_errors (st : Store) (root : Cid) (e : error) :
load9 st root = Err e ->
(st !! root = None /\ e = ErrNotFound root) \/
(exists b, st !! root = Some b /\ (forall p, b <> BPower9 p) /\
           e = ErrDecode "power9.State").
Proof.
unfold load9. destruct (st !! root) as [[]|]; intros [= <-]; try by left.
all: right; eexists; split; [done|]; split; [by intros ? [=] | done].
Qed.

(** [ForEachClaim] as the loop of the visitor over the claims view. *)
Lemma ForEachClaim_fold {A} (s : state9) (l : list (Address * Claim))
      (cb : Address -> Claim -> A -> result A) (acc : A) :
  claims_view s = Ok l ->
  ForEachClaim s cb acc = fold_result (fun ac acc => cb ac.1 ac.2 acc) l acc.
Proof.
  intros (m & Hm & Hl)%claims_view_map.
  unfold ForEachClaim, map_ForEach. rewrite Hm. simpl.
  eapply (entries_ForEach_decode
            (fun k c => let? a := NewFromBytes k in Ok (a, fromV9Claim c))); [|exact Hl].
  intros k v acc'. simpl. by destruct (NewFromBytes k).
Qed.

(** C1: [ForEachClaim] is the loop of the visitor over the claims view:
  every claim is visited once, in HAMT order, normalised by
  [fromV9Claim], and the visitor's state is threaded through. *)
Theorem ForEachClaim_refines {A} (s : state9) (l : list (Address * Claim))
      (cb : Address -> Claim -> A -> result A) (acc : A) :
claims_view s = Ok l ->
ForEachClaim s cb acc = fold_result (fun ac acc => cb ac.1 ac.2 acc) l acc.
Proof. apply ForEachClaim_fold. Qed.

(** a visitor that aborts with an error ends the enumeration; the
  call returns the visitor's own error unchanged. *)
Theorem ForEachClaim_visitor_abort {A} (s : state9) (l1 l2 : list (Address * Claim))
      (a : Address) (c : Claim) (cb : Address -> Claim -> A -> result A)
      (acc acc1 : A) (e : error) :
claims_view s = Ok (l1 ++ (a, c) :: l2) ->
fold_result (fun ac acc => cb ac.1 ac.2 acc) l1 acc = Ok acc1 ->
cb a c acc1 = Err e ->
ForEachClaim s cb acc = Err e.
Proof.
intros Hv H1 H2. rewrite (ForEachClaim_fold _ _ _ _ Hv).
by apply (fold_result_stop _ _ _ (a, c) acc acc1).
Qed.

(** C21: with a visitor that never fails, [ForEachClaim] fails exactly
  when decoding the claims fails, with that error: no partial success. *)
Theorem ForEachClaim_decode_error {A} (s : state9) (m : Map)
      (cb : Address -> Claim -> A -> result A) (acc : A) (e : error) :
(forall a c acc, is_ok (cb a c acc) = true) ->
ClaimsMap s = Ok m ->
map_result decode_entry (map_entries m) = Err e ->
ForEachClaim s cb acc = Err e.
Proof.
intros Htot Hm He. unfold ForEachClaim, map_ForEach. rewrite Hm. simpl.
by apply entries_ForEach_total_err.
Qed.

(** [MinerPower] against the claims view. *)
Lemma MinerPower_view (s : state9) (l : list (Address * Claim)) (a : Address) :
claims_view s = Ok l ->
MinerPower s a =
  Ok (match lookup_claim a l with
      | Some c => (c, true)
      | None => ({| RawBytePower := 0; QualityAdjPower := 0 |}, false)
      end).
Proof.
intros (m & Hm & Hl)%claims_view_map.
pose proof (entries_Get_lookup _ _ a Hl) as Hg.
unfold MinerPower, map_Get, map_find. rewrite Hm. simpl.
destruct (entries_find (map_entries m) (AddrKey a)) as [r|]; simpl in *.
- destruct (unmarshal r); simpl in *; [|discriminate]. by injection Hg as <-.
- by injection Hg as <-.
Qed.

(** C2: [MinerPower] is the point lookup in the claims view: the first
  claim recorded for the miner with [found = true], or the zero claim
  with [found = false] when the miner has none. *)
Theorem MinerPower_lookup (s : state9) (l : list (Address * Claim)) (a : Address) :
claims_view s = Ok l ->
MinerPower s a =
  Ok (match lookup_claim a l with
      | Some c => (c, true)
      | None => ({| RawBytePower := 0; QualityAdjPower := 0 |}, false)
      end).
Proof. apply MinerPower_view. Qed.

(** [ListAllMiners] lists the miners of the claims view in order. *)
Theorem ListAllMiners_view (s : state9) (l : list (Address * Claim)) :
claims_view s = Ok l -> ListAllMiners s = Ok (map fst l).
Proof.
intros (m & Hm & Hl)%claims_view_map.
unfold ListAllMiners, map_ForEachKey. rewrite Hm. simpl.
eapply (entries_ForEachKey_collect NewFromBytes); [|by apply view_keys].
intros k acc. by destruct (NewFromBytes k).
Qed.

(** C33: [ListAllMiners] reads keys only: it succeeds when every key is an
  address, whatever the values hold. *)
Theorem ListAllMiners_keys_only (s : state9) (m : Map) (miners : list Address) :
ClaimsMap s = Ok m ->
map_result (fun e => NewFromBytes e.1) (map_entries m) = Ok miners ->
ListAllMiners s = Ok miners.
Proof.
intros Hm Hk. unfold ListAllMiners, map_ForEachKey. rewrite Hm. simpl.
eapply (entries_ForEachKey_collect NewFromBytes); [|exact Hk].
intros k acc. by destruct (NewFromBytes k).
Qed.

(** C3: [ClaimsChanged] has no false negatives: it answers "unchanged"
  only for a version 9 state with the same claims root, and such a
  state (over the same store) has the same claims view and the same
  point lookups. A state of another version is always "changed". *)
Theorem ClaimsChanged_sound (s : state9) (other : PState) :
ClaimsChanged s other = Ok false ->
exists t, other = PState9 t /\ Claims (State t) = Claims (State s) /\
  (store t = store s ->
   claims_view t = claims_view s /\ forall a, MinerPower t a = MinerPower s a).
Proof.
destruct other as [t|v]; simpl; [|discriminate].
intros [= Hc]. apply negb_false_iff, bool_decide_eq_true in Hc.
exists t. split; [done|]. split; [done|]. intros Hst.
assert (Hm : ClaimsMap t = ClaimsMap s) by (unfold ClaimsMap; by rewrite Hst, Hc).
unfold claims_view, MinerPower. by rewrite Hm.
Qed.

End V9Facts.

(** ** Witnesses: the theorems applied to concrete states *)
Module V9Witnesses.
Import V9 V9Examples V9Facts.

Definition sum_raw (a : Address) (c : Claim) (acc : Z) : result Z :=
Ok (acc + RawBytePower c)%Z.

Lemma load9_lazy_witness :
load9 (<["root" := BPower9 (power_state "claims" 10)]> ∅) "root" =
  Ok {| State := power_state "claims" 10;
        store := <["root" := BPower9 (power_state "claims" 10)]> ∅ |} /\
MinerPower {| State := power_state "claims" 10;
              store := <["root" := BPower9 (power_state "claims" 10)]> ∅ |} miner_1234
  = Err (ErrWrap "failed to load hamt node" (ErrNotFound "claims")).
Proof. apply (load9_lazy _ "root" (power_state "claims" 10)); reflexivity. Defined.

Lemma load9_errors_witness :
((∅ : Store) !! "root" = None /\ ErrNotFound "root" = ErrNotFound "root") \/
(exists b, (∅ : Store) !! "root" = Some b /\ (forall p, b <> BPower9 p) /\
           ErrNotFound "root" = ErrDecode "power9.State").
Proof. apply (load9_errors ∅ "root"). reflexivity. Defined.

Lemma ForEachClaim_refines_witness :
ForEachClaim st_one sum_raw 0%Z =
  fold_result (fun ac acc => sum_raw ac.1 ac.2 acc)
    [(miner_1234, {| RawBytePower := 10; QualityAdjPower := 5 |})] 0%Z.
Proof. apply ForEachClaim_refines. reflexivity. Defined.

Lemma ForEachClaim_visitor_abort_witness :
ForEachClaim st_one (fun _ _ (_ : Z) => Err (ErrUser 1)) 0%Z = Err (ErrUser 1).
Proof.
apply (ForEachClaim_visitor_abort st_one [] [] miner_1234
         {| RawBytePower := 10; QualityAdjPower := 5 |} _ 0%Z 0%Z);
  reflexivity.
Defined.

Lemma ForEachClaim_decode_error_witness :
ForEachClaim st_bad sum_raw 0%Z = Err (ErrDecode "power9.Claim").
Proof.
apply (ForEachClaim_decode_error st_bad
         {| map_root := "claims";
            map_entries := [(addr_str miner_1234, RawClaim9 claim_10_5);
                            (addr_str miner_7, RawBytes "garbage")] |}).
- intros. reflexivity.
- vm_compute. reflexivity.
- vm_compute. reflexivity.
Defined.

Lemma MinerPower_lookup_witness :
MinerPower st_one miner_1234 = Ok ({| RawBytePower := 10; QualityAdjPower := 5 |}, true).
Proof.
exact (MinerPower_lookup st_one
         [(miner_1234, {| RawBytePower := 10; QualityAdjPower := 5 |})] miner_1234
         eq_refl).
Defined.

Lemma ListAllMiners_view_witness : ListAllMiners st_one = Ok [miner_1234].
Proof.
exact (ListAllMiners_view st_one
         [(miner_1234, {| RawBytePower := 10; QualityAdjPower := 5 |})] eq_refl).
Defined.

Lemma ListAllMiners_keys_only_witness : ListAllMiners st_bad = Ok [miner_1234; miner_7].
Proof.
apply (ListAllMiners_keys_only st_bad
         {| map_root := "claims";
            map_entries := [(addr_str miner_1234, RawClaim9 claim_10_5);
                            (addr_str miner_7, RawBytes "garbage")] |});
  reflexivity.
Defined.

Lemma ClaimsChanged_sound_witness :
exists t, PState9 st_one = PState9 t /\ Claims (State t) = Claims (State st_one) /\
  (store t = store st_one ->
   claims_view t = claims_view st_one /\
   forall a, MinerPower t a = MinerPower st_one a).
Proof. apply ClaimsChanged_sound. reflexivity. Defined.

End V9Witnesses.
