(* ===== verification/PowerState.v ===== *)
(** * The power state interface and its version 9 implementation

    lotus' [power.State] is the interface every versioned power adapter
    implements, so that a client reads claims without knowing the actor
    version (spec, section 4.2). [PowerState] states its read operations
    and [PowerStateLaws] what they promise, against an abstract model:
    the list of (miner, claim) pairs of the claims collection in
    iteration order. The assertion [var _ State] of a [*state9] in
    [src/chain/actors/builtin/power/v9.go] is the instance [state9_PowerState],
    whose laws [state9_lawful] discharges with the facts of [PowerV9].

    The client lemmas of [PowerClient] are proved against the interface
    only: the three ways of reading the claims (the visitor, the key
    listing and the point lookup) agree, and a visitor error ends the
    enumeration. *)

From Stdlib Require Import ZArith String.
From stdpp Require Import base list strings gmap.
From S2P Require Import Prelude Go Store PowerV9.

Open Scope lily_scope.

Import V9.

(** The operations of [power.State] that read power and claims. *)
Class PowerState (S : Type) := {
  ps_TotalPower : S -> result Claim;
  ps_TotalCommitted : S -> result Claim;
  ps_MinerPower : S -> Address -> result (Claim * bool);
  ps_ListAllMiners : S -> result (list Address);
  ps_ForEachClaim : forall {A}, S -> (Address -> Claim -> A -> result A) -> A -> result A;
  ps_ActorKey : S -> string;
  ps_ActorVersion : S -> nat
}.

(** The zero claim a lookup returns for a miner without one. *)
Definition zero_claim : Claim := {| RawBytePower := 0; QualityAdjPower := 0 |}.

(** The contract, against the claims collection [claims s] of a state. *)
Class PowerStateLaws (S : Type) `{PowerState S} (claims : S -> result (list (Address * Claim))) := {
  law_ForEachClaim : forall A (s : S) l (cb : Address -> Claim -> A -> result A) acc,
    claims s = Ok l ->
    ps_ForEachClaim s cb acc = fold_result (fun ac acc => cb ac.1 ac.2 acc) l acc;
  law_ListAllMiners : forall (s : S) l,
    claims s = Ok l -> ps_ListAllMiners s = Ok (map fst l);
  law_MinerPower : forall (s : S) l a,
    claims s = Ok l ->
    ps_MinerPower s a = Ok (match lookup_claim a l with
                            | Some c => (c, true)
                            | None => (zero_claim, false)
                            end)
}.

(** ** The version 9 adapter implements the interface *)

#[export] Instance state9_PowerState : PowerState state9 := {
  ps_TotalPower := TotalPower;
  ps_TotalCommitted := TotalCommitted;
  ps_MinerPower := MinerPower;
  ps_ListAllMiners := ListAllMiners;
  ps_ForEachClaim := fun A => @ForEachClaim A;
  ps_ActorKey := ActorKey;
  ps_ActorVersion := ActorVersion
}.

#[export] Instance state9_lawful : PowerStateLaws state9 claims_view.
Proof.
  split; simpl.
  - intros A s l cb acc. apply V9Facts.ForEachClaim_fold.
  - apply V9Facts.ListAllMiners_view.
  - apply V9Facts.MinerPower_view.
Qed.

(** ** Clients of the interface *)

(** The first claim recorded for a listed miner. *)
Lemma lookup_claim_elem (a : Address) (l : list (Address * Claim)) :
  a ∈ map fst l -> exists c, lookup_claim a l = Some c /\ (a, c) ∈ l.
Proof.
  induction l as [|[a' c'] l IH]; simpl; [by intros ?%not_elem_of_nil|].
  intros Ha. case_decide as Heq; [subst; eexists; split; [done|by left]|].
  apply elem_of_cons in Ha as [->|Ha]; [done|].
  destruct (IH Ha) as (c & Hc & Hin). exists c. split; [done|]. by right.
Qed.

Lemma lookup_claim_not_elem (a : Address) (l : list (Address * Claim)) :
  a ∉ map fst l -> lookup_claim a l = None.
Proof.
  induction l as [|[a' c'] l IH]; simpl; [done|].
  intros Ha. apply not_elem_of_cons in Ha as [Hne Ha].
  rewrite decide_False by congruence. by apply IH.
Qed.

(** A visitor that collects the miners. *)
Definition collect_miners (a : Address) (_ : Claim) (acc : list Address) : result (list Address) :=
  Ok (acc ++ [a]).

Lemma fold_collect_miners (l : list (Address * Claim)) (acc : list Address) :
  fold_result (fun ac acc => collect_miners ac.1 ac.2 acc) l acc = Ok (acc ++ map fst l).
Proof.
  revert acc. induction l as [|[a c] l IH]; intros acc; simpl; [by rewrite app_nil_r|].
  rewrite IH. by rewrite <- app_assoc.
Qed.

Section PowerClient.
Context {S : Type} `{PowerStateLaws S claims}.

Lemma ForEachClaim_ListAllMiners (s : S) (l : list (Address * Claim)) :
  claims s = Ok l -> ps_ForEachClaim s collect_miners [] = ps_ListAllMiners s.
Proof.
  intros Hl. rewrite (law_ForEachClaim _ _ _ _ _ Hl), (law_ListAllMiners _ _ Hl).
  by rewrite fold_collect_miners.
Qed.

Lemma listed_found (s : S) (l : list (Address * Claim)) (a : Address) :
  claims s = Ok l -> a ∈ map fst l ->
  exists c, ps_MinerPower s a = Ok (c, true) /\ (a, c) ∈ l.
Proof.
  intros Hl Ha. destruct (lookup_claim_elem a l Ha) as (c & Hc & Hin).
  exists c. by rewrite (law_MinerPower _ _ _ Hl), Hc.
Qed.

Lemma unlisted_not_found (s : S) (l : list (Address * Claim)) (a : Address) :
  claims s = Ok l -> a ∉ map fst l -> ps_MinerPower s a = Ok (zero_claim, false).
Proof. intros Hl Ha. by rewrite (law_MinerPower _ _ _ Hl), lookup_claim_not_elem. Qed.

Lemma visitor_abort {A} (s : S) (l1 l2 : list (Address * Claim)) (a : Address) (c : Claim)
    (cb : Address -> Claim -> A -> result A) (acc acc1 : A) (e : error) :
  claims s = Ok (l1 ++ (a, c) :: l2) ->
  fold_result (fun ac acc => cb ac.1 ac.2 acc) l1 acc = Ok acc1 -> cb a c acc1 = Err e ->
  ps_ForEachClaim s cb acc = Err e.
Proof.
  intros Hl H1 H2. rewrite (law_ForEachClaim _ _ _ _ _ Hl).
  by apply (fold_result_stop _ _ _ (a, c) acc acc1).
Qed.

End PowerClient.

Module PowerStateFacts.

(** C17: The version 9 adapter honours the contract of [power.State]: on a
    decodable claims collection, enumerating the claims with a visitor
    yields exactly the miners [ListAllMiners] lists, every listed miner
    is found by [MinerPower] with one of its claims, and every other
    address is not found and gets the zero claim. *)
Theorem state9_claims_consistent (s : state9) (l : list (Address * Claim)) :
  claims_view s = Ok l ->
  ForEachClaim s collect_miners [] = ListAllMiners s /\
  (forall a, a ∈ map fst l -> exists c, MinerPower s a = Ok (c, true) /\ (a, c) ∈ l) /\
  (forall a, a ∉ map fst l -> MinerPower s a = Ok (zero_claim, false)).
Proof.
  intros Hl. split_and!.
  - exact (ForEachClaim_ListAllMiners s l Hl).
  - intros a. exact (listed_found s l a Hl).
  - intros a. exact (unlisted_not_found s l a Hl).
Qed.

End PowerStateFacts.

Module PowerStateWitnesses.
Import V9Examples PowerStateFacts.

Lemma state9_claims_consistent_witness :
  ForEachClaim st_one collect_miners [] = ListAllMiners st_one /\
  MinerPower st_one miner_7 = Ok (zero_claim, false).
Proof.
  destruct (state9_claims_consistent st_one [(miner_1234, fromV9Claim claim_10_5)] eq_refl)
    as (H1 & _ & H3).
  split; [exact H1|]. apply H3. simpl. intros [?|?]%elem_of_cons; [discriminate|].
  by apply not_elem_of_nil in H.
Defined.

End PowerStateWitnesses.
