(* ===== verification/Chain.v ===== *)
(** * The chain collaborator: actors, tipsets and the node API

    [types.Actor], [types.TipSet] and [actorstate.ActorInfo] as the
    extractors read them, and [actorstate.ActorStateAPI] as a record of the
    two operations the extraction contexts call: the store, and the lookup
    of an actor at a tipset. *)

From Stdlib Require Import ZArith String.
From stdpp Require Import base list strings gmap.
From S2P Require Import Prelude Go Store.

Open Scope lily_scope.

(** [types.Actor]: its code CID and its state root. *)
Record Actor := { Code : Cid; Head : Cid }.

(** [types.TipSet]: its height, the state root it was executed on, and its
    key. *)
Record TipSet := { Height : Z; ParentState : Cid; Key : string }.

(** [actorstate.ActorInfo]: the actor at the current tipset, the tipset
    being extracted and the tipset executed before it. *)
Record ActorInfo := {
  ai_Actor : Actor;
  ai_Address : Address;
  Current : TipSet;
  Executed : TipSet }.

(** [actorstate.ActorStateAPI]: [Store()] and [Actor(ctx, addr, tsk)], with
    the registry of actor code CIDs (code CID to actor key and actor
    version) that the loaders dispatch on. *)
Record ActorStateAPI := {
  node_Store : Store;
  node_Actor : Address -> string -> result Actor;
  node_Registry : gmap string (string * nat) }.

(** [addr.String()]: the address' textual form, rendered by go-address; only
    its use as the MinerID text matters here, so it is kept abstract as the
    rendering of the address' bytes. *)
Definition Address_String (a : Address) : string := addr_str a.
