(* ===== verification/Reward.v ===== *)
(** * The reward actor extractor

    [src/tasks/actorstate/reward.go]: [RewardExtractor.Extract] looks up
    the reward actor at the tipset, loads its state through the reward
    adapter, reads nine values through the adapter's getters (each may
    fail, and the first failure is returned unchanged) and renders them
    into a [ChainReward] row. The adapter ([chain/actors/builtin/reward])
    is not among the sources: [reward.Load] and the getters are modelled
    from the spec (section 4.2) as a registry dispatch and field reads. *)

From Stdlib Require Import ZArith String Ascii.
From stdpp Require Import base list strings gmap.
From S2P Require Import Prelude Go Store Chain.

Open Scope lily_scope.

Module reward.

(** [manifest.RewardKey] *)
Definition RewardKey : string := "reward".

(** [reward.Load(store, act)]: dispatch on the code CID, then decode. *)
Definition Load (st : Store) (registry : gmap string (string * nat)) (act : Actor)
  : result reward_State :=
  match registry !! Code act with
  | Some (key, _) =>
      if decide (key = RewardKey) then
        match st !! Head act with
        | Some (BReward s) => Ok s
        | Some _ => Err (ErrDecode "reward.State")
        | None => Err (ErrNotFound (Head act))
        end
      else Err (ErrUnsupportedVersion (Code act))
  | None => Err (ErrUnsupportedVersion (Code act))
  end.

(** The getters of [reward.State]. *)
Definition CumsumBaseline (s : reward_State) : result Z := Ok (Store.CumsumBaseline s).
Definition CumsumRealized (s : reward_State) : result Z := Ok (Store.CumsumRealized s).
Definition EffectiveBaselinePower (s : reward_State) : result Z :=
  Ok (Store.EffectiveBaselinePower s).
Definition ThisEpochBaselinePower (s : reward_State) : result Z :=
  Ok (Store.ThisEpochBaselinePower s).
Definition ThisEpochRewardSmoothed (s : reward_State) : result FilterEstimate :=
  Ok (Store.ThisEpochRewardSmoothed s).
Definition TotalStoragePowerReward (s : reward_State) : result Z :=
  Ok (Store.TotalStoragePowerReward s).
Definition ThisEpochReward (s : reward_State) : result Z := Ok (Store.ThisEpochReward s).
Definition EffectiveNetworkTime (s : reward_State) : result Z :=
  Ok (Store.EffectiveNetworkTime s).

End reward.

(** [builtin.RewardActorAddr]: the ID address f02 (protocol byte 0, then
    the uvarint 2). *)
Definition RewardActorAddr : Address :=
  MkAddress (String (ascii_of_nat 0) (String (ascii_of_nat 2) EmptyString)).

(** [rewardmodel.ChainReward], table [chain_rewards]. *)
Record ChainReward := {
  StateRoot : string;
  CumSumBaseline : string;
  CumSumRealized : string;
  EffectiveBaselinePower : string;
  NewBaselinePower : string;
  NewRewardSmoothedPositionEstimate : string;
  NewRewardSmoothedVelocityEstimate : string;
  TotalMinedReward : string;
  NewReward : string;
  EffectiveNetworkTime : Z }.

(** [RewardExtractor.Extract(ctx, a, node)]: [a.TipSet] is the current
    tipset's key and [a.ParentStateRoot] its parent state root. *)
Definition RewardExtractor_Extract (a : ActorInfo) (node : ActorStateAPI)
  : result ChainReward :=
  let? rewardActor := node_Actor node RewardActorAddr (Key (Current a)) in
  let? rstate := reward.Load (node_Store node) (node_Registry node) rewardActor in
  let? csbaseline := reward.CumsumBaseline rstate in
  let? csrealized := reward.CumsumRealized rstate in
  let? effectiveBaselinePower := reward.EffectiveBaselinePower rstate in
  let? thisBaslinePower := reward.ThisEpochBaselinePower rstate in
  let? thisRewardSmoothed := reward.ThisEpochRewardSmoothed rstate in
  let? totalMinedReward := reward.TotalStoragePowerReward rstate in
  let? thisReward := reward.ThisEpochReward rstate in
  let? networkTime := reward.EffectiveNetworkTime rstate in
  Ok {| StateRoot := ParentState (Current a);
        CumSumBaseline := Z_String csbaseline;
        CumSumRealized := Z_String csrealized;
        EffectiveBaselinePower := Z_String effectiveBaselinePower;
        NewBaselinePower := Z_String thisBaslinePower;
        NewRewardSmoothedPositionEstimate := Z_String (PositionEstimate thisRewardSmoothed);
        NewRewardSmoothedVelocityEstimate := Z_String (VelocityEstimate thisRewardSmoothed);
        TotalMinedReward := Z_String totalMinedReward;
        NewReward := Z_String thisReward;
        EffectiveNetworkTime := networkTime |}.

Module RewardFacts.

(** The row rendered from a loaded state. *)
Definition reward_row (a : ActorInfo) (s : reward_State) : ChainReward :=
  {| StateRoot := ParentState (Current a);
     CumSumBaseline := Z_String (Store.CumsumBaseline s);
     CumSumRealized := Z_String (Store.CumsumRealized s);
     EffectiveBaselinePower := Z_String (Store.EffectiveBaselinePower s);
     NewBaselinePower := Z_String (Store.ThisEpochBaselinePower s);
     NewRewardSmoothedPositionEstimate :=
       Z_String (PositionEstimate (Store.ThisEpochRewardSmoothed s));
     NewRewardSmoothedVelocityEstimate :=
       Z_String (VelocityEstimate (Store.ThisEpochRewardSmoothed s));
     TotalMinedReward := Z_String (Store.TotalStoragePowerReward s);
     NewReward := Z_String (Store.ThisEpochReward s);
     EffectiveNetworkTime := Store.EffectiveNetworkTime s |}.

(** The extractor as two fallible reads followed by the rendering: the
    getters never fail. *)
Lemma RewardExtractor_Extract_unfold (a : ActorInfo) (node : ActorStateAPI) :
  RewardExtractor_Extract a node =
    let? act := node_Actor node RewardActorAddr (Key (Current a)) in
    let? s := reward.Load (node_Store node) (node_Registry node) act in
    Ok (reward_row a s).
Proof.
  unfold RewardExtractor_Extract.
  destruct (node_Actor _ _ _) as [act|e]; simpl; [|done].
  by destruct (reward.Load _ _ act).
Qed.

(** C8: Every numeric column of a row the reward extractor returns parses
    back to the value of the loaded reward state it was read from, the
    state root is the current tipset's parent state, and the network time
    is copied unchanged. *)
Theorem RewardExtractor_Extract_roundtrip (a : ActorInfo) (node : ActorStateAPI)
    (cr : ChainReward) :
  RewardExtractor_Extract a node = Ok cr ->
  exists act s, node_Actor node RewardActorAddr (Key (Current a)) = Ok act /\
    reward.Load (node_Store node) (node_Registry node) act = Ok s /\
    StateRoot cr = ParentState (Current a) /\
    Z_Parse (CumSumBaseline cr) = Some (Store.CumsumBaseline s) /\
    Z_Parse (CumSumRealized cr) = Some (Store.CumsumRealized s) /\
    Z_Parse (EffectiveBaselinePower cr) = Some (Store.EffectiveBaselinePower s) /\
    Z_Parse (NewBaselinePower cr) = Some (Store.ThisEpochBaselinePower s) /\
    Z_Parse (NewRewardSmoothedPositionEstimate cr) =
      Some (PositionEstimate (Store.ThisEpochRewardSmoothed s)) /\
    Z_Parse (NewRewardSmoothedVelocityEstimate cr) =
      Some (VelocityEstimate (Store.ThisEpochRewardSmoothed s)) /\
    Z_Parse (TotalMinedReward cr) = Some (Store.TotalStoragePowerReward s) /\
    Z_Parse (NewReward cr) = Some (Store.ThisEpochReward s) /\
    EffectiveNetworkTime cr = Store.EffectiveNetworkTime s.
Proof.
  rewrite RewardExtractor_Extract_unfold.
  destruct (node_Actor _ _ _) as [act|e] eqn:Ha; simpl; [|discriminate].
  destruct (reward.Load _ _ act) as [s|e] eqn:Hs; simpl; [|discriminate].
  intros [= <-]. exists act, s. cbn -[Z_String Z_Parse]. rewrite !Z_String_roundtrip. by split_and!.
Qed.

(** C20: The reward extractor fails exactly when the lookup of the reward
    actor or the load of its state fails, and it returns that error
    unchanged, with no context attached. *)
Theorem RewardExtractor_Extract_errors (a : ActorInfo) (node : ActorStateAPI) (e : error) :
  RewardExtractor_Extract a node = Err e <->
  node_Actor node RewardActorAddr (Key (Current a)) = Err e \/
  exists act, node_Actor node RewardActorAddr (Key (Current a)) = Ok act /\
              reward.Load (node_Store node) (node_Registry node) act = Err e.
Proof.
  rewrite RewardExtractor_Extract_unfold.
  destruct (node_Actor _ _ _) as [act|e']; simpl.
  - destruct (reward.Load _ _ act) as [s|e'] eqn:Hs; simpl; split.
    + discriminate.
    + intros [?|(act' & [= <-] & ?)]; congruence.
    + intros [= ->]. right. eauto.
    + intros [?|(act' & [= <-] & ?)]; congruence.
  - split; [intros [= ->]; by left | intros [?|(act' & ? & _)]; congruence].
Qed.

End RewardFacts.

Module RewardWitnesses.
Import RewardFacts.
Local Open Scope string_scope.

(** The state of [TestRewardExtractV0]. *)
Definition test_state : reward_State :=
  {| Store.CumsumBaseline := 1000; Store.CumsumRealized := 2000;
     Store.EffectiveNetworkTime := 3000; Store.EffectiveBaselinePower := 4000;
     Store.ThisEpochReward := 5000;
     Store.ThisEpochRewardSmoothed := {| PositionEstimate := 6000; VelocityEstimate := 60 |};
     Store.ThisEpochBaselinePower := 7000; Store.TotalStoragePowerReward := 8000 |}.

Definition reward_code : string := "reward-code-v0".

Definition node (found : bool) : ActorStateAPI :=
  {| node_Store := <["reward_head" := BReward test_state]> ∅;
     node_Actor := fun _ _ => if found then Ok {| Code := reward_code; Head := "reward_head" |}
                              else Err (ErrActorNotFound);
     node_Registry := <[reward_code := ("reward", 0%nat)]> ∅ |}.

Definition info : ActorInfo :=
  {| ai_Actor := {| Code := reward_code; Head := "reward_head" |};
     ai_Address := RewardActorAddr;
     Current := {| Chain.Height := 1; ParentState := "parent_root"; Key := "tsk" |};
     Executed := {| Chain.Height := 0; ParentState := "genesis_root"; Key := "tsk0" |} |}.

(** The expected row of the test: the decimal renderings of its values. *)
Definition expected : ChainReward :=
  {| StateRoot := "parent_root"; CumSumBaseline := "1000"; CumSumRealized := "2000";
     EffectiveBaselinePower := "4000"; NewBaselinePower := "7000";
     NewRewardSmoothedPositionEstimate := "6000"; NewRewardSmoothedVelocityEstimate := "60";
     TotalMinedReward := "8000"; NewReward := "5000"; EffectiveNetworkTime := 3000 |}.

Lemma RewardExtractor_Extract_roundtrip_witness :
  RewardExtractor_Extract info (node true) = Ok expected /\
  exists act s, node_Actor (node true) RewardActorAddr "tsk" = Ok act /\
    reward.Load (node_Store (node true)) (node_Registry (node true)) act = Ok s /\
    StateRoot expected = "parent_root" /\
    Z_Parse "1000" = Some (Store.CumsumBaseline s) /\
    Z_Parse "2000" = Some (Store.CumsumRealized s) /\
    Z_Parse "4000" = Some (Store.EffectiveBaselinePower s) /\
    Z_Parse "7000" = Some (Store.ThisEpochBaselinePower s) /\
    Z_Parse "6000" = Some (PositionEstimate (Store.ThisEpochRewardSmoothed s)) /\
    Z_Parse "60" = Some (VelocityEstimate (Store.ThisEpochRewardSmoothed s)) /\
    Z_Parse "8000" = Some (Store.TotalStoragePowerReward s) /\
    Z_Parse "5000" = Some (Store.ThisEpochReward s) /\
    EffectiveNetworkTime expected = Store.EffectiveNetworkTime s.
Proof.
  assert (H : RewardExtractor_Extract info (node true) = Ok expected)
    by (vm_compute; reflexivity).
  split; [exact H|]. exact (RewardExtractor_Extract_roundtrip info (node true) expected H).
Defined.

Lemma RewardExtractor_Extract_errors_witness :
  RewardExtractor_Extract info (node false) = Err ErrActorNotFound.
Proof.
  apply (proj2 (RewardExtractor_Extract_errors info (node false) ErrActorNotFound)).
  left. reflexivity.
Defined.

End RewardWitnesses.
