(* ===== verification/Versioned.v ===== *)
(** * Versioned records and their persistence

    [model.Version], the values an extractor hands to
    [StorageBatch.PersistModel] (a current-schema row, a legacy-schema row,
    each possibly a typed nil, or a whole list of rows), and the storage
    batch as an interface ([StorageBatch]) with a logging instance. The
    shape shared by every [XList.Persist] of the extractors is
    [persist_list_shape]; its lemmas are proved once here. *)

From Stdlib Require Import ZArith String.
From stdpp Require Import base list strings.
From S2P Require Import Prelude.

Open Scope lily_scope.

(** [model.Version]: only the major schema version is read. *)
Record Version := { Major : Z }.

(** What [PersistModel] receives for a record type [R] with legacy shape
    [R0]. *)
Inductive Model (R R0 : Type) :=
| ModelCur (m : option R)
| ModelV0 (m : option R0)
| ModelList (ms : list (option R)).
Arguments ModelCur {R R0} m.
Arguments ModelV0 {R R0} m.
Arguments ModelList {R R0} ms.

(** [model.StorageBatch]: persisting one model may fail. *)
Class StorageBatch (B M : Type) := PersistModel : M -> B -> result B.

(** The batch that records what it is handed, in order. *)
#[export] Instance log_batch {M : Type} : StorageBatch (list M) M :=
  fun m b => Ok (b ++ [m]).

Section PersistList.
Context {R B M : Type} `{StorageBatch B M}.
Variable persist_one : option R -> Version -> B -> result B.
Variable batch : list (option R) -> M.

(** Empty lists persist nothing; a legacy major version persists row by
    row, stopping at the first error; the current major version hands
    the whole list to the batch at once. *)
Definition persist_list_shape (ml : list (option R)) (v : Version) (b : B) : result B :=
  match ml with
  | [] => Ok b
  | _ => if decide (Major v <> 1%Z)
         then fold_result (fun m b => persist_one m v b) ml b
         else PersistModel (batch ml) b
  end.
End PersistList.

Section PersistListFacts.
Context {R M : Type}.
Variable persist_one : option R -> Version -> list M -> result (list M).
Variable batch : list (option R) -> M.

(** On the logging batch, a legacy major version whose per-row persist
    logs [f m] logs the projected rows in order. *)
Lemma persist_list_shape_rows (f : option R -> M) (ml : list (option R))
      (v : Version) (b : list M) :
  Major v <> 1%Z ->
  (forall m b, persist_one m v b = Ok (b ++ [f m])) ->
  persist_list_shape persist_one batch ml v b = Ok (b ++ map f ml).
Proof.
  intros Hv Hone.
  assert (Hfold : forall l b, fold_result (fun m b => persist_one m v b) l b =
                              Ok (b ++ map f l)).
  { induction l as [|m l IH]; intros b'; simpl; [by rewrite app_nil_r|].
    rewrite Hone. simpl. rewrite IH. by rewrite <- app_assoc. }
  destruct ml as [|m ml]; simpl; [by rewrite app_nil_r|].
  rewrite decide_True by done. apply (Hfold (m :: ml)).
Qed.

(** A non-empty list at a version whose per-row persist fails fails with
    the first row's error. *)
Lemma persist_list_shape_err (ml : list (option R)) (v : Version) (b : list M)
      (e : error) :
  ml <> [] -> Major v <> 1%Z ->
  (forall m b, persist_one m v b = Err e) ->
  persist_list_shape persist_one batch ml v b = Err e.
Proof.
  intros Hne Hv Hone. destruct ml as [|m ml]; [done|]. simpl.
  rewrite decide_True by done. by rewrite Hone.
Qed.

(** The current major version hands the whole list over in one call. *)
Lemma persist_list_shape_batch (ml : list (option R)) (v : Version) (b : list M) :
  ml <> [] -> Major v = 1%Z ->
  persist_list_shape persist_one batch ml v b = Ok (b ++ [batch ml]).
Proof.
  intros Hne Hv. destruct ml as [|m ml]; [done|]. simpl.
  rewrite decide_False by (intros H; by apply H). reflexivity.
Qed.
End PersistListFacts.
