(* ===== verification/MinerContext.v ===== *)
(** * The miner actor state and the miner extraction context

    The miner adapter ([chain/actors/builtin/miner]) and
    [tasks.MinerStateExtractionContext] are not among the sources; they are
    modelled from the spec (section 4.4) after the market context of
    [src/tasks/actorstate/market/market.go], which has the same shape.
    Loading a miner state decodes its root block into fresh Go objects: the
    fee debt is a new [big.Int] and the state a new pointer, so two loads
    never share a pointer. *)

From Stdlib Require Import ZArith String.
From stdpp Require Import base list strings gmap.
From S2P Require Import Prelude Go Store Chain.

Open Scope lily_scope.

Module Miner.

(** [manifest.MinerKey] *)
Definition MinerKey : string := "storageminer".

(** The decoded miner state: its fee debt, the root of its precommitted
  sectors HAMT, and the store they are read through. *)
Record State := {
ms_FeeDebt : BigInt;
ms_PreCommittedSectors : Cid;
ms_store : Store }.

(** [miner.Load(store, act)]: dispatch on the code CID, then decode. *)
Definition Load (node : ActorStateAPI) (act : Actor) : GoM (ptr State) :=
match node_Registry node !! Code act with
| Some (key, _) =>
    if decide (key = MinerKey) then
      match node_Store node !! Head act with
      | Some (BMiner debt pcs) =>
          let* d := big_new debt in
          alloc {| ms_FeeDebt := d; ms_PreCommittedSectors := pcs;
                   ms_store := node_Store node |}
      | Some _ => glift (Err (ErrDecode "miner.State"))
      | None => glift (Err (ErrNotFound (Head act)))
      end
    else glift (Err (ErrUnsupportedVersion (Code act)))
| None => glift (Err (ErrUnsupportedVersion (Code act)))
end.

(** [State.FeeDebt()] *)
Definition FeeDebt (s : State) : result BigInt := Ok (ms_FeeDebt s).

(** [State.PreCommitsMap()] *)
Definition PreCommitsMap (s : State) : result Map :=
AsMap (ms_store s) (ms_PreCommittedSectors s) 5.

End Miner.

(** [tasks.MinerStateExtractionContext] *)
Record MinerStateExtractionContext := {
  PrevState : ptr Miner.State;
  PrevTs : TipSet;
  CurrActor : Actor;
  CurrState : ptr Miner.State;
  CurrTs : TipSet;
  ec_Address : Address }.

(** [NewMinerStateExtractionContext]: at height 0 the previous state is the
    current one (same pointer); otherwise the actor is looked up at the
    executed tipset and loaded again. Each failure is wrapped with its
    context, as the market context of market.go does and as spec section
    7 requires. *)
Definition NewMinerStateExtractionContext (a : ActorInfo) (node : ActorStateAPI)
  : GoM MinerStateExtractionContext :=
  let* curState := gwrap "loading current miner state" (Miner.Load node (ai_Actor a)) in
  if decide (Height (Current a) = 0%Z) then
    gret {| PrevState := curState; PrevTs := Current a; CurrActor := ai_Actor a;
            CurrState := curState; CurrTs := Current a; ec_Address := ai_Address a |}
  else
    let* prevActor := gwrap "loading previous miner actor"
                        (glift (node_Actor node (ai_Address a) (Key (Executed a)))) in
    let* prevState := gwrap "loading previous miner actor state" (Miner.Load node prevActor) in
    gret {| PrevState := prevState; PrevTs := Executed a; CurrActor := ai_Actor a;
            CurrState := curState; CurrTs := Current a; ec_Address := ai_Address a |}.

(** [HasPreviousState]: not at genesis and not the same state object. *)
Definition HasPreviousState (ec : MinerStateExtractionContext) : bool :=
  negb (bool_decide (Height (CurrTs ec) = 0%Z)) && negb (ptr_eqb (PrevState ec) (CurrState ec)).

(** ** Allocation facts *)

(** A successful load allocates the fee debt at the first free address and
    the state right after it. *)
Lemma Miner_Load_fresh (node : ActorStateAPI) (act : Actor) (n n' : loc)
      (p : ptr Miner.State) :
  Miner.Load node act n = Ok (p, n') ->
  (exists q, Miner.ms_FeeDebt (deref p) = BigRef q /\ addr q = n) /\
  addr p = Pos.succ n /\ n' = Pos.succ (Pos.succ n).
Proof.
  unfold Miner.Load. destruct (node_Registry node !! Code act) as [[key v]|];
    [|discriminate]. case_decide; [|discriminate].
  destruct (node_Store node !! Head act) as [[]|]; try discriminate.
  intros [= <- <-]. simpl. split; [eexists; split; reflexivity | auto].
Qed.

(** Away from genesis the two states of a context come from two loads:
    neither the states nor their fee debts share a pointer, and the
    previous state's addresses are the later ones. *)
Lemma NewMinerStateExtractionContext_distinct (a : ActorInfo) (node : ActorStateAPI)
      (n n' : loc) (ec : MinerStateExtractionContext) :
  NewMinerStateExtractionContext a node n = Ok (ec, n') ->
  Height (Current a) <> 0%Z ->
  ptr_eqb (PrevState ec) (CurrState ec) = false /\
  exists p q, Miner.ms_FeeDebt (deref (PrevState ec)) = BigRef p /\
              Miner.ms_FeeDebt (deref (CurrState ec)) = BigRef q /\
              ptr_eqb p q = false.
Proof.
  unfold NewMinerStateExtractionContext, gbind, gret, glift, gwrap.
  destruct (Miner.Load node (ai_Actor a) n) as [[cur n1]|] eqn:Hc; [|discriminate].
  intros H Hh. rewrite decide_False in H by done.
  destruct (node_Actor node (ai_Address a) (Key (Executed a))) as [pa|]; [|discriminate].
  destruct (Miner.Load node pa n1) as [[prev n2]|] eqn:Hp; [|discriminate].
  injection H as <- _. simpl.
  apply Miner_Load_fresh in Hc as [[q [Hq Haq]] [Hac ->]].
  apply Miner_Load_fresh in Hp as [[p [Hpq Hap]] [Hap' _]].
  unfold ptr_eqb. rewrite Hap', Hac. split.
  - apply Pos.eqb_neq. lia.
  - exists p, q. split; [done|]. split; [done|]. apply Pos.eqb_neq. lia.
Qed.

(** At genesis the context's previous state is its current state. *)
Lemma NewMinerStateExtractionContext_genesis (a : ActorInfo) (node : ActorStateAPI)
      (n n' : loc) (ec : MinerStateExtractionContext) :
  NewMinerStateExtractionContext a node n = Ok (ec, n') ->
  Height (Current a) = 0%Z ->
  PrevState ec = CurrState ec /\ HasPreviousState ec = false.
Proof.
  unfold NewMinerStateExtractionContext, gbind, gret, gwrap.
  destruct (Miner.Load node (ai_Actor a) n) as [[cur n1]|]; [|discriminate].
  intros H Hh. rewrite decide_True in H by done. injection H as <- _.
  split; [done|]. unfold HasPreviousState. simpl. by rewrite bool_decide_true.
Qed.

(** The context records the current actor, tipset and address as given. *)
Lemma NewMinerStateExtractionContext_curr (a : ActorInfo) (node : ActorStateAPI)
      (n n' : loc) (ec : MinerStateExtractionContext) :
  NewMinerStateExtractionContext a node n = Ok (ec, n') ->
  CurrTs ec = Current a /\ ec_Address ec = ai_Address a /\ CurrActor ec = ai_Actor a.
Proof.
  unfold NewMinerStateExtractionContext, gbind, gret, glift, gwrap.
  destruct (Miner.Load node (ai_Actor a) n) as [[cur n1]|]; [|discriminate].
  case_decide; [by intros [= <- _]|].
  destruct (node_Actor node _ _); [|discriminate].
  destruct (Miner.Load node _ n1) as [[prev n2]|]; [|discriminate].
  by intros [= <- _].
Qed.
