(* ===== verification/FeeDebt.v ===== *)
(** * The miner fee debt extractor and its record

    [src/tasks/actorstate/miner/tasks/extractors/feedebt.go]. The record
    [MinerFeeDebt] has a legacy shape [MinerFeeDebtV0] (the same fields,
    table [miner_fee_debts]); [AsVersion] projects a possibly nil record to
    a schema major version; [Persist] and [MinerFeeDebtList.Persist] hand
    the projection to the storage batch. [ExtractMinerFeeDebt] compares the
    previous and current debts with Go's [==] on [big.Int], which compares
    pointers. *)

From Stdlib Require Import ZArith String.
From stdpp Require Import base list strings gmap.
From S2P Require Import Prelude Go Store Chain Versioned MinerContext.

Open Scope lily_scope.

Module MinerFeeDebtV0.
(** [MinerFeeDebtV0], table [miner_fee_debts]. *)
Record t := { Height : Z; MinerID : string; StateRoot : string; FeeDebt : string }.
End MinerFeeDebtV0.

Module MinerFeeDebt.
(** [MinerFeeDebt] *)
Record t := { Height : Z; MinerID : string; StateRoot : string; FeeDebt : string }.

Abbreviation model := (Model t MinerFeeDebtV0.t).

(** The field-by-field copy into the legacy shape. *)
Definition to_v0 (m : t) : MinerFeeDebtV0.t :=
{| MinerFeeDebtV0.Height := Height m; MinerFeeDebtV0.MinerID := MinerID m;
   MinerFeeDebtV0.StateRoot := StateRoot m; MinerFeeDebtV0.FeeDebt := FeeDebt m |}.

(** [AsVersion(version) (interface{}, bool)] of a possibly nil [*MinerFeeDebt];
  [None] is the [(nil, false)] of an unsupported version. *)
Definition AsVersion (m : option t) (version : Version) : option model :=
if decide (Major version = 0%Z) then
  match m with
  | None => Some (ModelV0 None)
  | Some r => Some (ModelV0 (Some (to_v0 r)))
  end
else if decide (Major version = 1%Z) then Some (ModelCur m)
else None.

Section Persist.
Context {B : Type} `{StorageBatch B model}.

(** [Persist(ctx, s, version)] *)
Definition Persist (m : option t) (s : B) (version : Version) : result B :=
  match AsVersion m version with
  | None => Err (ErrSchema "MinerFeeDebt not supported for schema version")
  | Some vm => PersistModel vm s
  end.

(** [MinerFeeDebtList.Persist(ctx, s, version)] *)
Definition MinerFeeDebtList_Persist (ml : list (option t)) (s : B) (version : Version)
  : result B :=
  match ml with
  | [] => Ok s
  | _ =>
  if decide (Major version <> 1%Z) then
    fold_result (fun m s => Persist m s version) ml s
  else PersistModel (ModelList ml) s
  end.
End Persist.

(** [ExtractMinerFeeDebt(ctx, ec)]: [None] is the [nil, nil] of "no
  change". *)
Definition ExtractMinerFeeDebt (ec : MinerStateExtractionContext) : result (option t) :=
let? currDebt := wrap_err "loading current miner fee debt"
                   (Miner.FeeDebt (deref (CurrState ec))) in
let row := {| Height := Chain.Height (CurrTs ec);
              MinerID := Address_String (ec_Address ec);
              StateRoot := ParentState (CurrTs ec);
              FeeDebt := big_String currDebt |} in
if HasPreviousState ec then
  let? prevDebt := wrap_err "loading previous miner fee debt"
                     (Miner.FeeDebt (deref (PrevState ec))) in
  if big_eq_go prevDebt currDebt then Ok None else Ok (Some row)
else Ok (Some row).

End MinerFeeDebt.

Module MinerFeeDebtFacts.
Import MinerFeeDebt.

(** The inverse of the legacy projection. *)
Definition from_v0 (m : MinerFeeDebtV0.t) : t :=
{| Height := MinerFeeDebtV0.Height m; MinerID := MinerFeeDebtV0.MinerID m;
   StateRoot := MinerFeeDebtV0.StateRoot m; FeeDebt := MinerFeeDebtV0.FeeDebt m |}.

(** The row the extractor emits for a context. *)
Definition fee_debt_row (ec : MinerStateExtractionContext) : t :=
{| Height := Chain.Height (CurrTs ec); MinerID := Address_String (ec_Address ec);
   StateRoot := ParentState (CurrTs ec);
   FeeDebt := big_String (Miner.ms_FeeDebt (deref (CurrState ec))) |}.

Lemma MinerFeeDebtList_Persist_shape {B} `{StorageBatch B model}
    (ml : list (option t)) (s : B) (v : Version) :
MinerFeeDebtList_Persist ml s v = persist_list_shape (fun m v s => Persist m s v) ModelList ml v s.
Proof. by destruct ml. Qed.

(** On the logging batch a legacy row is logged as its V0 projection. *)
Lemma Persist_v0_log (m : option t) (b : list model) (v : Version) :
Major v = 0%Z -> Persist m b v = Ok (b ++ [ModelV0 (option_map to_v0 m)]).
Proof. intros Hv. unfold Persist, AsVersion. rewrite decide_True by done. by destruct m. Qed.

(** The extractor's result, branch by branch. *)
Lemma ExtractMinerFeeDebt_unfold (ec : MinerStateExtractionContext) :
  ExtractMinerFeeDebt ec =
    if HasPreviousState ec &&
       big_eq_go (Miner.ms_FeeDebt (deref (PrevState ec)))
                 (Miner.ms_FeeDebt (deref (CurrState ec)))
    then Ok None else Ok (Some (fee_debt_row ec)).
Proof.
  unfold ExtractMinerFeeDebt, fee_debt_row, Miner.FeeDebt. simpl.
  by destruct (HasPreviousState ec), (big_eq_go _ _).
Qed.

(** [AsVersion] at an unsupported major version. *)
Lemma AsVersion_other (m : option t) (v : Version) :
  Major v <> 0%Z -> Major v <> 1%Z -> AsVersion m v = None.
Proof. intros H0 H1. unfold AsVersion. by rewrite decide_False, decide_False. Qed.

(** C4: away from genesis, a context built by
  [NewMinerStateExtractionContext] loads its two states separately, so the
  pointer comparison never holds and a row is emitted at every height,
  whatever the two debts' values, equal ones included. *)
Theorem ExtractMinerFeeDebt_always_emits (a : ActorInfo) (node : ActorStateAPI)
      (n n' : loc) (ec : MinerStateExtractionContext) :
NewMinerStateExtractionContext a node n = Ok (ec, n') ->
Chain.Height (Current a) <> 0%Z ->
ExtractMinerFeeDebt ec = Ok (Some (fee_debt_row ec)).
Proof.
intros Hec Hh. rewrite ExtractMinerFeeDebt_unfold.
pose proof (NewMinerStateExtractionContext_curr _ _ _ _ _ Hec) as [Hts _].
destruct (NewMinerStateExtractionContext_distinct _ _ _ _ _ Hec Hh)
  as [Hptr (p & q & Hp & Hq & Hpq)].
rewrite Hp, Hq. simpl. by rewrite Hpq, andb_false_r.
Qed.

(** at genesis the context has no previous state and the current debt
  is always emitted. *)
Theorem ExtractMinerFeeDebt_genesis (a : ActorInfo) (node : ActorStateAPI)
      (n n' : loc) (ec : MinerStateExtractionContext) :
NewMinerStateExtractionContext a node n = Ok (ec, n') ->
Chain.Height (Current a) = 0%Z ->
ExtractMinerFeeDebt ec = Ok (Some (fee_debt_row ec)).
Proof.
intros Hec Hh. rewrite ExtractMinerFeeDebt_unfold.
by rewrite (proj2 (NewMinerStateExtractionContext_genesis _ _ _ _ _ Hec Hh)).
Qed.

(** C9: [AsVersion] is the identity at the current major version 1, a
  field-preserving projection at the legacy major version 0 (a nil record
  projects to a typed nil, and the projection loses nothing), and
  unsupported at any other major version. *)
Theorem AsVersion_roundtrip (m : option t) (v : Version) :
(Major v = 1%Z -> AsVersion m v = Some (ModelCur m)) /\
(Major v = 0%Z -> exists m0, AsVersion m v = Some (ModelV0 m0) /\
                             option_map from_v0 m0 = m) /\
(Major v <> 0%Z -> Major v <> 1%Z -> AsVersion m v = None).
Proof.
unfold AsVersion. split; [|split].
- intros Hv. rewrite decide_False by lia. by rewrite decide_True.
- intros Hv. rewrite decide_True by done. destruct m as [[]|]; eexists; split; done.
- intros H0 H1. by rewrite decide_False, decide_False.
Qed.

(** C10: the two persistence paths carry the same rows: the current major
  version hands the whole list to the batch in one call, the legacy one
  persists, one call per row and in order, the V0 projection of each. *)
Theorem MinerFeeDebtList_Persist_paths (ml : list (option t)) (b : list model) :
ml <> [] ->
MinerFeeDebtList_Persist ml b {| Major := 1 |} = Ok (b ++ [ModelList ml]) /\
MinerFeeDebtList_Persist ml b {| Major := 0 |} =
  Ok (b ++ map (fun m => ModelV0 (option_map to_v0 m)) ml).
Proof.
intros Hne. rewrite !MinerFeeDebtList_Persist_shape. split.
- by apply persist_list_shape_batch.
- apply persist_list_shape_rows; [done|]. intros. by apply Persist_v0_log.
Qed.

(** C32: at an unsupported major version a non-empty list fails with the
  schema error before anything is persisted, while an empty list
  succeeds silently. *)
Theorem MinerFeeDebtList_Persist_unsupported {B} `{StorageBatch B model}
      (ml : list (option t)) (s : B) (v : Version) :
Major v <> 0%Z -> Major v <> 1%Z ->
MinerFeeDebtList_Persist ml s v =
  match ml with
  | [] => Ok s
  | _ => Err (ErrSchema "MinerFeeDebt not supported for schema version")
  end.
Proof.
intros H0 H1. destruct ml as [|m ml]; [done|]. simpl.
rewrite decide_True by done.
unfold Persist at 1. rewrite (AsVersion_other m v H0 H1).
reflexivity.
Qed.

End MinerFeeDebtFacts.

(** ** Witnesses *)
Module MinerFeeDebtWitnesses.
Import MinerFeeDebt MinerFeeDebtFacts.

Definition miner_code : string := "miner-code-v9".

(** A miner whose fee debt is 0 at the executed tipset and at the current
  one: its state blocks differ (say, in their sectors) but not in debt. *)
Definition node_two : ActorStateAPI :=
{| node_Store := <["head_curr" := BMiner 0 "pcs_curr"]>
                 (<["head_prev" := BMiner 0 "pcs_prev"]> ∅);
   node_Actor := fun _ _ => Ok {| Code := miner_code; Head := "head_prev" |};
   node_Registry := <[miner_code := ("storageminer", 9%nat)]> ∅ |}.

Definition info_at (h : Z) : ActorInfo :=
{| ai_Actor := {| Code := miner_code; Head := "head_curr" |};
   ai_Address := MkAddress "f01000";
   Current := {| Chain.Height := h; ParentState := "root_curr"; Key := "tsk_curr" |};
   Executed := {| Chain.Height := h - 1; ParentState := "root_prev"; Key := "tsk_prev" |} |}.

Definition row_v (h : Z) : t :=
{| Height := h; MinerID := "f01000"; StateRoot := "root_curr"; FeeDebt := "0" |}.

Lemma ExtractMinerFeeDebt_always_emits_witness :
exists ec n', NewMinerStateExtractionContext (info_at 10) node_two 1%positive = Ok (ec, n') /\
  big_val (Miner.ms_FeeDebt (deref (PrevState ec))) = Some 0%Z /\
  big_val (Miner.ms_FeeDebt (deref (CurrState ec))) = Some 0%Z /\
  ExtractMinerFeeDebt ec = Ok (Some (fee_debt_row ec)) /\ fee_debt_row ec = row_v 10.
Proof.
destruct (NewMinerStateExtractionContext (info_at 10) node_two 1%positive)
  as [[ec n']|] eqn:E; [|vm_compute in E; discriminate].
exists ec, n'. split; [reflexivity|].
assert (Hec := E). vm_compute in Hec. injection Hec as <- _.
split; [reflexivity|]. split; [reflexivity|]. split; [|reflexivity].
apply (ExtractMinerFeeDebt_always_emits _ _ _ _ _ E). vm_compute. discriminate.
Defined.

Lemma ExtractMinerFeeDebt_genesis_witness :
exists ec n', NewMinerStateExtractionContext (info_at 0) node_two 1%positive = Ok (ec, n') /\
  ExtractMinerFeeDebt ec = Ok (Some (fee_debt_row ec)) /\ fee_debt_row ec = row_v 0.
Proof.
destruct (NewMinerStateExtractionContext (info_at 0) node_two 1%positive)
  as [[ec n']|] eqn:E; [|vm_compute in E; discriminate].
exists ec, n'. split; [reflexivity|].
assert (Hec := E). vm_compute in Hec. injection Hec as <- _.
split; [|reflexivity].
apply (ExtractMinerFeeDebt_genesis _ _ _ _ _ E). reflexivity.
Defined.

Lemma MinerFeeDebtList_Persist_paths_witness :
MinerFeeDebtList_Persist [Some (row_v 10); None] [] {| Major := 1 |} =
  Ok [ModelList [Some (row_v 10); None]] /\
MinerFeeDebtList_Persist [Some (row_v 10); None] [] {| Major := 0 |} =
  Ok [ModelV0 (Some (to_v0 (row_v 10))); ModelV0 None].
Proof. exact (MinerFeeDebtList_Persist_paths [Some (row_v 10); None] [] ltac:(discriminate)). Defined.

Lemma MinerFeeDebtList_Persist_unsupported_witness :
MinerFeeDebtList_Persist (B := list model) [] [] {| Major := 2 |} = Ok [].
Proof. apply (MinerFeeDebtList_Persist_unsupported [] [] {| Major := 2 |}); discriminate. Defined.
End MinerFeeDebtWitnesses.
