(* ===== verification/Utf8.v ===== *)
(** * UTF-8 as Go's unicode/utf8 and x/text/runes see it

    A Go string is a byte sequence: here a [string] of 8-bit [ascii]
    characters. [DecodeRune] follows unicode/utf8's table-driven decoder
    (the [first] table of leading bytes and their accept ranges): an
    invalid or truncated sequence decodes as [(RuneError, 1)].
    [ValidString] holds when no decoding step is that error, and
    [ReplaceIllFormed] is the transformer of x/text/runes run over the whole
    input ([atEOF]): ASCII bytes and valid sequences are copied, each byte
    that starts no valid sequence becomes the three bytes of U+FFFD. The
    loops take fuel; the length of the input is enough. *)

From Stdlib Require Import ZArith String Ascii.
From stdpp Require Import base list strings.
From S2P Require Import Prelude.

Open Scope lily_scope.
Local Open Scope string_scope.

(** [utf8.RuneError] = U+FFFD and [utf8.RuneSelf] = 0x80. *)
Definition RuneError : Z := 65533.
Definition RuneSelf : N := 128.

(** The byte value of a character. *)
Definition byte_of (c : ascii) : N := Ascii.N_of_ascii c.

(** The classes of the [first] table: ASCII, invalid leading byte, or the
    leading byte of a sequence of [sz] bytes whose second byte lies in
    [[lo, hi]]. *)
Inductive lead :=
| LAscii
| LInvalid
| LSeq (sz : nat) (lo hi : N).

Definition first (b : N) : lead :=
  if (b <? 128)%N then LAscii
  else if (b <? 194)%N then LInvalid
  else if (b <? 224)%N then LSeq 2 128 191
  else if (b =? 224)%N then LSeq 3 160 191
  else if (b <? 237)%N then LSeq 3 128 191
  else if (b =? 237)%N then LSeq 3 128 159
  else if (b <? 240)%N then LSeq 3 128 191
  else if (b =? 240)%N then LSeq 4 144 191
  else if (b <? 244)%N then LSeq 4 128 191
  else if (b =? 244)%N then LSeq 4 128 143
  else LInvalid.

(** A continuation byte: [locb <= b <= hicb]. *)
Definition in_range (lo hi : N) (c : ascii) : bool :=
  (lo <=? byte_of c)%N && (byte_of c <=? hi)%N.

Definition cont (c : ascii) : bool := in_range 128 191 c.

Definition bits (c : ascii) (mask : Z) : Z := Z.land (Z.of_N (byte_of c)) mask.

(** [utf8.DecodeRune(p) (r rune, size int)] *)
Definition DecodeRune (p : string) : Z * nat :=
  match p with
  | EmptyString => (RuneError, 0%nat)
  | String c0 r0 =>
      match first (byte_of c0) with
      | LAscii => (Z.of_N (byte_of c0), 1%nat)
      | LInvalid => (RuneError, 1%nat)
      | LSeq sz lo hi =>
          if (String.length p <? sz)%nat then (RuneError, 1%nat) else
          match r0 with
          | String c1 r1 =>
              if negb (in_range lo hi c1) then (RuneError, 1%nat)
              else if (sz <=? 2)%nat then
                (Z.lor (Z.shiftl (bits c0 31) 6) (bits c1 63), 2%nat)
              else match r1 with
                   | String c2 r2 =>
                       if negb (cont c2) then (RuneError, 1%nat)
                       else if (sz <=? 3)%nat then
                         (Z.lor (Z.lor (Z.shiftl (bits c0 15) 12) (Z.shiftl (bits c1 63) 6))
                                (bits c2 63), 3%nat)
                       else match r2 with
                            | String c3 _ =>
                                if negb (cont c3) then (RuneError, 1%nat)
                                else (Z.lor (Z.lor (Z.lor (Z.shiftl (bits c0 7) 18)
                                                          (Z.shiftl (bits c1 63) 12))
                                                   (Z.shiftl (bits c2 63) 6))
                                            (bits c3 63), 4%nat)
                            | EmptyString => (RuneError, 1%nat)
                            end
                   | EmptyString => (RuneError, 1%nat)
                   end
          | EmptyString => (RuneError, 1%nat)
          end
      end
  end.

#[global] Arguments DecodeRune : simpl never.

(** The decoding error, as the Go code tests it:
    [r == RuneError && size == 1]. *)
Definition decode_error (rs : Z * nat) : bool :=
  bool_decide (rs.1 = RuneError) && bool_decide (rs.2 = 1%nat).

(** [s[:n]] and [s[n:]] on byte strings. *)
Fixpoint str_take (n : nat) (s : string) : string :=
  match n, s with
  | S n', String c s' => String c (str_take n' s')
  | _, _ => EmptyString
  end.

Fixpoint str_drop (n : nat) (s : string) : string :=
  match n, s with
  | S n', String _ s' => str_drop n' s'
  | _, _ => s
  end.

(** [utf8.ValidString]: no decoding step is the error. *)
Fixpoint valid_loop (fuel : nat) (s : string) : bool :=
  match fuel with
  | O => true
  | S f =>
      match s with
      | EmptyString => true
      | _ => let rs := DecodeRune s in
             if decode_error rs then false else valid_loop f (str_drop rs.2 s)
      end
  end.

Definition ValidString (s : string) : bool := valid_loop (String.length s) s.

(** The three bytes ef bf bd of U+FFFD. *)
Definition runeErrorString : string :=
  String (Ascii.ascii_of_N 239) (String (Ascii.ascii_of_N 191)
    (String (Ascii.ascii_of_N 189) EmptyString)).

(** [replaceIllFormed.Transform] over the whole input. *)
Fixpoint transform_loop (fuel : nat) (s : string) : string :=
  match fuel with
  | O => s
  | S f =>
      match s with
      | EmptyString => EmptyString
      | String c rest =>
          if (byte_of c <? RuneSelf)%N then String c (transform_loop f rest)
          else let rs := DecodeRune s in
               if negb (decode_error rs)
               then str_take rs.2 s ++ transform_loop f (str_drop rs.2 s)
               else runeErrorString ++ transform_loop f rest
      end
  end.

(** [runes.ReplaceIllFormed().String(s)] *)
Definition ReplaceIllFormed (s : string) : string := transform_loop (String.length s) s.

(** Well-formed UTF-8: the string decodes step by step without error. *)
Inductive Utf8Valid : string -> Prop :=
| valid_nil : Utf8Valid EmptyString
| valid_step (s : string) :
    s <> EmptyString -> decode_error (DecodeRune s) = false ->
    Utf8Valid (str_drop (DecodeRune s).2 s) -> Utf8Valid s.

(** ** Strings *)

Lemma append_cons (c : ascii) (s t : string) : String c s ++ t = String c (s ++ t).
Proof. reflexivity. Qed.

Lemma append_assoc_str (s t u : string) : (s ++ t) ++ u = s ++ (t ++ u).
Proof. induction s as [|c s IH]; [done|]. rewrite !append_cons. by rewrite IH. Qed.

Lemma str_take_drop (n : nat) (s : string) : str_take n s ++ str_drop n s = s.
Proof.
  revert s. induction n; intros [|c s]; simpl; try reflexivity.
  rewrite append_cons. by rewrite IHn.
Qed.

Lemma str_take_length (n : nat) (s : string) :
  (n <= String.length s)%nat -> String.length (str_take n s) = n.
Proof. revert s. induction n; intros [|c s]; simpl; intros; try lia. f_equal. apply IHn. lia. Qed.

Lemma str_drop_app (n : nat) (s t : string) :
  String.length s = n -> str_drop n (s ++ t) = t.
Proof.
  revert n. induction s as [|c s IH]; intros [|n]; simpl; intros; try lia; auto.
Qed.

Lemma str_drop_length (n : nat) (s : string) :
  String.length (str_drop n s) = (String.length s - n)%nat.
Proof. revert s. induction n; intros [|c s]; simpl; auto. Qed.

Lemma length_append (s t : string) :
  String.length (s ++ t) = (String.length s + String.length t)%nat.
Proof. induction s as [|c s IH]; [done|]. rewrite append_cons. simpl. by rewrite IH. Qed.

(** ** Decoding *)

(** A decoding step of a non-empty string consumes between 1 and 4 bytes,
    no more than the string has. *)
Lemma DecodeRune_size (s : string) :
  s <> EmptyString ->
  (1 <= (DecodeRune s).2 <= 4)%nat /\ ((DecodeRune s).2 <= String.length s)%nat.
Proof.
  destruct s as [|c0 r0]; [done|]. intros _. unfold DecodeRune.
  destruct (first (byte_of c0)) eqn:Hf; simpl; try lia.
  assert (Hsz : (sz <= 4)%nat).
  { unfold first in Hf. repeat (case_match; try discriminate); injection Hf; lia. }
  destruct (_ <? sz)%nat eqn:Hl; simpl; [lia|]. apply Nat.ltb_ge in Hl.
  destruct r0 as [|c1 r1]; simpl; [lia|].
  destruct (negb _); simpl; [lia|].
  destruct (sz <=? 2)%nat eqn:H2; simpl; [lia|]. apply Nat.leb_gt in H2.
  destruct r1 as [|c2 r2]; simpl; [lia|].
  destruct (negb _); simpl; [lia|].
  destruct (sz <=? 3)%nat eqn:H3; simpl; [simpl in Hl; lia|]. apply Nat.leb_gt in H3.
  destruct r2 as [|c3 r3]; simpl; [lia|].
  destruct (negb _); simpl; lia.
Qed.


Lemma str_take_app_le (n : nat) (s t : string) :
  (n <= String.length s)%nat -> str_take n (s ++ t) = str_take n s.
Proof.
  revert s. induction n; intros [|c s]; rewrite ?append_cons; simpl; intros; try lia; auto.
  rewrite IHn; [done | lia].
Qed.

Lemma str_drop_app_le (n : nat) (s t : string) :
  (n <= String.length s)%nat -> str_drop n (s ++ t) = str_drop n s ++ t.
Proof.
  revert s. induction n; intros [|c s]; rewrite ?append_cons; simpl; intros; try lia; auto.
  apply IHn. lia.
Qed.

Lemma first_seq_bounds (b : N) (sz : nat) (lo hi : N) :
  first b = LSeq sz lo hi -> (2 <= sz <= 4)%nat.
Proof. unfold first. intros H. repeat (case_match; try discriminate); injection H; lia. Qed.

Ltac err_case := let H := fresh in intros H; vm_compute in H; discriminate H.

Ltac ltb_false :=
  match goal with
  | |- context [(?x <? ?y)%nat] =>
      replace (x <? y)%nat with false
        by (symmetry; apply Nat.ltb_ge; rewrite ?length_append; simpl in *; lia)
  end.

(** Decoding is local: a successful step reads only the bytes it
    consumes, so whatever follows them does not change it. *)
Lemma DecodeRune_local (s t : string) :
  s <> EmptyString -> decode_error (DecodeRune s) = false ->
  DecodeRune (str_take (DecodeRune s).2 s ++ t) = DecodeRune s.
Proof.
  destruct s as [|c0 r0]; [done|]. intros _.
  unfold DecodeRune at 1 3 4. destruct (first (byte_of c0)) as [| |sz lo hi] eqn:Hf.
  - intros _. simpl. rewrite ?append_cons. unfold DecodeRune. by rewrite Hf.
  - err_case.
  - pose proof (first_seq_bounds _ _ _ _ Hf) as Hsz.
    destruct (String.length (String c0 r0) <? sz)%nat eqn:Hl; [err_case|].
    apply Nat.ltb_ge in Hl.
    destruct r0 as [|c1 r1]; [err_case|].
    destruct (negb (in_range lo hi c1)) eqn:H1; [err_case|].
    destruct (sz <=? 2)%nat eqn:H2.
    { intros _. apply Nat.leb_le in H2 as H2'. simpl. rewrite ?append_cons. unfold DecodeRune. rewrite Hf.
      ltb_false. by rewrite H1, H2. }
    destruct r1 as [|c2 r2]; [err_case|].
    destruct (negb (cont c2)) eqn:H3; [err_case|].
    destruct (sz <=? 3)%nat eqn:H4.
    { intros _. apply Nat.leb_le in H4 as H4'. simpl. rewrite ?append_cons. unfold DecodeRune. rewrite Hf.
      ltb_false. by rewrite H1, H2, H3, H4. }
    destruct r2 as [|c3 r3]; [err_case|].
    destruct (negb (cont c3)) eqn:H5; [err_case|].
    intros _. apply Nat.leb_gt in H4 as H4'. simpl. rewrite ?append_cons. unfold DecodeRune. rewrite Hf.
    ltb_false. by rewrite H1, H2, H3, H4, H5.
Qed.

Lemma DecodeRune_ascii (c : ascii) (t : string) :
  (byte_of c <? RuneSelf)%N = true ->
  DecodeRune (String c t) = (Z.of_N (byte_of c), 1%nat) /\
  decode_error (DecodeRune (String c t)) = false.
Proof.
  intros H. assert (Hd : DecodeRune (String c t) = (Z.of_N (byte_of c), 1%nat)).
  { unfold DecodeRune, first. unfold RuneSelf in H. by rewrite H. }
  split; [done|]. rewrite Hd. unfold decode_error. simpl.
  rewrite bool_decide_false; [done|]. apply N.ltb_lt in H. unfold RuneSelf, RuneError in *. lia.
Qed.

Lemma DecodeRune_runeError (t : string) :
  DecodeRune (runeErrorString ++ t) = (RuneError, 3%nat).
Proof. reflexivity. Qed.

(** ** Well-formedness *)

Lemma valid_rune (s t : string) :
  s <> EmptyString -> decode_error (DecodeRune s) = false -> Utf8Valid t ->
  Utf8Valid (str_take (DecodeRune s).2 s ++ t).
Proof.
  intros Hne Hok Ht. pose proof (DecodeRune_size s Hne) as [Hn Hl].
  apply valid_step; rewrite ?DecodeRune_local by done; [| done |].
  - destruct s as [|c s]; [done|]. destruct (DecodeRune (String c s)).2; [lia|]. discriminate.
  - rewrite str_drop_app; [done|]. by apply str_take_length.
Qed.

Lemma valid_error (t : string) : Utf8Valid t -> Utf8Valid (runeErrorString ++ t).
Proof.
  intros Ht. apply valid_step; rewrite ?DecodeRune_runeError; [discriminate | done |].
  by rewrite str_drop_app.
Qed.

Lemma valid_ascii (c : ascii) (t : string) :
  (byte_of c <? RuneSelf)%N = true -> Utf8Valid t -> Utf8Valid (String c t).
Proof.
  intros Hc Ht. destruct (DecodeRune_ascii c t Hc) as [Hd Hok].
  apply valid_step; [discriminate | done |]. by rewrite Hd.
Qed.

(** The validity test computes the predicate, given enough fuel. *)
Lemma valid_loop_iff (f : nat) (s : string) :
  (String.length s <= f)%nat -> valid_loop f s = true <-> Utf8Valid s.
Proof.
  revert s. induction f as [|f IH]; intros s Hl.
  - destruct s; simpl in Hl; [|lia]. split; [constructor | done].
  - destruct (decide (s = EmptyString)) as [->|Hne]; [split; [constructor | done]|].
    pose proof (DecodeRune_size s Hne) as [Hn Hle].
    assert (Hd : (String.length (str_drop (DecodeRune s).2 s) <= f)%nat)
      by (rewrite str_drop_length; lia).
    assert (Hstep : valid_loop (S f) s = if decode_error (DecodeRune s) then false
                                         else valid_loop f (str_drop (DecodeRune s).2 s))
      by (destruct s; [done | reflexivity]).
    rewrite Hstep. destruct (decode_error (DecodeRune s)) eqn:He.
    + split; [discriminate|]. inversion 1; subst; [done|]. congruence.
    + rewrite IH by done. split; [intros; by apply valid_step|].
      inversion 1; subst; [done | done].
Qed.

Lemma ValidString_iff (s : string) : ValidString s = true <-> Utf8Valid s.
Proof. by apply valid_loop_iff. Qed.

(** ** The transformer *)

(** Fuel beyond the input's length changes nothing: the loop consumes at
    least one byte per iteration. *)
Lemma transform_loop_fuel (f1 f2 : nat) (s : string) :
  (String.length s <= f1)%nat -> (String.length s <= f2)%nat ->
  transform_loop f1 s = transform_loop f2 s.
Proof.
  revert f2 s. induction f1 as [|f1 IH]; intros f2 s H1 H2.
  - destruct s; simpl in *; [|lia]. by destruct f2.
  - destruct f2 as [|f2]; [destruct s; simpl in *; [done | lia]|].
    destruct s as [|c r]; [done|]. simpl.
    assert (Hne : String c r <> EmptyString) by discriminate.
    pose proof (DecodeRune_size _ Hne) as [Hn Hle].
    simpl in H1, H2. case_match; [f_equal; apply IH; lia|].
    case_match; f_equal; apply IH; rewrite ?str_drop_length; simpl; lia.
Qed.

(** The output is well-formed UTF-8. *)
Lemma transform_loop_valid (f : nat) (s : string) :
  (String.length s <= f)%nat -> Utf8Valid (transform_loop f s).
Proof.
  revert s. induction f as [|f IH]; intros s Hl.
  - destruct s; simpl in Hl; [constructor | lia].
  - destruct s as [|c r]; [constructor|]. simpl. simpl in Hl.
    assert (Hne : String c r <> EmptyString) by discriminate.
    pose proof (DecodeRune_size _ Hne) as [Hn Hle].
    destruct (byte_of c <? RuneSelf)%N eqn:Ha.
    { apply valid_ascii; [done|]. apply IH. lia. }
    destruct (decode_error (DecodeRune (String c r))) eqn:He; simpl.
    + apply valid_error, IH. lia.
    + apply valid_rune; [done | done |]. apply IH. rewrite str_drop_length. simpl. lia.
Qed.

(** On well-formed input the transformer is the identity. *)
Lemma transform_loop_id (f : nat) (s : string) :
  Utf8Valid s -> (String.length s <= f)%nat -> transform_loop f s = s.
Proof.
  intros Hv. revert f. induction Hv as [|s Hne Hok Hv IH]; intros f Hl; [by destruct f|].
  pose proof (DecodeRune_size s Hne) as [Hn Hle].
  destruct f as [|f]; [lia|]. destruct s as [|c r]; [done|]. simpl.
  destruct (byte_of c <? RuneSelf)%N eqn:Ha.
  - destruct (DecodeRune_ascii c r Ha) as [Hd _]. rewrite Hd in IH. simpl in IH.
    rewrite IH; [done|]. simpl in Hl. lia.
  - rewrite Hok. simpl. rewrite IH by (rewrite str_drop_length; lia).
    apply str_take_drop.
Qed.

(** A well-formed prefix is copied as is. *)
Lemma transform_loop_app_valid (a b : string) (f : nat) :
  Utf8Valid a -> (String.length (a ++ b) <= f)%nat ->
  transform_loop f (a ++ b) = a ++ transform_loop (f - String.length a) b.
Proof.
  intros Hv. revert f. induction Hv as [|a Hne Hok Hv IH]; intros f Hl.
  { simpl. by rewrite Nat.sub_0_r. }
  pose proof (DecodeRune_size a Hne) as [Hn Hle].
  rewrite length_append in Hl.
  destruct f as [|f]; [lia|]. destruct a as [|c r]; [done|].
  rewrite append_cons. simpl.
  destruct (byte_of c <? RuneSelf)%N eqn:Ha.
  - destruct (DecodeRune_ascii c r Ha) as [Hd _]. rewrite Hd in IH. simpl in IH.
    rewrite IH by (rewrite length_append; simpl in Hl; lia). reflexivity.
  - set (n := (DecodeRune (String c r)).2) in *.
    assert (Hsplit : String c (r ++ b) = str_take n (String c r) ++ (str_drop n (String c r) ++ b)).
    { rewrite <- append_cons, <- str_drop_app_le, <- (str_take_app_le n (String c r) b) by done.
      by rewrite str_take_drop. }
    assert (Hdec : DecodeRune (String c (r ++ b)) = DecodeRune (String c r)).
    { rewrite Hsplit. by apply DecodeRune_local. }
    rewrite Hdec, Hok. simpl. fold n.
    rewrite <- append_cons, str_take_app_le, str_drop_app_le by done.
    rewrite IH by (rewrite length_append, str_drop_length; simpl in *; lia).
    rewrite <- append_assoc_str, str_take_drop. f_equal.
    apply transform_loop_fuel; rewrite ?str_drop_length; simpl in *; lia.
Qed.
