(* ===== verification/Market.v ===== *)
(** * The market extraction context, extractor and label sanitiser

    [src/tasks/actorstate/market/market.go]. [NewMarketStateExtractionContext]
    loads the current market state and, away from genesis, the state at the
    executed tipset; at genesis the previous state is the current one (the
    same pointer). [StorageMarketExtractor.Extract] runs the deal state and
    deal proposal extractors (not among the sources, so parameters here) and
    lists their models. [SanitizeLabel] makes a deal label valid UTF-8 with
    the library functions of [Utf8]. The market actor adapter
    ([chain/actors/builtin/market]) is modelled from the spec like the miner
    one: its [Load] dispatches on the code CID and allocates the state. *)

From Stdlib Require Import ZArith String Ascii.
From stdpp Require Import base list strings gmap.
From S2P Require Import Prelude Go Store Chain Utf8.

Open Scope lily_scope.

Module MarketAdapter.

(** [manifest.MarketKey] *)
Definition MarketKey : string := "storagemarket".

(** The decoded market state: the roots of its proposals and deal states
  AMTs, and the store. *)
Record State := {
mk_Proposals : Cid;
mk_States : Cid;
mk_store : Store }.

(** [market.Load(store, act)] *)
Definition Load (node : ActorStateAPI) (act : Actor) : GoM (ptr State) :=
match node_Registry node !! Code act with
| Some (key, _) =>
    if decide (key = MarketKey) then
      match node_Store node !! Head act with
      | Some (BMarket props sts) =>
          alloc {| mk_Proposals := props; mk_States := sts; mk_store := node_Store node |}
      | Some _ => glift (Err (ErrDecode "market.State"))
      | None => glift (Err (ErrNotFound (Head act)))
      end
    else glift (Err (ErrUnsupportedVersion (Code act)))
| None => glift (Err (ErrUnsupportedVersion (Code act)))
end.

End MarketAdapter.

Module MarketTask.

(** [MarketStateExtractionContext] *)
Record MarketStateExtractionContext := {
PrevState : ptr MarketAdapter.State;
PrevTs : TipSet;
CurrActor : Actor;
CurrState : ptr MarketAdapter.State;
CurrTs : TipSet;
ctx_Store : Store }.

(** [NewMarketStateExtractionContext(ctx, a, node)] *)
Definition NewMarketStateExtractionContext (a : ActorInfo) (node : ActorStateAPI)
: GoM MarketStateExtractionContext :=
let* curState := gwrap "loading current market state"
                   (MarketAdapter.Load node (ai_Actor a)) in
let* prev :=
  (if negb (bool_decide (Height (Current a) = 0%Z)) then
     let* prevActor := gwrap "loading previous market actor state at tipset"
                         (glift (node_Actor node (ai_Address a) (Key (Executed a)))) in
     let* prevState := gwrap "loading previous market actor state"
                         (MarketAdapter.Load node prevActor) in
     gret (Executed a, prevState)
   else gret (Current a, curState)) in
gret {| PrevState := prev.2; PrevTs := prev.1; CurrActor := ai_Actor a;
        CurrState := curState; CurrTs := Current a; ctx_Store := node_Store node |}.

(** [IsGenesis()] *)
Definition IsGenesis (m : MarketStateExtractionContext) : bool :=
bool_decide (Height (CurrTs m) = 0%Z).

Section Extract.
(** The models of the two sub-extractors, which are not among the sources. *)
Context {Persistable : Type}.
Variable DealStateExtract : ActorInfo -> ActorStateAPI -> result Persistable.
Variable DealProposalExtract : ActorInfo -> ActorStateAPI -> result Persistable.

(** [StorageMarketExtractor.Extract]: deal states first, then proposals;
the list holds the proposals' model before the states'. *)
Definition StorageMarketExtract (a : ActorInfo) (node : ActorStateAPI)
  : result (list Persistable) :=
  let? dealStateModel := wrap_err "extracting market deal state changes"
                       (DealStateExtract a node) in
  let? dealProposalModel := wrap_err "extracting market proposal changes"
                          (DealProposalExtract a node) in
  Ok [dealProposalModel; dealStateModel].
End Extract.

(** [SanitizeLabel(s)]: a valid string is returned as is, any other goes
  through [runes.ReplaceIllFormed()]. *)
Definition SanitizeLabel (s : string) : string :=
if ValidString s then s else ReplaceIllFormed s.

End MarketTask.

Module MarketFacts.
Import MarketTask.

Lemma MarketLoad_fresh (node : ActorStateAPI) (act : Actor) (n n' : loc)
    (p : ptr MarketAdapter.State) :
MarketAdapter.Load node act n = Ok (p, n') -> addr p = n /\ n' = Pos.succ n.
Proof.
unfold MarketAdapter.Load. destruct (node_Registry node !! Code act) as [[key v]|];
  [|discriminate]. case_decide; [|discriminate].
destruct (node_Store node !! Head act) as [[]|]; try discriminate.
by intros [= <- <-].
Qed.

(** C6: the context's previous state is the current state, by pointer
  identity, exactly at genesis; at genesis the previous tipset is the
  current one, elsewhere the executed one. *)
Theorem NewMarketStateExtractionContext_identity (a : ActorInfo) (node : ActorStateAPI)
      (n n' : loc) (ctx : MarketStateExtractionContext) :
NewMarketStateExtractionContext a node n = Ok (ctx, n') ->
ptr_eqb (PrevState ctx) (CurrState ctx) = IsGenesis ctx /\
(IsGenesis ctx = true -> PrevState ctx = CurrState ctx /\ PrevTs ctx = CurrTs ctx) /\
(IsGenesis ctx = false -> PrevTs ctx = Executed a) /\
CurrTs ctx = Current a.
Proof.
unfold NewMarketStateExtractionContext, IsGenesis, gbind, gret, gwrap, glift.
destruct (MarketAdapter.Load node (ai_Actor a) n) as [[cur n1]|] eqn:Hc; [|discriminate].
apply MarketLoad_fresh in Hc as [Hac ->].
destruct (bool_decide (Height (Current a) = 0%Z)) eqn:Hg; simpl.
- intros [= <- _]. simpl. rewrite Hg. unfold ptr_eqb. by rewrite Pos.eqb_refl.
- destruct (node_Actor node (ai_Address a) (Key (Executed a))) as [pa|]; [|discriminate].
  destruct (MarketAdapter.Load node pa (Pos.succ n)) as [[prev n2]|] eqn:Hp; [|discriminate].
  apply MarketLoad_fresh in Hp as [Hap _].
  intros [= <- _]. simpl. rewrite Hg. unfold ptr_eqb. rewrite Hap, Hac.
  split; [apply Pos.eqb_neq; lia|]. split; [discriminate|]. done.
Qed.

(** C31: the context fails, wrapping the cause, when the current state does
  not load, and away from genesis when the actor cannot be found at the
  executed tipset; no context is built then. *)
Theorem NewMarketStateExtractionContext_errors (a : ActorInfo) (node : ActorStateAPI)
      (n : loc) :
(forall e, MarketAdapter.Load node (ai_Actor a) n = Err e ->
   NewMarketStateExtractionContext a node n =
     Err (ErrWrap "loading current market state" e)) /\
(forall cur n1 e, MarketAdapter.Load node (ai_Actor a) n = Ok (cur, n1) ->
   Height (Current a) <> 0%Z ->
   node_Actor node (ai_Address a) (Key (Executed a)) = Err e ->
   NewMarketStateExtractionContext a node n =
     Err (ErrWrap "loading previous market actor state at tipset" e)).
Proof.
unfold NewMarketStateExtractionContext, gbind, gret, gwrap, glift. split.
- intros e He. by rewrite He.
- intros cur n1 e Hc Hh He. rewrite Hc. rewrite bool_decide_false by done.
  simpl. by rewrite He.
Qed.

(** [SanitizeLabel] is the replacing transformer. *)
Lemma SanitizeLabel_replace (s : string) : SanitizeLabel s = ReplaceIllFormed s.
Proof.
  unfold SanitizeLabel. destruct (ValidString s) eqn:Hv; [|done].
  symmetry. apply transform_loop_id; [by apply ValidString_iff | lia].
Qed.

(** Its result passes [ValidString]. *)
Lemma SanitizeLabel_ValidString (s : string) : ValidString (SanitizeLabel s) = true.
Proof.
  unfold SanitizeLabel. destruct (ValidString s) eqn:Hv; [done|].
  apply ValidString_iff, transform_loop_valid. lia.
Qed.

(** C7: [SanitizeLabel] always returns valid UTF-8. *)
Theorem SanitizeLabel_valid (s : string) : ValidString (SanitizeLabel s) = true.
Proof. apply SanitizeLabel_ValidString. Qed.

(** C22: the [ValidString] fast path is an optimisation: [SanitizeLabel]
  equals the replacing transformer on every input. *)
Theorem SanitizeLabel_transformer (s : string) : SanitizeLabel s = ReplaceIllFormed s.
Proof. apply SanitizeLabel_replace. Qed.

(** C18: only ill-formed bytes are replaced: a well-formed prefix is kept
  byte for byte, and a byte that starts no valid sequence becomes one
  U+FFFD before the rest is sanitised. *)
Theorem SanitizeLabel_local (a b : string) (c : ascii) (t : string) :
(Utf8Valid a -> SanitizeLabel (a ++ b) = (a ++ SanitizeLabel b)%string) /\
(decode_error (DecodeRune (String c t)) = true ->
 SanitizeLabel (String c t) = (runeErrorString ++ SanitizeLabel t)%string).
Proof.
rewrite !SanitizeLabel_replace. unfold ReplaceIllFormed. split.
- intros Hv. rewrite transform_loop_app_valid by done. f_equal.
  apply transform_loop_fuel; rewrite ?length_append; lia.
- intros He. simpl. destruct (byte_of c <? RuneSelf)%N eqn:Ha.
  + destruct (DecodeRune_ascii c t Ha) as [_ Hok]. congruence.
  + by rewrite He.
Qed.

(** sanitising is idempotent. *)
Theorem SanitizeLabel_idempotent (s : string) :
SanitizeLabel (SanitizeLabel s) = SanitizeLabel s.
Proof. unfold SanitizeLabel at 1. by rewrite SanitizeLabel_ValidString. Qed.

End MarketFacts.

(** ** Witnesses *)
Module MarketWitnesses.
Import MarketTask MarketFacts.

Definition market_code : string := "market-code-v9".

Definition market_node : ActorStateAPI :=
{| node_Store := <["m_curr" := BMarket "props_curr" "states_curr"]>
                 (<["m_prev" := BMarket "props_prev" "states_prev"]> ∅);
   node_Actor := fun _ _ => Ok {| Code := market_code; Head := "m_prev" |};
   node_Registry := <[market_code := ("storagemarket", 9%nat)]> ∅ |}.

Definition market_info (h : Z) : ActorInfo :=
{| ai_Actor := {| Code := market_code; Head := "m_curr" |};
   ai_Address := MkAddress "f05";
   Current := {| Height := h; ParentState := "root_curr"; Key := "tsk_curr" |};
   Executed := {| Height := h - 1; ParentState := "root_prev"; Key := "tsk_prev" |} |}.

(** A Go string from its byte values. *)
Definition bytes (l : list N) : string :=
foldr (fun b s => String (Ascii.ascii_of_N b) s) EmptyString l.

Lemma NewMarketStateExtractionContext_identity_witness :
exists ctx n', NewMarketStateExtractionContext (market_info 0) market_node 1%positive
                 = Ok (ctx, n') /\
  ptr_eqb (PrevState ctx) (CurrState ctx) = IsGenesis ctx /\ IsGenesis ctx = true /\
  PrevState ctx = CurrState ctx.
Proof.
destruct (NewMarketStateExtractionContext (market_info 0) market_node 1%positive)
  as [[ctx n']|] eqn:E; [|vm_compute in E; discriminate].
exists ctx, n'. split; [reflexivity|].
destruct (NewMarketStateExtractionContext_identity _ _ _ _ _ E) as (H1 & H2 & _).
assert (Hg : IsGenesis ctx = true).
{ assert (Hc := E). vm_compute in Hc. injection Hc as <- _. reflexivity. }
split; [done|]. split; [done|]. by apply H2.
Defined.

(** Scenario D: the label "a", 0xff, "b" becomes "a", U+FFFD, "b". *)
Lemma SanitizeLabel_local_witness :
SanitizeLabel (bytes [97; 255; 98]%N) = bytes [97; 239; 191; 189; 98]%N.
Proof.
destruct (SanitizeLabel_local "a" (bytes [255; 98]%N) (Ascii.ascii_of_N 255) "b")
  as [H1 H2].
change (bytes [97; 255; 98]%N) with ("a" ++ bytes [255; 98]%N)%string.
rewrite H1 by (apply ValidString_iff; reflexivity).
change (bytes [255; 98]%N) with (String (Ascii.ascii_of_N 255) "b").
rewrite H2 by reflexivity. vm_compute. reflexivity.
Defined.
End MarketWitnesses.
