(* ===== verification/Diff.v ===== *)
(** * The differencing engine

    The diff of two keyed collections (HAMTs of the store, keyed by their
    byte-string keys) that the collection extractors consume. It is not
    among the sources (lily's [GetPreCommitDiff] and the HAMT differ of
    lotus), so it is modelled from the spec (section 4.3): equal roots give
    the empty diff without reading the store; otherwise both collections
    are decoded whole (a decode error aborts the diff) and every key of
    either is classified as added, removed, modified (by the decoded
    values' equality) or unchanged (omitted). The collections are stdpp
    [gmap]s. *)

From Stdlib Require Import ZArith String.
From stdpp Require Import base list strings gmap fin_maps.
From S2P Require Import Prelude Store.

Open Scope lily_scope.

Section Diff.
Context {V : Type} `{EqDecision V} `{Unmarshal V}.

(** [DiffEntry]: an added value, a removed one (with the value it had),
    or a modified one (before, after). *)
Inductive DiffEntry :=
| Added (k : string) (v : V)
| Removed (k : string) (v : V)
| Modified (k : string) (before after : V).

Definition entry_key (e : DiffEntry) : string :=
  match e with Added k _ | Removed k _ | Modified k _ _ => k end.

(** The entries for the keys of the new collection. *)
Definition added_modified (m1 m2 : gmap string V) : list DiffEntry :=
  omap (fun kv => match m1 !! kv.1 with
                  | None => Some (Added kv.1 kv.2)
                  | Some v1 => if decide (v1 = kv.2) then None
                               else Some (Modified kv.1 v1 kv.2)
                  end) (map_to_list m2).

(** The entries for the keys only the old collection has. *)
Definition removed (m1 m2 : gmap string V) : list DiffEntry :=
  omap (fun kv => match m2 !! kv.1 with
                  | None => Some (Removed kv.1 kv.2)
                  | Some _ => None
                  end) (map_to_list m1).

Definition diff_maps (m1 m2 : gmap string V) : list DiffEntry :=
  added_modified m1 m2 ++ removed m1 m2.

(** A collection decoded whole from the store. *)
Definition load_collection (st : Store) (root : Cid) : result (gmap string V) :=
  let? m := AsMap st root 5 in
  let? l := entries_decode (T := V) (fun k v => Ok (k, v)) (map_entries m) in
  Ok (list_to_map l).

(** The diff of the collections at two roots. *)
Definition Diff (st : Store) (root1 root2 : Cid) : result (list DiffEntry) :=
  if decide (root1 = root2) then Ok []
  else let? m1 := load_collection st root1 in
       let? m2 := load_collection st root2 in
       Ok (diff_maps m1 m2).

(** The mirror image of an entry: the diff read backwards. *)
Definition mirror (e : DiffEntry) : DiffEntry :=
  match e with
  | Added k v => Removed k v
  | Removed k v => Added k v
  | Modified k a b => Modified k b a
  end.

(** Applying a diff to the old collection. *)
Definition apply_entry (m : gmap string V) (e : DiffEntry) : gmap string V :=
  match e with
  | Added k v => <[k := v]> m
  | Removed k _ => delete k m
  | Modified k _ b => <[k := b]> m
  end.

Definition apply_diff (m : gmap string V) (d : list DiffEntry) : gmap string V :=
  foldl apply_entry m d.

(** What an entry of the diff of [m1] and [m2] means. *)
Definition entry_holds (m1 m2 : gmap string V) (e : DiffEntry) : Prop :=
  match e with
  | Added k v => m1 !! k = None /\ m2 !! k = Some v
  | Removed k v => m1 !! k = Some v /\ m2 !! k = None
  | Modified k a b => m1 !! k = Some a /\ m2 !! k = Some b /\ a <> b
  end.

End Diff.
Arguments DiffEntry V : clear implicits.

Section DiffFacts.
Context {V : Type} `{EqDecision V} `{Unmarshal V}.

(** What applying an entry does to its own key. *)
Definition effect (e : DiffEntry V) : option V :=
  match e with Added _ v => Some v | Removed _ _ => None | Modified _ _ b => Some b end.

(** The diff of two collections is exactly the set of entries that hold. *)
Lemma diff_maps_spec (m1 m2 : gmap string V) (e : DiffEntry V) : e ∈ diff_maps m1 m2 <-> entry_holds m1 m2 e.
Proof.
  unfold diff_maps, added_modified, removed.
  rewrite elem_of_app, !list_elem_of_omap. split.
  - intros [([k v] & Hin & Hf) | ([k v] & Hin & Hf)];
      apply elem_of_map_to_list in Hin; simpl in Hf.
    + destruct (m1 !! k) as [v1|] eqn:E1; [case_decide|]; simplify_eq; simpl; auto.
    + destruct (m2 !! k) eqn:E2; simplify_eq; simpl; auto.
  - destruct e as [k v|k v|k a b]; simpl.
    + intros [H1 H2]. left. exists (k, v). rewrite elem_of_map_to_list. simpl. by rewrite H1.
    + intros [H1 H2]. right. exists (k, v). rewrite elem_of_map_to_list. simpl. by rewrite H2.
    + intros (H1 & H2 & Hab). left. exists (k, b). rewrite elem_of_map_to_list. simpl.
      rewrite H1. by rewrite decide_False.
Qed.

Lemma entry_holds_effect (m1 m2 : gmap string V) (e : DiffEntry V) : entry_holds m1 m2 e -> m2 !! entry_key e = effect e.
Proof. destruct e; simpl; naive_solver. Qed.

#[local] Instance mentions_dec (d : list (DiffEntry V)) (i : string) :
  Decision (exists e, e ∈ d /\ entry_key e = i).
Proof. refine (cast_if (decide (Exists (fun e => entry_key e = i) d))); by rewrite <-Exists_exists. Defined.

(** Keys no entry mentions are left alone. *)
Lemma apply_diff_lookup_miss (d : list (DiffEntry V)) (m : gmap string V) (i : string) :
  (forall e, e ∈ d -> entry_key e <> i) -> apply_diff m d !! i = m !! i.
Proof.
  unfold apply_diff. revert m. induction d as [|e d IH]; intros m Hall; [done|]. simpl.
  rewrite IH by (intros; apply Hall; by right).
  specialize (Hall e (list_elem_of_here _ _)).
  destruct e; simpl in *; [rewrite lookup_insert_ne | rewrite lookup_delete_ne | rewrite lookup_insert_ne];
    congruence.
Qed.

(** Applying entries that all set key [i] to [r] leaves [r] at [i]. *)
Lemma apply_diff_lookup_hit (d : list (DiffEntry V)) (m : gmap string V) (i : string) (r : option V) :
  (forall e, e ∈ d -> entry_key e = i -> effect e = r) ->
  (exists e, e ∈ d /\ entry_key e = i) ->
  apply_diff m d !! i = r.
Proof.
  revert m. induction d as [|e d IH]; intros m Hall [e' [Hin Hk]];
    [by apply not_elem_of_nil in Hin|].
  change (apply_diff m (e :: d)) with (apply_diff (apply_entry m e) d). destruct (decide (exists e'', e'' ∈ d /\ entry_key e'' = i)) as [Hd|Hd].
  - apply IH; [intros; apply Hall; [by right|done] | done].
  - apply elem_of_cons in Hin as [->|Hin]; [|exfalso; eauto].
    rewrite (apply_diff_lookup_miss d) by (intros x Hx Hkx; apply Hd; eauto).
    specialize (Hall e (list_elem_of_here _ _) Hk).
    destruct e as [k v|k v|k a b]; simpl in *; subst;
      [apply lookup_insert_eq | apply lookup_delete_eq | apply lookup_insert_eq].
Qed.

(** Patching the old collection with the diff gives the new one. *)
Lemma apply_diff_maps (m1 m2 : gmap string V) : apply_diff m1 (diff_maps m1 m2) = m2.
Proof.
  apply map_eq. intros i.
  destruct (decide (exists e, e ∈ diff_maps m1 m2 /\ entry_key e = i)) as [Hx|Hx].
  - apply apply_diff_lookup_hit; [|done].
    intros e He <-. symmetry. apply (entry_holds_effect m1). by apply diff_maps_spec.
  - rewrite apply_diff_lookup_miss.
    + destruct (m1 !! i) as [a|] eqn:E1, (m2 !! i) as [b|] eqn:E2; try done.
      * destruct (decide (a = b)) as [->|Hab]; [done|]. exfalso. apply Hx.
        exists (Modified i a b). split; [|done]. by apply diff_maps_spec.
      * exfalso. apply Hx. exists (Removed i a). split; [|done]. by apply diff_maps_spec.
      * exfalso. apply Hx. exists (Added i b). split; [|done]. by apply diff_maps_spec.
    + intros e He Hk. apply Hx. eauto.
Qed.

Lemma entry_holds_mirror (m1 m2 : gmap string V) (e : DiffEntry V) : entry_holds m1 m2 e <-> entry_holds m2 m1 (mirror e).
Proof. destruct e; simpl; naive_solver. Qed.

Lemma mirror_involutive (e : DiffEntry V) : mirror (mirror e) = e.
Proof. by destruct e. Qed.

End DiffFacts.

Section DiffStore.
Context {V : Type} `{EqDecision V} `{Unmarshal V}.

Lemma Diff_unfold (st : Store) (r1 r2 : Cid) (d : list (DiffEntry V)) :
  r1 <> r2 -> Diff st r1 r2 = Ok d ->
  exists m1 m2, load_collection st r1 = Ok m1 /\ load_collection st r2 = Ok m2 /\
                d = diff_maps m1 m2.
Proof.
  unfold Diff. intros Hne. rewrite decide_False by done.
  destruct (load_collection st r1) as [m1|]; simpl; [|discriminate].
  destruct (load_collection st r2) as [m2|]; simpl; [|discriminate].
  intros [= <-]. eauto.
Qed.

(** Refinement of the differencing engine: for distinct roots a
    successful [Diff] decodes both collections, its entries are exactly
    the added, removed and modified keys, and patching the old collection
    with them gives the new one. *)
Theorem Diff_refines (st : Store) (r1 r2 : Cid) (d : list (DiffEntry V)) :
  r1 <> r2 -> Diff st r1 r2 = Ok d ->
  exists m1 m2, load_collection st r1 = Ok m1 /\ load_collection st r2 = Ok m2 /\
    (forall e, e ∈ d <-> entry_holds m1 m2 e) /\ apply_diff m1 d = m2.
Proof.
  intros Hne Hd. destruct (Diff_unfold st r1 r2 d Hne Hd) as (m1 & m2 & H1 & H2 & ->).
  exists m1, m2. split_and!; [done | done | apply diff_maps_spec | apply apply_diff_maps].
Qed.

(** Diffing A against B and B against A gives exact mirror images:
    every entry of one is the mirror of an entry of the other. *)
Theorem Diff_mirror (st : Store) (r1 r2 : Cid) (d12 d21 : list (DiffEntry V)) :
  Diff st r1 r2 = Ok d12 -> Diff st r2 r1 = Ok d21 ->
  forall e, e ∈ d12 <-> mirror e ∈ d21.
Proof.
  intros H12 H21 e. destruct (decide (r1 = r2)) as [<-|Hne].
  - unfold Diff in H12, H21. rewrite decide_True in H12, H21 by done.
    injection H12 as <-. injection H21 as <-. split; by intros ?%not_elem_of_nil.
  - destruct (Diff_unfold st r1 r2 d12 Hne H12) as (m1 & m2 & E1 & E2 & ->).
    destruct (Diff_unfold st r2 r1 d21 (not_eq_sym Hne) H21) as (m2' & m1' & E2' & E1' & ->).
    rewrite E1 in E1'. rewrite E2 in E2'. simplify_eq.
    rewrite !diff_maps_spec. apply entry_holds_mirror.
Qed.

(** What a loaded collection holds: over a well-formed store, the key
    [k] maps to [v] exactly when the HAMT at the root has an entry for [k]
    whose encoded value decodes to [v]. *)
Theorem load_collection_lookup (st : Store) (r : Cid) (es : list (string * raw))
    (m : gmap string V) (k : string) (v : V) :
  store_wf st -> st !! r = Some (BHamt es) -> load_collection st r = Ok m ->
  m !! k = Some v <-> exists raw, (k, raw) ∈ es /\ unmarshal raw = Ok v.
Proof.
  intros Hwf Hr. unfold load_collection, AsMap. rewrite Hr. simpl.
  destruct (entries_decode _ es) as [l|] eqn:Hl; simpl; [|discriminate].
  intros [= <-]. destruct (entries_decode_pairs es l Hl) as [Hk Hm].
  rewrite <- Hm. split; [apply elem_of_list_to_map_2|].
  apply elem_of_list_to_map_1. rewrite fmap_list_map, Hk. exact (Hwf r es Hr).
Qed.

(** A value of either collection that does not decode makes the whole
    diff fail: no partial diff is returned. *)
Theorem Diff_decode_error (st : Store) (r1 r2 : Cid) (es : list (string * raw))
    (k : string) (raw0 : raw) (e : error) :
  r1 <> r2 -> (st !! r1 = Some (BHamt es) \/ st !! r2 = Some (BHamt es)) ->
  (k, raw0) ∈ es -> unmarshal (T := V) raw0 = Err e ->
  exists e', Diff (V := V) st r1 r2 = Err e'.
Proof.
  intros Hne Hr Hin Hu. unfold Diff. rewrite decide_False by done.
  assert (Hl : forall r, st !! r = Some (BHamt es) -> exists e', load_collection (V := V) st r = Err e').
  { intros r Hs. unfold load_collection, AsMap. rewrite Hs. simpl.
    destruct (entries_decode_error (fun k v => Ok (k, v)) es k raw0 e Hin Hu) as [e' ->].
    simpl. eauto. }
  destruct (load_collection (V := V) st r1) as [m1|e1] eqn:E1; simpl; [|eauto].
  destruct Hr as [Hr|Hr]; [destruct (Hl r1 Hr) as [e' He]; congruence|].
  destruct (Hl r2 Hr) as [e' ->]. simpl. eauto.
Qed.

End DiffStore.

Module DiffWitnesses.
Local Open Scope string_scope.

Definition c1 : power9_Claim :=
  {| WindowPoStProofType := 8; c9_RawBytePower := 10; c9_QualityAdjPower := 5 |}.
Definition c2 : power9_Claim :=
  {| WindowPoStProofType := 8; c9_RawBytePower := 20; c9_QualityAdjPower := 20 |}.
Definition c3 : power9_Claim :=
  {| WindowPoStProofType := 8; c9_RawBytePower := 30; c9_QualityAdjPower := 20 |}.

(** Old collection {a:c1, b:c2}, new collection {b:c3, c:c1}, and a
    collection holding an undecodable value. *)
Definition blocks : list (string * block) :=
  [("r1", BHamt [("a", RawClaim9 c1); ("b", RawClaim9 c2)]);
   ("r2", BHamt [("b", RawClaim9 c3); ("c", RawClaim9 c1)]);
   ("r3", BHamt [("a", RawClaim9 c1); ("z", RawBytes "garbage")])].
Definition st : Store := list_to_map blocks.

Definition d12 : list (DiffEntry power9_Claim) :=
  match Diff st "r1" "r2" with Ok d => d | Err _ => [] end.
Definition d21 : list (DiffEntry power9_Claim) :=
  match Diff st "r2" "r1" with Ok d => d | Err _ => [] end.

Lemma Diff_refines_witness :
  exists m1 m2, load_collection st "r1" = Ok m1 /\ load_collection st "r2" = Ok m2 /\
    (forall e, e ∈ d12 <-> entry_holds m1 m2 e) /\ apply_diff m1 d12 = m2.
Proof. apply (Diff_refines st "r1" "r2" d12); [done | vm_compute; reflexivity]. Defined.

Lemma Diff_mirror_witness :
  Modified "b" c2 c3 ∈ d12 <-> mirror (Modified "b" c2 c3) ∈ d21.
Proof.
  apply (Diff_mirror st "r1" "r2" d12 d21); vm_compute; reflexivity.
Defined.

Lemma load_collection_lookup_witness :
  exists m, load_collection st "r2" = Ok m /\
    (m !! "c" = Some c1 <-> exists raw, ("c", raw) ∈ [("b", RawClaim9 c3); ("c", RawClaim9 c1)] /\
                                       unmarshal raw = Ok c1).
Proof.
  eexists. split; [vm_compute; reflexivity|].
  apply (load_collection_lookup st "r2"); [apply store_wf_of_list; reflexivity | reflexivity |
    vm_compute; reflexivity].
Defined.

Lemma Diff_decode_error_witness : exists e', Diff (V := power9_Claim) st "r1" "r3" = Err e'.
Proof.
  apply (Diff_decode_error st "r1" "r3" [("a", RawClaim9 c1); ("z", RawBytes "garbage")]
           "z" (RawBytes "garbage") (ErrDecode "power9.Claim")).
  - done.
  - right. reflexivity.
  - right. left.
  - reflexivity.
Defined.

End DiffWitnesses.
