(* ===== verification/PreCommit.v ===== *)
(** * The miner precommit extractor and its record

    [src/tasks/actorstate/miner/tasks/extractors/precommitinfo.go]. The
    record [MinerPreCommitInfo] (15 columns, table
    [miner_pre_commit_infos]) has a legacy shape [MinerPreCommitInfoV0]
    with the same fields; [AsVersion], [Persist] and
    [MinerPreCommitInfoList.Persist] follow the fee debt record.
    [ExtractMinerPreCommitInfo] emits one row per precommit that the
    differencing engine reports as added between the previous and the
    current precommitted-sectors HAMT. [tasks.GetPreCommitDiff] is not
    among the sources; it is modelled from the spec as the engine of
    [Diff.v] on the two HAMT roots, keeping the added and removed entries
    (the miner diff of lotus ignores modified precommits). *)

From Stdlib Require Import ZArith String.
From stdpp Require Import base list strings gmap.
From S2P Require Import Prelude Go Store Chain Versioned MinerContext Diff.

Open Scope lily_scope.

(** [miner.PreCommitChanges]: the added and the removed precommits. *)
Record PreCommitChanges := {
  pc_Added : list SectorPreCommitOnChainInfo;
  pc_Removed : list SectorPreCommitOnChainInfo }.

(** The changes a diff reports, in the order of its entries. *)
Definition changes_of (d : list (DiffEntry SectorPreCommitOnChainInfo)) : PreCommitChanges :=
  {| pc_Added := omap (fun e => match e with Added _ v => Some v | _ => None end) d;
     pc_Removed := omap (fun e => match e with Removed _ v => Some v | _ => None end) d |}.

(** [tasks.GetPreCommitDiff(ctx, ec)]: the diff of the previous and the
    current precommitted-sectors HAMTs, read through the current state's
    store. *)
Definition GetPreCommitDiff (ec : MinerStateExtractionContext) : result PreCommitChanges :=
  let? d := Diff (Miner.ms_store (deref (CurrState ec)))
                 (Miner.ms_PreCommittedSectors (deref (PrevState ec)))
                 (Miner.ms_PreCommittedSectors (deref (CurrState ec))) in
  Ok (changes_of d).

Module MinerPreCommitInfoV0.
(** [MinerPreCommitInfoV0], table [miner_pre_commit_infos]. *)
Record t := {
  Height : Z; MinerID : string; SectorID : Z; StateRoot : string;
  SealedCID : string; SealRandEpoch : Z; ExpirationEpoch : Z;
  PreCommitDeposit : string; PreCommitEpoch : Z; DealWeight : string;
  VerifiedDealWeight : string;
  IsReplaceCapacity : bool; ReplaceSectorDeadline : Z;
  ReplaceSectorPartition : Z; ReplaceSectorNumber : Z }.
End MinerPreCommitInfoV0.

Module MinerPreCommitInfo.
(** [MinerPreCommitInfo] *)
Record t := {
  Height : Z; MinerID : string; SectorID : Z; StateRoot : string;
  SealedCID : string; SealRandEpoch : Z; ExpirationEpoch : Z;
  PreCommitDeposit : string; PreCommitEpoch : Z; DealWeight : string;
  VerifiedDealWeight : string;
  IsReplaceCapacity : bool; ReplaceSectorDeadline : Z;
  ReplaceSectorPartition : Z; ReplaceSectorNumber : Z }.

Abbreviation model := (Model t MinerPreCommitInfoV0.t).

(** The field-by-field copy of [AsVersion] at major version 0. *)
Definition to_v0 (m : t) : MinerPreCommitInfoV0.t :=
{| MinerPreCommitInfoV0.Height := Height m;
   MinerPreCommitInfoV0.MinerID := MinerID m;
   MinerPreCommitInfoV0.SectorID := SectorID m;
   MinerPreCommitInfoV0.StateRoot := StateRoot m;
   MinerPreCommitInfoV0.SealedCID := SealedCID m;
   MinerPreCommitInfoV0.SealRandEpoch := SealRandEpoch m;
   MinerPreCommitInfoV0.ExpirationEpoch := ExpirationEpoch m;
   MinerPreCommitInfoV0.PreCommitDeposit := PreCommitDeposit m;
   MinerPreCommitInfoV0.PreCommitEpoch := PreCommitEpoch m;
   MinerPreCommitInfoV0.DealWeight := DealWeight m;
   MinerPreCommitInfoV0.VerifiedDealWeight := VerifiedDealWeight m;
   MinerPreCommitInfoV0.IsReplaceCapacity := IsReplaceCapacity m;
   MinerPreCommitInfoV0.ReplaceSectorDeadline := ReplaceSectorDeadline m;
   MinerPreCommitInfoV0.ReplaceSectorPartition := ReplaceSectorPartition m;
   MinerPreCommitInfoV0.ReplaceSectorNumber := ReplaceSectorNumber m |}.

(** [AsVersion(version)] of a possibly nil [*MinerPreCommitInfo]. *)
Definition AsVersion (m : option t) (version : Version) : option model :=
if decide (Major version = 0%Z) then
  match m with
  | None => Some (ModelV0 None)
  | Some r => Some (ModelV0 (Some (to_v0 r)))
  end
else if decide (Major version = 1%Z) then Some (ModelCur m)
else None.

Section Persist.
Context {B : Type} `{StorageBatch B model}.

(** [Persist(ctx, s, version)] *)
Definition Persist (m : option t) (s : B) (version : Version) : result B :=
  match AsVersion m version with
  | None => Err (ErrSchema "MinerPreCommitInfo not supported for schema version")
  | Some vm => PersistModel vm s
  end.

(** [MinerPreCommitInfoList.Persist(ctx, s, version)] *)
Definition MinerPreCommitInfoList_Persist (ml : list (option t)) (s : B) (version : Version)
  : result B :=
  match ml with
  | [] => Ok s
  | _ =>
  if decide (Major version <> 1%Z) then
    fold_result (fun m s => Persist m s version) ml s
  else PersistModel (ModelList ml) s
  end.
End Persist.

(** The row of one added precommit (the loop body). *)
Definition pcm (ec : MinerStateExtractionContext) (added : SectorPreCommitOnChainInfo) : t :=
{| Height := Chain.Height (CurrTs ec);
   MinerID := Address_String (ec_Address ec);
   SectorID := Store.SectorNumber (Info added);
   StateRoot := ParentState (CurrTs ec);
   SealedCID := Store.SealedCID (Info added);
   SealRandEpoch := Store.SealRandEpoch (Info added);
   ExpirationEpoch := Store.Expiration (Info added);
   PreCommitDeposit := Z_String (Store.PreCommitDeposit added);
   PreCommitEpoch := Store.PreCommitEpoch added;
   DealWeight := Z_String (Store.DealWeight added);
   VerifiedDealWeight := Z_String (Store.VerifiedDealWeight added);
   IsReplaceCapacity := Store.ReplaceCapacity (Info added);
   ReplaceSectorDeadline := Store.ReplaceSectorDeadline (Info added);
   ReplaceSectorPartition := Store.ReplaceSectorPartition (Info added);
   ReplaceSectorNumber := Store.ReplaceSectorNumber (Info added) |}.

(** [ExtractMinerPreCommitInfo(ctx, ec)]: [None] is the [nil, nil] of a
  context without a previous state; otherwise the list of rows, one per
  added precommit, in the diff's order. *)
Definition ExtractMinerPreCommitInfo (ec : MinerStateExtractionContext)
  : result (option (list (option t))) :=
if negb (HasPreviousState ec) then Ok None
else
  let? preCommitChanges := GetPreCommitDiff ec in
  Ok (Some (map (fun added => Some (pcm ec added)) (pc_Added preCommitChanges))).

End MinerPreCommitInfo.

Module PreCommitFacts.
Import MinerPreCommitInfo.

(** The precommitted-sectors roots and the store of a context. *)
Definition prev_root (ec : MinerStateExtractionContext) : Cid :=
  Miner.ms_PreCommittedSectors (deref (PrevState ec)).
Definition curr_root (ec : MinerStateExtractionContext) : Cid :=
  Miner.ms_PreCommittedSectors (deref (CurrState ec)).
Definition curr_store (ec : MinerStateExtractionContext) : Store :=
  Miner.ms_store (deref (CurrState ec)).

Lemma changes_of_Added (d : list (DiffEntry SectorPreCommitOnChainInfo))
    (v : SectorPreCommitOnChainInfo) :
  v ∈ pc_Added (changes_of d) <-> exists k, Added k v ∈ d.
Proof.
  unfold changes_of. simpl. rewrite list_elem_of_omap. split.
  - intros ([k v'|k v'|k a b] & He & Hf); simplify_eq; eauto.
  - intros [k Hk]. by exists (Added k v).
Qed.

(** The extractor, unfolded to the diff of the two roots. *)
Lemma ExtractMinerPreCommitInfo_unfold (ec : MinerStateExtractionContext) :
  HasPreviousState ec = true ->
  ExtractMinerPreCommitInfo ec =
    rmap (fun d => Some (map (fun added => Some (pcm ec added)) (pc_Added (changes_of d))))
         (Diff (curr_store ec) (prev_root ec) (curr_root ec)).
Proof.
  intros Hp. unfold ExtractMinerPreCommitInfo, GetPreCommitDiff. rewrite Hp. simpl.
  by destruct (Diff _ _ _).
Qed.

(** The added precommits of a diff are the current collection's entries,
    in its iteration order, whose key the previous collection lacks. *)
Lemma pc_Added_diff_maps (m1 m2 : gmap string SectorPreCommitOnChainInfo) :
  pc_Added (changes_of (diff_maps m1 m2)) =
    snd <$> filter (fun kv => m1 !! kv.1 = None) (map_to_list m2).
Proof.
  unfold changes_of, diff_maps, added_modified, removed. simpl.
  generalize (map_to_list m2) as l2. generalize (map_to_list m1) as l1. intros l1 l2.
  rewrite omap_app.
  assert (Hr : forall l, omap (fun e => match e with Added _ v => Some v | _ => None end)
                 (omap (fun kv : string * SectorPreCommitOnChainInfo =>
                          match m2 !! kv.1 with
                          | None => Some (Removed kv.1 kv.2)
                          | Some _ => None
                          end) l) = []).
  { induction l as [|[k v] l IH]; simpl; [done|]. by destruct (m2 !! k). }
  rewrite Hr, app_nil_r. clear Hr.
  induction l2 as [|[k v] l IH]; simpl; [done|]. rewrite filter_cons. simpl.
  destruct (m1 !! k) as [v1|]; simpl; repeat (case_decide; simpl); try congruence;
    first [exact IH | f_equal; exact IH].
Qed.

(** C5: Away from an unchanged root, the rows of [ExtractMinerPreCommitInfo]
    are exactly one row per precommit whose sector key is absent from the
    previous HAMT and present in the current one, in the current
    collection's order: removed and modified precommits give no row, and
    no precommit gives two. *)
Theorem ExtractMinerPreCommitInfo_added (ec : MinerStateExtractionContext)
    (rows : list (option t)) :
  ExtractMinerPreCommitInfo ec = Ok (Some rows) -> prev_root ec <> curr_root ec ->
  exists m1 m2, load_collection (curr_store ec) (prev_root ec) = Ok m1 /\
                load_collection (curr_store ec) (curr_root ec) = Ok m2 /\
    rows = (fun kv => Some (pcm ec kv.2)) <$> filter (fun kv => m1 !! kv.1 = None) (map_to_list m2).
Proof.
  intros Hx Hne. destruct (HasPreviousState ec) eqn:Hp;
    [|unfold ExtractMinerPreCommitInfo in Hx; rewrite Hp in Hx; discriminate].
  rewrite (ExtractMinerPreCommitInfo_unfold ec Hp) in Hx.
  destruct (Diff _ _ _) as [d|] eqn:Hd; simpl in Hx; [|discriminate].
  injection Hx as <-. destruct (Diff_unfold _ _ _ d Hne Hd) as (m1 & m2 & E1 & E2 & ->).
  exists m1, m2. split_and!; [done | done |].
  rewrite <- fmap_list_map. etransitivity; [apply (f_equal (fmap _)), pc_Added_diff_maps|].
  by rewrite <- list_fmap_compose.
Qed.

(** C23: With a previous state whose precommitted-sectors root is the
    current one, the extractor reads nothing and returns an empty list of
    rows, not the [nil] of "no record". *)
Theorem ExtractMinerPreCommitInfo_unchanged (ec : MinerStateExtractionContext) :
  HasPreviousState ec = true -> prev_root ec = curr_root ec ->
  ExtractMinerPreCommitInfo ec = Ok (Some []).
Proof.
  intros Hp Hr. rewrite (ExtractMinerPreCommitInfo_unfold ec Hp).
  unfold Diff. rewrite Hr, decide_True by done. reflexivity.
Qed.

(** At genesis the context has no previous state and the extractor
    returns [nil]: no precommit row is emitted at height 0. *)
Theorem ExtractMinerPreCommitInfo_genesis (a : ActorInfo) (node : ActorStateAPI)
    (n n' : loc) (ec : MinerStateExtractionContext) :
  NewMinerStateExtractionContext a node n = Ok (ec, n') ->
  Chain.Height (Current a) = 0%Z ->
  ExtractMinerPreCommitInfo ec = Ok None.
Proof.
  intros Hec Hh. unfold ExtractMinerPreCommitInfo.
  by rewrite (proj2 (NewMinerStateExtractionContext_genesis _ _ _ _ _ Hec Hh)).
Qed.

(** C19: An undecodable precommit in the previous or the current HAMT makes
    [ExtractMinerPreCommitInfo] fail: a corrupt precommit is never skipped
    and no partial list of rows is returned. *)
Theorem ExtractMinerPreCommitInfo_decode_error (ec : MinerStateExtractionContext)
    (es : list (string * raw)) (k : string) (r : raw) (e : error) :
  HasPreviousState ec = true -> prev_root ec <> curr_root ec ->
  (curr_store ec !! prev_root ec = Some (BHamt es) \/
   curr_store ec !! curr_root ec = Some (BHamt es)) ->
  (k, r) ∈ es -> unmarshal (T := SectorPreCommitOnChainInfo) r = Err e ->
  exists e', ExtractMinerPreCommitInfo ec = Err e'.
Proof.
  intros Hp Hne Hr Hin Hu. rewrite (ExtractMinerPreCommitInfo_unfold ec Hp).
  destruct (Diff_decode_error (curr_store ec) _ _ es k r e Hne Hr Hin Hu) as [e' ->].
  simpl. eauto.
Qed.

End PreCommitFacts.

Module PreCommitWitnesses.
Import MinerPreCommitInfo PreCommitFacts.
Local Open Scope string_scope.

Definition info (n : Z) : SectorPreCommitInfo :=
{| SealProof := 8; Store.SectorNumber := n; Store.SealedCID := "bagboea-sealed";
   Store.SealRandEpoch := 100; DealIDs := []; Expiration := 500000;
   Store.ReplaceCapacity := false; Store.ReplaceSectorDeadline := 0;
   Store.ReplaceSectorPartition := 0; Store.ReplaceSectorNumber := 0 |}.

Definition onchain (n : Z) : SectorPreCommitOnChainInfo :=
{| Info := info n; Store.PreCommitDeposit := 1000; Store.PreCommitEpoch := 120;
   Store.DealWeight := 0; Store.VerifiedDealWeight := 0 |}.

(** Sector 1 is precommitted at the executed tipset; at the current one
    sector 1 is gone (proven) and sector 2 is new. *)
Definition miner_code : string := "miner-code-v9".
Definition node : ActorStateAPI :=
{| node_Store := list_to_map
     [("head_curr", BMiner 0 "pcs_curr"); ("head_prev", BMiner 0 "pcs_prev");
      ("head_same", BMiner 0 "pcs_prev");
      ("pcs_prev", BHamt [("s1", RawPreCommit (onchain 1))]);
      ("pcs_curr", BHamt [("s2", RawPreCommit (onchain 2))]);
      ("head_bad", BMiner 0 "pcs_bad");
      ("pcs_bad", BHamt [("s1", RawPreCommit (onchain 1)); ("s3", RawBytes "truncated")])];
   node_Actor := fun _ _ => Ok {| Code := miner_code; Head := "head_prev" |};
   node_Registry := <[miner_code := ("storageminer", 9%nat)]> ∅ |}.

Definition info_at (h : Z) (head : string) : ActorInfo :=
{| ai_Actor := {| Code := miner_code; Head := head |};
   ai_Address := MkAddress "f01000";
   Current := {| Chain.Height := h; ParentState := "root_curr"; Key := "tsk_curr" |};
   Executed := {| Chain.Height := h - 1; ParentState := "root_prev"; Key := "tsk_prev" |} |}.

Lemma ExtractMinerPreCommitInfo_added_witness :
  exists ec n', NewMinerStateExtractionContext (info_at 10 "head_curr") node 1%positive = Ok (ec, n') /\
  exists m1 m2, load_collection (curr_store ec) (prev_root ec) = Ok m1 /\
                load_collection (curr_store ec) (curr_root ec) = Ok m2 /\
    [Some (pcm ec (onchain 2))] =
      (fun kv => Some (pcm ec kv.2)) <$> filter (fun kv => m1 !! kv.1 = None) (map_to_list m2).
Proof.
  destruct (NewMinerStateExtractionContext (info_at 10 "head_curr") node 1%positive)
    as [[ec n']|] eqn:E; [|vm_compute in E; discriminate].
  exists ec, n'. split; [reflexivity|].
  assert (Hec := E). vm_compute in Hec. injection Hec as <- _.
  apply ExtractMinerPreCommitInfo_added; vm_compute; [reflexivity | discriminate].
Defined.

Lemma ExtractMinerPreCommitInfo_unchanged_witness :
  exists ec n', NewMinerStateExtractionContext (info_at 10 "head_same") node 1%positive = Ok (ec, n') /\
  ExtractMinerPreCommitInfo ec = Ok (Some []).
Proof.
  destruct (NewMinerStateExtractionContext (info_at 10 "head_same") node 1%positive)
    as [[ec n']|] eqn:E; [|vm_compute in E; discriminate].
  exists ec, n'. split; [reflexivity|].
  assert (Hec := E). vm_compute in Hec. injection Hec as <- _.
  apply ExtractMinerPreCommitInfo_unchanged; reflexivity.
Defined.

Lemma ExtractMinerPreCommitInfo_genesis_witness :
  exists ec n', NewMinerStateExtractionContext (info_at 0 "head_curr") node 1%positive = Ok (ec, n') /\
  ExtractMinerPreCommitInfo ec = Ok None.
Proof.
  destruct (NewMinerStateExtractionContext (info_at 0 "head_curr") node 1%positive)
    as [[ec n']|] eqn:E; [|vm_compute in E; discriminate].
  exists ec, n'. split; [reflexivity|].
  apply (ExtractMinerPreCommitInfo_genesis _ _ _ _ _ E). reflexivity.
Defined.

Lemma ExtractMinerPreCommitInfo_decode_error_witness :
  exists ec n', NewMinerStateExtractionContext (info_at 10 "head_bad") node 1%positive = Ok (ec, n') /\
  exists e', ExtractMinerPreCommitInfo ec = Err e'.
Proof.
  destruct (NewMinerStateExtractionContext (info_at 10 "head_bad") node 1%positive)
    as [[ec n']|] eqn:E; [|vm_compute in E; discriminate].
  exists ec, n'. split; [reflexivity|].
  assert (Hec := E). vm_compute in Hec. injection Hec as <- _.
  apply (ExtractMinerPreCommitInfo_decode_error _
           [("s1", RawPreCommit (onchain 1)); ("s3", RawBytes "truncated")]
           "s3" (RawBytes "truncated") (ErrDecode "miner.SectorPreCommitOnChainInfo")).
  - reflexivity.
  - vm_compute. discriminate.
  - right. reflexivity.
  - right. left.
  - reflexivity.
Defined.

End PreCommitWitnesses.
