(* ===== verification/Registry.v ===== *)
(** * The extractor registries and the miner extraction they drive

    The extractors register themselves from Go [init] functions: the
    reward extractor under the reward actor's code CID
    ([actorstate.Register], [src/tasks/actorstate/reward.go]) and the two
    miner extractors under the model type they produce ([tasks.Register],
    [feedebt.go] and [precommitinfo.go]). The registries themselves and
    the miner extractor that runs every registered miner task are not in
    src: they are modelled from the spec (section 5, "register once,
    dispatch by type"; section 7, [UnsupportedActorVersion]).

    A Go map is iterated in no fixed order, so the miner extraction runs
    its tasks in an order [ord] that is any permutation of the registry's
    entries; the theorems hold for every such order. *)

From Stdlib Require Import ZArith String.
From stdpp Require Import base list strings gmap countable.
From S2P Require Import Prelude Go Store Chain Reward MinerContext FeeDebt PreCommit.

Open Scope lily_scope.

(** [model.Persistable] as the registered extractors return it; [None]
    stands for Go's [nil] interface value. *)
Inductive Persistable :=
| PChainReward (r : ChainReward)
| PMinerFeeDebt (m : MinerFeeDebt.t)
| PMinerPreCommitInfoList (l : list (option MinerPreCommitInfo.t)).

Module ActorRegistry.

(** [actorstate.ActorStateExtractor]: its [Extract] method. *)
Definition ActorStateExtractor := ActorInfo -> ActorStateAPI -> result (option Persistable).

(** The registry: actor code CID to extractor. *)
Abbreviation Registry := (gmap Cid ActorStateExtractor).

(** [actorstate.Register(code, e)]: a later registration replaces an
    earlier one for the same code. *)
Definition Register (code : Cid) (e : ActorStateExtractor) (r : Registry) : Registry :=
  <[code := e]> r.

(** [RewardExtractor{}] as an [ActorStateExtractor]: the row is returned
    as a non-nil [model.Persistable]. *)
Definition RewardExtractor : ActorStateExtractor :=
  fun a node => rmap (fun row => Some (PChainReward row)) (RewardExtractor_Extract a node).

(** [init] of reward.go. *)
Definition init_reward (RewardActorCodeID : Cid) (r : Registry) : Registry :=
  Register RewardActorCodeID RewardExtractor r.

(** Dispatch by the actor's code; an unregistered code is an unsupported
    actor version. *)
Definition ExtractActor (r : Registry) (a : ActorInfo) (node : ActorStateAPI)
  : result (option Persistable) :=
  match r !! Code (ai_Actor a) with
  | Some e => e a node
  | None => Err (ErrUnsupportedVersion (Code (ai_Actor a)))
  end.

End ActorRegistry.

Module MinerTasks.

(** The keys of the miner task registry: the model types [&MinerFeeDebt{}]
    and [&MinerPreCommitInfo{}]. *)
Inductive MinerModel := MMinerFeeDebt | MMinerPreCommitInfo.

#[export] Instance MinerModel_eq_dec : EqDecision MinerModel.
Proof. solve_decision. Defined.

#[export] Instance MinerModel_countable : Countable MinerModel.
Proof.
  refine (inj_countable'
            (fun m => match m with MMinerFeeDebt => 0 | MMinerPreCommitInfo => 1 end)
            (fun n => match n with 0 => MMinerFeeDebt | _ => MMinerPreCommitInfo end) _).
  by intros [].
Qed.

(** [tasks.ExtractorFunc]. *)
Definition ExtractorFunc := MinerStateExtractionContext -> result (option Persistable).

Abbreviation Registry := (gmap MinerModel ExtractorFunc).

(** [tasks.Register(model, fn)]. *)
Definition Register (m : MinerModel) (fn : ExtractorFunc) (r : Registry) : Registry :=
  <[m := fn]> r.

(** [ExtractMinerFeeDebt] as an [ExtractorFunc]: a nil row stays a nil
    [Persistable]. *)
Definition ExtractMinerFeeDebt_fn : ExtractorFunc :=
  fun ec => rmap (fmap PMinerFeeDebt) (MinerFeeDebt.ExtractMinerFeeDebt ec).

Definition ExtractMinerPreCommitInfo_fn : ExtractorFunc :=
  fun ec => rmap (fmap PMinerPreCommitInfoList)
              (MinerPreCommitInfo.ExtractMinerPreCommitInfo ec).

(** [init] of feedebt.go. *)
Definition init_feedebt (r : Registry) : Registry :=
  Register MMinerFeeDebt ExtractMinerFeeDebt_fn r.

(** [init] of precommitinfo.go. *)
Definition init_precommitinfo (r : Registry) : Registry :=
  Register MMinerPreCommitInfo ExtractMinerPreCommitInfo_fn r.

(** The registry after the package's [init]s, in file order. *)
Definition registry : Registry := init_precommitinfo (init_feedebt ∅).

(** The miner extractor: one context, then every registered task in the
    iteration order [ord]; the first error aborts, nil results are
    dropped. *)
Definition MinerExtract (ord : list (MinerModel * ExtractorFunc)) (a : ActorInfo)
    (node : ActorStateAPI) : GoM (list Persistable) :=
  let* ec := NewMinerStateExtractionContext a node in
  glift (let? rs := map_result (fun '(_, fn) => fn ec) ord in Ok (omap id rs)).

End MinerTasks.

Module RegistryFacts.
Import MinerTasks.

(** The two [init]s commute: the registry does not depend on the order
    in which Go runs them. *)
Lemma registry_init_commute :
  init_feedebt (init_precommitinfo ∅) = registry.
Proof. apply insert_insert_ne. discriminate. Qed.

Lemma registry_to_list :
  map_to_list registry ≡ₚ
    [(MMinerPreCommitInfo, ExtractMinerPreCommitInfo_fn); (MMinerFeeDebt, ExtractMinerFeeDebt_fn)].
Proof.
  unfold registry, init_precommitinfo, init_feedebt, Register.
  rewrite map_to_list_insert by (rewrite lookup_insert_ne; [apply lookup_empty|discriminate]).
  by rewrite map_to_list_insert, map_to_list_empty by apply lookup_empty.
Qed.

Definition run_tasks (ord : list (MinerModel * ExtractorFunc)) (ec : MinerStateExtractionContext)
  : result (list (option Persistable)) :=
  map_result (fun '(_, fn) => fn ec) ord.

(** Every iteration order of the registry runs both extractors; the rows
    are those of the two extractors, in some order. *)
Lemma run_tasks_ok (ord : list (MinerModel * ExtractorFunc)) ec fee pc :
  ord ≡ₚ map_to_list registry ->
  MinerFeeDebt.ExtractMinerFeeDebt ec = Ok fee ->
  MinerPreCommitInfo.ExtractMinerPreCommitInfo ec = Ok pc ->
  exists rs, run_tasks ord ec = Ok rs /\
    omap id rs ≡ₚ option_list (PMinerFeeDebt <$> fee) ++
                  option_list (PMinerPreCommitInfoList <$> pc).
Proof.
  rewrite registry_to_list. intros Hord%symmetry Hfee Hpc.
  destruct (map_result_perm (fun '(_, fn) => fn ec) _ _
              [PMinerPreCommitInfoList <$> pc; PMinerFeeDebt <$> fee] Hord)
    as (rs & Hrs & Hp).
  { simpl. unfold ExtractMinerFeeDebt_fn, ExtractMinerPreCommitInfo_fn. by rewrite Hfee, Hpc. }
  exists rs. split; [done|]. rewrite <- Hp. destruct fee, pc; simpl; solve_Permutation.
Qed.

(** A failing extractor makes every iteration order fail. *)
Lemma run_tasks_err (ord : list (MinerModel * ExtractorFunc)) ec :
  ord ≡ₚ map_to_list registry ->
  (exists e, MinerFeeDebt.ExtractMinerFeeDebt ec = Err e) \/
  (exists e, MinerPreCommitInfo.ExtractMinerPreCommitInfo ec = Err e) ->
  exists e', run_tasks ord ec = Err e'.
Proof.
  rewrite registry_to_list. intros Hord [[e He]|[e He]].
  - apply (map_result_Err _ _ (MMinerFeeDebt, ExtractMinerFeeDebt_fn) e).
    + apply list_elem_of_In. rewrite Hord. set_solver.
    + simpl. unfold ExtractMinerFeeDebt_fn. by rewrite He.
  - apply (map_result_Err _ _ (MMinerPreCommitInfo, ExtractMinerPreCommitInfo_fn) e).
    + apply list_elem_of_In. rewrite Hord. set_solver.
    + simpl. unfold ExtractMinerPreCommitInfo_fn. by rewrite He.
Qed.

Lemma MinerExtract_unfold ord a node n :
  MinerExtract ord a node n =
  match NewMinerStateExtractionContext a node n with
  | Ok (ec, n') => match run_tasks ord ec with
                   | Ok rs => Ok (omap id rs, n')
                   | Err e => Err e
                   end
  | Err e => Err e
  end.
Proof.
  unfold MinerExtract, gbind, glift, run_tasks.
  destruct (NewMinerStateExtractionContext a node n) as [[ec n']|]; [|done].
  by destruct (map_result (fun '(_, fn) => fn ec) ord).
Qed.

(** C15: The miner extraction composes the registered extractors: in
    every iteration order of the registry it returns, on one context, the
    non-nil results of [ExtractMinerFeeDebt] and [ExtractMinerPreCommitInfo]
    (in some order), and it fails as soon as either of them fails. *)
Theorem MinerExtract_any_order (ord : list (MinerModel * ExtractorFunc)) (a : ActorInfo)
    (node : ActorStateAPI) (n n' : loc) (ec : MinerStateExtractionContext) :
  ord ≡ₚ map_to_list registry ->
  NewMinerStateExtractionContext a node n = Ok (ec, n') ->
  (forall fee pc, MinerFeeDebt.ExtractMinerFeeDebt ec = Ok fee ->
     MinerPreCommitInfo.ExtractMinerPreCommitInfo ec = Ok pc ->
     exists out, MinerExtract ord a node n = Ok (out, n') /\
       out ≡ₚ option_list (PMinerFeeDebt <$> fee) ++
              option_list (PMinerPreCommitInfoList <$> pc)) /\
  ((exists e, MinerFeeDebt.ExtractMinerFeeDebt ec = Err e) \/
   (exists e, MinerPreCommitInfo.ExtractMinerPreCommitInfo ec = Err e) ->
   exists e, MinerExtract ord a node n = Err e).
Proof.
  intros Hord Hec. rewrite MinerExtract_unfold, Hec. split.
  - intros fee pc Hfee Hpc.
    destruct (run_tasks_ok ord ec fee pc Hord Hfee Hpc) as (rs & -> & Hp). eauto.
  - intros Herr. by destruct (run_tasks_err ord ec Hord Herr) as [e ->]; eauto.
Qed.

(** C16: At genesis the miner extraction emits exactly one record, the fee
    debt row of the current state, whatever the registry's iteration
    order: the precommit extractor returns nil there. *)
Theorem MinerExtract_genesis (ord : list (MinerModel * ExtractorFunc)) (a : ActorInfo)
    (node : ActorStateAPI) (n n' : loc) (ec : MinerStateExtractionContext) :
  ord ≡ₚ map_to_list registry ->
  NewMinerStateExtractionContext a node n = Ok (ec, n') ->
  Chain.Height (Current a) = 0%Z ->
  MinerExtract ord a node n = Ok ([PMinerFeeDebt (MinerFeeDebtFacts.fee_debt_row ec)], n').
Proof.
  intros Hord Hec Hh.
  assert (Hpc : MinerPreCommitInfo.ExtractMinerPreCommitInfo ec = Ok None).
  { unfold MinerPreCommitInfo.ExtractMinerPreCommitInfo.
    by rewrite (proj2 (NewMinerStateExtractionContext_genesis _ _ _ _ _ Hec Hh)). }
  destruct (run_tasks_ok ord ec _ _ Hord
              (MinerFeeDebtFacts.ExtractMinerFeeDebt_genesis _ _ _ _ _ Hec Hh) Hpc)
    as (rs & Hrs & Hp).
  rewrite MinerExtract_unfold, Hec, Hrs. simpl in Hp.
  by apply Permutation_singleton_r in Hp as ->.
Qed.

End RegistryFacts.

Module RegistryWitnesses.
Import MinerTasks RegistryFacts PreCommitWitnesses.

(** The registry iterated in the reverse of its canonical order. *)
Definition ord_rev : list (MinerModel * ExtractorFunc) := reverse (map_to_list registry).

Lemma ord_rev_perm : ord_rev ≡ₚ map_to_list registry.
Proof. apply reverse_Permutation. Qed.

Lemma MinerExtract_any_order_witness :
  exists ec n', NewMinerStateExtractionContext (info_at 10 "head_curr") node 1%positive = Ok (ec, n') /\
  exists out, MinerExtract ord_rev (info_at 10 "head_curr") node 1%positive = Ok (out, n') /\
    out ≡ₚ [PMinerFeeDebt (MinerFeeDebtFacts.fee_debt_row ec);
            PMinerPreCommitInfoList [Some (MinerPreCommitInfo.pcm ec (onchain 2))]].
Proof.
  destruct (NewMinerStateExtractionContext (info_at 10 "head_curr") node 1%positive)
    as [[ec n']|] eqn:E; [|vm_compute in E; discriminate].
  exists ec, n'. split; [reflexivity|].
  assert (Hec := E). vm_compute in Hec. injection Hec as <- _.
  destruct (proj1 (MinerExtract_any_order ord_rev _ _ _ _ _ ord_rev_perm E) _ _
              eq_refl eq_refl) as (out & Hout & Hp).
  exists out. split; [exact Hout|]. rewrite Hp. reflexivity.
Defined.

Lemma MinerExtract_genesis_witness :
  exists ec n', NewMinerStateExtractionContext (info_at 0 "head_curr") node 1%positive = Ok (ec, n') /\
  MinerExtract ord_rev (info_at 0 "head_curr") node 1%positive =
    Ok ([PMinerFeeDebt (MinerFeeDebtFacts.fee_debt_row ec)], n').
Proof.
  destruct (NewMinerStateExtractionContext (info_at 0 "head_curr") node 1%positive)
    as [[ec n']|] eqn:E; [|vm_compute in E; discriminate].
  exists ec, n'. split; [reflexivity|].
  apply (MinerExtract_genesis ord_rev _ _ _ _ _ ord_rev_perm E). reflexivity.
Defined.

End RegistryWitnesses.
