(* ===== verification/TableGen.v ===== *)
(** * The table-name generator and the generated task table

    [src/chain/indexer/tablegen/generator/gen.go] derives, for each model
    type, its exported type name ([ToExported]) and its table name
    ([Underscore] of the type name, unless the struct carries a
    [tableName] field whose [pg] tag names the table); the byte helpers
    [IsLower], [IsUpper], [ToUpper], [ToLower] work on single bytes with
    Go's wrap-around [byte] arithmetic. [src/chain/indexer/table_tasks.go]
    is the file it generates: one constant per table, the set
    [TableLookup] and the list [AllTableTasks]. Go strings are byte
    strings: [string] of [ascii], a byte being its [N] code below 256.
    Reading the template and writing the file ([Gen]) is I/O and is not
    modelled. *)

From Stdlib Require Import NArith String Ascii.
From stdpp Require Import base list strings gmap.
From S2P Require Import Prelude.

Open Scope lily_scope.

Module generator.
Local Open Scope N_scope.

(** The byte value of a character. *)
Definition byte (c : ascii) : N := N_of_ascii c.

(** [IsLower]: ['a' <= c <= 'z']. *)
Definition IsLower (c : ascii) : bool := (97 <=? byte c) && (byte c <=? 122).

(** [ToUpper]: [c - 32] on a byte, wrapping around below 0. *)
Definition ToUpper (c : ascii) : ascii := ascii_of_N ((byte c + 256 - 32) mod 256).

(** [IsUpper]: ['A' <= c <= 'Z']. *)
Definition IsUpper (c : ascii) : bool := (65 <=? byte c) && (byte c <=? 90).

(** [ToLower]: [c + 32] on a byte, wrapping around above 255. *)
Definition ToLower (c : ascii) : ascii := ascii_of_N ((byte c + 32) mod 256).

(** [ToExported]: upper-case the first byte when it is a lower-case
    letter. *)
Definition ToExported (s : string) : string :=
  match s with
  | EmptyString => s
  | String c rest => if IsLower c then String (ToUpper c) rest else s
  end.

(** The loop of [Underscore] at index [i]: [prev] is [s[i-1]] ([None] at
    [i = 0]) and the string is [s[i:]], so [s[i+1]] is the head of [rest]
    and [i+1 < len(s)] says that [rest] is not empty. *)
Fixpoint underscore_loop (prev : option ascii) (s : string) : string :=
  match s with
  | EmptyString => EmptyString
  | String c rest =>
      if IsUpper c then
        if match prev, rest with
           | Some p, String n _ => IsLower p || IsLower n
           | _, _ => false
           end
        then String "_" (String (ToLower c) (underscore_loop (Some c) rest))
        else String (ToLower c) (underscore_loop (Some c) rest)
      else String c (underscore_loop (Some c) rest)
  end.

(** [Underscore]: "CamelCasedString" to "camel_cased_string". *)
Definition Underscore (s : string) : string := underscore_loop None s.

(** What [reflect.Type] tells [getModelTableName]: the type's name and,
    when the struct has a [tableName] field, that field's [pg] tag. *)
Record ModelType := { type_Name : string; tableName_pg : option string }.

(** [ModelTypeNames] *)
Record ModelTypeNames := { TypeName : string; ModelName : string }.

(** [getModelTableName] *)
Definition getModelTableName (t : ModelType) : ModelTypeNames :=
  {| TypeName := ToExported (type_Name t);
     ModelName := match tableName_pg t with
                  | Some pg => pg
                  | None => Underscore (type_Name t)
                  end |}.

(** [modelTableNames] over the list [storage.Models]. *)
Definition modelTableNames (models : list ModelType) : list ModelTypeNames :=
  map getModelTableName models.

End generator.

Module indexer.

(** The table constants. *)
Definition BlockHeader : string := "block_header".
Definition BlockParent : string := "block_parent".
Definition DrandBlockEntrie : string := "drand_block_entrie".
Definition MinerSectorDeal : string := "miner_sector_deal".
Definition MinerSectorInfoV7 : string := "miner_sector_infos_v7".
Definition MinerSectorInfoV1_6 : string := "miner_sector_infos".
Definition MinerSectorPost : string := "miner_sector_post".
Definition MinerPreCommitInfo : string := "miner_pre_commit_info".
Definition MinerSectorEvent : string := "miner_sector_event".
Definition MinerCurrentDeadlineInfo : string := "miner_current_deadline_info".
Definition MinerFeeDebt : string := "miner_fee_debt".
Definition MinerLockedFund : string := "miner_locked_fund".
Definition MinerInfo : string := "miner_info".
Definition MarketDealProposal : string := "market_deal_proposal".
Definition MarketDealState : string := "market_deal_state".
Definition Message : string := "message".
Definition BlockMessage : string := "block_message".
Definition Receipt : string := "receipt".
Definition MessageGasEconomy : string := "message_gas_economy".
Definition ParsedMessage : string := "parsed_message".
Definition InternalMessage : string := "internal_messages".
Definition InternalParsedMessage : string := "internal_parsed_messages".
Definition MultisigTransaction : string := "multisig_transaction".
Definition ChainPower : string := "chain_power".
Definition PowerActorClaim : string := "power_actor_claim".
Definition ChainReward : string := "chain_reward".
Definition Actor : string := "actor".
Definition ActorState : string := "actor_state".
Definition IdAddress : string := "id_address".
Definition GasOutputs : string := "derived_gas_outputs".
Definition ChainEconomics : string := "chain_economics".
Definition ChainConsensus : string := "chain_consensus".
Definition MultisigApproval : string := "multisig_approvals".
Definition VerifiedRegistryVerifier : string := "verified_registry_verifier".
Definition VerifiedRegistryVerifiedClient : string := "verified_registry_verified_client".

(** [TableLookup]: the set of the map literal's keys. *)
Definition TableLookup : gset string :=
  list_to_set
    [BlockHeader; BlockParent; DrandBlockEntrie; MinerSectorDeal;
     MinerSectorInfoV7; MinerSectorInfoV1_6; MinerSectorPost; MinerPreCommitInfo;
     MinerSectorEvent; MinerCurrentDeadlineInfo; MinerFeeDebt; MinerLockedFund;
     MinerInfo; MarketDealProposal; MarketDealState; Message;
     BlockMessage; Receipt; MessageGasEconomy; ParsedMessage;
     InternalMessage; InternalParsedMessage; MultisigTransaction; ChainPower;
     PowerActorClaim; ChainReward; Actor; ActorState;
     IdAddress; GasOutputs; ChainEconomics; ChainConsensus;
     MultisigApproval; VerifiedRegistryVerifier; VerifiedRegistryVerifiedClient].

(** [AllTableTasks] *)
Definition AllTableTasks : list string :=
  [BlockHeader; BlockParent; DrandBlockEntrie; MinerSectorDeal;
   MinerSectorInfoV7; MinerSectorInfoV1_6; MinerSectorPost; MinerPreCommitInfo;
   MinerSectorEvent; MinerCurrentDeadlineInfo; MinerFeeDebt; MinerLockedFund;
   MinerInfo; MarketDealProposal; MarketDealState; Message;
   BlockMessage; Receipt; MessageGasEconomy; ParsedMessage;
   InternalMessage; InternalParsedMessage; MultisigTransaction; ChainPower;
   PowerActorClaim; ChainReward; Actor; ActorState;
   IdAddress; GasOutputs; ChainEconomics; ChainConsensus;
   MultisigApproval; VerifiedRegistryVerifier; VerifiedRegistryVerifiedClient].

(** The constants with their Go identifiers, in declaration order. *)
Definition TableConsts : list (string * string) :=
  [("BlockHeader", BlockHeader);
   ("BlockParent", BlockParent);
   ("DrandBlockEntrie", DrandBlockEntrie);
   ("MinerSectorDeal", MinerSectorDeal);
   ("MinerSectorInfoV7", MinerSectorInfoV7);
   ("MinerSectorInfoV1_6", MinerSectorInfoV1_6);
   ("MinerSectorPost", MinerSectorPost);
   ("MinerPreCommitInfo", MinerPreCommitInfo);
   ("MinerSectorEvent", MinerSectorEvent);
   ("MinerCurrentDeadlineInfo", MinerCurrentDeadlineInfo);
   ("MinerFeeDebt", MinerFeeDebt);
   ("MinerLockedFund", MinerLockedFund);
   ("MinerInfo", MinerInfo);
   ("MarketDealProposal", MarketDealProposal);
   ("MarketDealState", MarketDealState);
   ("Message", Message);
   ("BlockMessage", BlockMessage);
   ("Receipt", Receipt);
   ("MessageGasEconomy", MessageGasEconomy);
   ("ParsedMessage", ParsedMessage);
   ("InternalMessage", InternalMessage);
   ("InternalParsedMessage", InternalParsedMessage);
   ("MultisigTransaction", MultisigTransaction);
   ("ChainPower", ChainPower);
   ("PowerActorClaim", PowerActorClaim);
   ("ChainReward", ChainReward);
   ("Actor", Actor);
   ("ActorState", ActorState);
   ("IdAddress", IdAddress);
   ("GasOutputs", GasOutputs);
   ("ChainEconomics", ChainEconomics);
   ("ChainConsensus", ChainConsensus);
   ("MultisigApproval", MultisigApproval);
   ("VerifiedRegistryVerifier", VerifiedRegistryVerifier);
   ("VerifiedRegistryVerifiedClient", VerifiedRegistryVerifiedClient)].

End indexer.

Module generatorFacts.
Import generator.
Local Open Scope N_scope.

(** Every byte of a string satisfies [f]. *)
Fixpoint str_all (f : ascii -> bool) (s : string) : bool :=
  match s with EmptyString => true | String c rest => f c && str_all f rest end.

(** The string with its underscores removed. *)
Fixpoint strip (s : string) : string :=
  match s with
  | EmptyString => EmptyString
  | String c rest => if Ascii.eqb c "_" then strip rest else String c (strip rest)
  end.

(** Every upper-case letter lowered, everything else kept. *)
Fixpoint lower_all (s : string) : string :=
  match s with
  | EmptyString => EmptyString
  | String c rest => String (if IsUpper c then ToLower c else c) (lower_all rest)
  end.

Lemma byte_inj (c d : ascii) : byte c = byte d -> c = d.
Proof. unfold byte. intros H. by rewrite <- (ascii_N_embedding c), H, ascii_N_embedding. Qed.

Lemma byte_ToLower (c : ascii) : byte (ToLower c) = (byte c + 32) mod 256.
Proof. unfold ToLower, byte. apply N_ascii_embedding, N.mod_lt. lia. Qed.

Lemma byte_ToUpper (c : ascii) : byte (ToUpper c) = (byte c + 224) mod 256.
Proof.
  unfold ToUpper, byte. rewrite N_ascii_embedding by (apply N.mod_lt; lia).
  f_equal. lia.
Qed.

Ltac byte_facts :=
  unfold IsUpper, IsLower in *;
  rewrite ?byte_ToLower, ?byte_ToUpper in *;
  repeat match goal with
         | H : (_ && _)%bool = true |- _ => apply andb_true_iff in H as [? ?]
         | H : (_ <=? _) = true |- _ => apply N.leb_le in H
         end.

Lemma IsUpper_ToLower (c : ascii) :
  IsUpper c = true -> IsUpper (ToLower c) = false /\ IsLower (ToLower c) = true.
Proof.
  intros Hc. byte_facts. rewrite N.mod_small by lia.
  split; [apply andb_false_iff; right | apply andb_true_iff; split]; apply N.leb_gt || apply N.leb_le; lia.
Qed.

Lemma IsLower_ToUpper (c : ascii) :
  IsLower c = true -> IsUpper (ToUpper c) = true /\ IsLower (ToUpper c) = false.
Proof.
  intros Hc. byte_facts.
  replace ((byte c + 224) mod 256) with (byte c - 32)
    by (rewrite <- (N.mod_small (byte c - 32) 256) by lia;
        replace (byte c + 224) with ((byte c - 32) + 1 * 256) by lia;
        by rewrite N.Div0.mod_add).
  split; [apply andb_true_iff; split | apply andb_false_iff; left];
    apply N.leb_le || apply N.leb_gt; lia.
Qed.

Lemma underscore_ToLower (c : ascii) : IsUpper c = true -> Ascii.eqb (ToLower c) "_" = false.
Proof.
  intros Hc. apply Ascii.eqb_neq. intros Heq.
  destruct (IsUpper_ToLower c Hc) as [_ Hl]. rewrite Heq in Hl. discriminate.
Qed.

(** The loop of [Underscore] lowers every upper-case byte. *)
Lemma underscore_loop_no_upper (prev : option ascii) (s : string) :
  str_all (fun c => negb (IsUpper c)) (underscore_loop prev s) = true.
Proof.
  revert prev. induction s as [|c s IH]; intros prev; [done|]. simpl.
  destruct (IsUpper c) eqn:Hc; [|simpl; rewrite Hc; apply IH].
  destruct (match prev with Some p => _ | None => false end); simpl;
    rewrite (proj1 (IsUpper_ToLower c Hc)); apply IH.
Qed.

(** The loop of [Underscore] on a string with no upper-case byte followed
    by one upper-case byte: the prefix is copied and the last byte lowered,
    with no underscore before it. *)
Lemma underscore_loop_last_upper (prev : option ascii) (p : string) (c : ascii) :
  str_all (fun d => negb (IsUpper d)) p = true -> IsUpper c = true ->
  underscore_loop prev (String.append p (String c EmptyString)) = String.append p (String (ToLower c) EmptyString).
Proof.
  revert prev. induction p as [|d p IH]; intros prev Hp Hc; simpl.
  - rewrite Hc. by destruct prev.
  - simpl in Hp. apply andb_true_iff in Hp as [Hd Hp]. apply negb_true_iff in Hd.
    rewrite Hd, (IH (Some d) Hp Hc). reflexivity.
Qed.

(** Byte case conversion round-trips on every byte: [ToLower] undoes
    [ToUpper] and [ToUpper] undoes [ToLower], the wrap-around of Go's
    [byte] arithmetic included. *)
Theorem ToLower_ToUpper_roundtrip (c : ascii) : ToLower (ToUpper c) = c /\ ToUpper (ToLower c) = c.
Proof.
  pose proof (N_ascii_bounded c) as Hb. fold (byte c) in Hb.
  split; apply byte_inj; rewrite ?byte_ToLower, ?byte_ToUpper, ?byte_ToLower, N.Div0.add_mod_idemp_l;
    replace (byte c + _ + _) with (byte c + 1 * 256) by lia;
    rewrite N.Div0.mod_add; apply N.mod_small; lia.
Qed.

(** [ToExported] is idempotent and keeps the length, and its result
    never starts with a lower-case letter. *)
Theorem ToExported_idempotent (s : string) :
  ToExported (ToExported s) = ToExported s /\ String.length (ToExported s) = String.length s /\
  match ToExported s with String c _ => IsLower c = false | EmptyString => True end.
Proof.
  destruct s as [|c s]; [done|]. simpl. destruct (IsLower c) eqn:Hc; simpl.
  - by rewrite (proj2 (IsLower_ToUpper c Hc)).
  - by rewrite Hc.
Qed.

(** The table name of a model without a [tableName] tag contains no
    upper-case letter, and removing its underscores gives the type name
    lower-cased with its own underscores removed: [Underscore] only lowers
    letters and inserts underscores. *)
Theorem getModelTableName_untagged (t : ModelType) :
  tableName_pg t = None ->
  str_all (fun c => negb (IsUpper c)) (ModelName (getModelTableName t)) = true /\
  strip (ModelName (getModelTableName t)) = strip (lower_all (type_Name t)).
Proof.
  intros Ht. unfold getModelTableName, Underscore. simpl. rewrite Ht.
  split; [apply underscore_loop_no_upper|].
  generalize (@None ascii). induction (type_Name t) as [|c s IH]; intros prev; [done|]. simpl.
  destruct (IsUpper c) eqn:Hc; [|simpl; by rewrite IH].
  rewrite (underscore_ToLower c Hc).
  destruct (match prev with Some p => _ | None => false end); simpl;
    rewrite ?(underscore_ToLower c Hc); by rewrite IH.
Qed.

(** [Underscore] adds at most one byte (an underscore) per byte of its
    input. *)
Theorem Underscore_length (s : string) :
  (String.length s <= String.length (Underscore s) <= 2 * String.length s)%nat.
Proof.
  unfold Underscore. generalize (@None ascii).
  induction s as [|c s IH]; intros prev; simpl; [lia|].
  specialize (IH (Some c)).
  destruct (IsUpper c); [destruct (match prev with Some p => _ | None => false end)|]; simpl; lia.
Qed.

(** C24: Contrary to its comment ("CamelCasedString" to
    "camel_cased_string"), [Underscore] never puts an underscore before a
    final upper-case letter: a name made of a part with no capital and one
    final capital is only lower-cased. *)
Theorem Underscore_final_upper (p : string) (c : ascii) :
  str_all (fun d => negb (IsUpper d)) p = true -> IsUpper c = true ->
  Underscore (String.append p (String c EmptyString)) = String.append p (String (ToLower c) EmptyString).
Proof. apply underscore_loop_last_upper. Qed.

End generatorFacts.

Module TableGenWitnesses.
Import generator generatorFacts.
Local Open Scope string_scope.

Lemma ToLower_ToUpper_roundtrip_witness :
  ToUpper "a"%char = "A"%char /\ ToLower (ToUpper "a") = "a"%char.
Proof. split; [reflexivity | exact (proj1 (ToLower_ToUpper_roundtrip "a"))]. Defined.

Lemma getModelTableName_untagged_witness :
  ModelName (getModelTableName {| type_Name := "MinerPreCommitInfo"; tableName_pg := None |})
    = "miner_pre_commit_info" /\
  str_all (fun c => negb (IsUpper c)) "miner_pre_commit_info" = true /\
  strip "miner_pre_commit_info" = strip (lower_all "MinerPreCommitInfo").
Proof.
  split; [reflexivity|].
  exact (getModelTableName_untagged {| type_Name := "MinerPreCommitInfo"; tableName_pg := None |}
           eq_refl).
Defined.

(** "ChainX" is only lower-cased, while "ChainXy" gets its underscore. *)
Lemma Underscore_final_upper_witness :
  Underscore "ChainX" = "chainx" /\ Underscore "chainX" = "chainx" /\
  Underscore "ChainXy" = "chain_xy".
Proof.
  split; [reflexivity|]. split; [|reflexivity].
  exact (Underscore_final_upper "chain" "X"%char eq_refl eq_refl).
Defined.

End TableGenWitnesses.
