(* ===== verification/Gen.v ===== *)
(** * The table-tasks generator's driver

    [Gen] of [src/chain/indexer/tablegen/generator/gen.go]: it reads the
    template [table_tasks.go.template] of [./chain/indexer], parses it
    with [template.Must] (a parse error panics), executes it on the model
    type names of [storage.Models] with the template function
    [tableNames] (which indexes the names; an index out of range panics,
    as a Go slice does), and writes the result to [table_tasks.go]. The
    file system and Go's text/template engine are the Section's
    variables: [Gen] is proved against any of them. *)

From Stdlib Require Import ZArith String.
From stdpp Require Import base list strings.
From S2P Require Import Prelude TableGen.

Open Scope lily_scope.
Local Open Scope string_scope.

Module GenDriver.
Import generator.

(** [filepath.Join("./chain/indexer", name)], cleaned of its leading
    ["./"]. *)
Definition taskDir_join (name : string) : string := "chain/indexer/" +:+ name.

(** The template function [tableNames]: [mtn[v]], with Go's bounds check. *)
Definition tableNames (mtn : list ModelTypeNames) (v : Z) : result ModelTypeNames :=
  if decide (0 <= v)%Z then
    match mtn !! Z.to_nat v with
    | Some n => Ok n
    | None => Err (ErrPanic "runtime error: index out of range")
    end
  else Err (ErrPanic "runtime error: index out of range").

Section Gen.
(** The file system. *)
Variable ReadFile : string -> result string.
Variable WriteFile : string -> string -> result unit.
(** The template engine: parsing, and executing with the function
    [tableNames] and the data [{"tableNames": mtn}]. *)
Context {Template : Type}.
Variable Parse : string -> result Template.
Variable Execute : Template -> (Z -> result ModelTypeNames) -> list ModelTypeNames -> result string.
(** [storage.Models] *)
Variable Models : list ModelType.

(** [Gen()] *)
Definition Gen : result unit :=
  let? rf := match ReadFile (taskDir_join "table_tasks.go.template") with
             | Ok b => Ok b
             | Err e => Err (ErrWrap "loading registry template" e)
             end in
  let mtn := modelTableNames Models in
  let? tpl := match Parse rf with
              | Ok t => Ok t
              | Err _ => Err (ErrPanic "template: Must")
              end in
  let? b := Execute tpl (tableNames mtn) mtn in
  WriteFile (taskDir_join "table_tasks.go") b.

End Gen.

Section GenFacts.
Variable ReadFile : string -> result string.
Variable WriteFile : string -> string -> result unit.
Context {Template : Type}.
Variable Parse : string -> result Template.
Variable Execute : Template -> (Z -> result ModelTypeNames) -> list ModelTypeNames -> result string.
Variable Models : list ModelType.

(** C13: [Gen] writes exactly what the template produces, executed with the
    model names of [storage.Models], to [chain/indexer/table_tasks.go];
    a template it cannot read fails with "loading registry template"
    before anything is written, and a template it cannot parse panics. *)
Theorem Gen_spec :
  (forall rf tpl b,
     ReadFile (taskDir_join "table_tasks.go.template") = Ok rf -> Parse rf = Ok tpl ->
     Execute tpl (tableNames (modelTableNames Models)) (modelTableNames Models) = Ok b ->
     Gen ReadFile WriteFile Parse Execute Models = WriteFile "chain/indexer/table_tasks.go" b) /\
  (forall e, ReadFile (taskDir_join "table_tasks.go.template") = Err e ->
     Gen ReadFile WriteFile Parse Execute Models = Err (ErrWrap "loading registry template" e)) /\
  (forall rf e, ReadFile (taskDir_join "table_tasks.go.template") = Ok rf -> Parse rf = Err e ->
     Gen ReadFile WriteFile Parse Execute Models = Err (ErrPanic "template: Must")).
Proof.
  unfold Gen. split_and!.
  - intros rf tpl b Hr Hp He. rewrite Hr. simpl. rewrite Hp. simpl. by rewrite He.
  - intros e Hr. by rewrite Hr.
  - intros rf e Hr Hp. rewrite Hr. simpl. by rewrite Hp.
Qed.

End GenFacts.
End GenDriver.

Module GenWitnesses.
Import generator GenDriver.

(** Two models, one with a [tableName] tag. *)
Definition models : list ModelType :=
  [{| type_Name := "ChainReward"; tableName_pg := None |};
   {| type_Name := "GasOutputs"; tableName_pg := Some "derived_gas_outputs" |}].

(** A template engine that renders the names of the first model. *)
Definition exec (_ : unit) (tn : Z -> result ModelTypeNames) (_ : list ModelTypeNames)
  : result string :=
  let? n := tn 0%Z in Ok ("const " +:+ TypeName n +:+ " = " +:+ ModelName n).

Lemma Gen_spec_witness :
  Gen (fun _ => Ok "template") (fun path b => if decide (path = "chain/indexer/table_tasks.go")
                                              then Ok tt else Err (ErrUser 0))
      (fun _ => Ok tt) exec models = Ok tt.
Proof.
  rewrite (proj1 (Gen_spec (fun _ => Ok "template") _ (fun _ => Ok tt) exec models)
             "template" tt "const ChainReward = chain_reward" eq_refl eq_refl eq_refl).
  reflexivity.
Defined.

End GenWitnesses.
