(* ===== verification/Daemon.v ===== *)
(** * The lily daemon command

    [src/commands/lily/daemon.go]: the [Action] of [LilyDaemon] opens the
    repository, initialises it (an existing repository is fine), fetches
    the proof parameters, reads the genesis, optionally imports a chain
    snapshot, builds the node with its options, reads the API endpoint and
    serves the RPC API. Each of these calls is an operation of the
    environment [Env], whose results are given; the run records the calls
    it makes, in order, as a trace of [event]s, and stops at the first
    error, which it returns wrapped with the message of the code (the
    snapshot import error is returned unwrapped). Logging, the lotus log
    levels and the home-directory expansion (which is only logged) are
    not modelled. *)

From Stdlib Require Import ZArith String.
From stdpp Require Import base list strings.
From S2P Require Import Prelude.

Open Scope lily_scope.

Module Daemon.

(** [daemonOpts], with whether [--api] was set ([c.IsSet("api")]). *)
Record daemonOpts := {
  api : string;
  api_set : bool;
  repo : string;
  bootstrap : bool;
  config : string;
  importsnapshot : string;
  genesis : string }.

(** The options [node.New] receives that depend on the flags: the genesis
    override (when the genesis bytes are not empty), the API endpoint
    multiaddress to set (when [--api] is set), and whether the peer manager
    is unset (when [--bootstrap] is false). The bootstrapper flag is always
    false and the node always online. *)
Record NodeOptions := {
  genesis_override : option string;
  api_endpoint : option string;
  unset_peermgr : bool }.

#[export] Instance NodeOptions_eq_dec : EqDecision NodeOptions.
Proof. solve_decision. Defined.

(** The calls of the action, in the order they can happen. *)
Inductive event :=
| EvNewFS (path : string)
| EvSetConfigPath (path : string)
| EvInit
| EvGetParams
| EvReadGenesis (path : string)
| EvMaybeGenesis
| EvImportChain (path : string)
| EvNodeNew (opts : NodeOptions)
| EvAPIEndpoint
| EvServeRPC (endpoint : string).

#[export] Instance event_eq_dec : EqDecision event.
Proof. solve_decision. Defined.

(** The environment: what each call returns. *)
Record Env := {
  NewFS : string -> result unit;
  Init : result unit;
  GetParams : result unit;
  ReadFile : string -> result string;
  MaybeGenesis : string;
  ImportChain : string -> result unit;
  NodeNew : NodeOptions -> result unit;
  APIEndpoint : result string;
  ServeRPC : string -> result unit }.

(** A run: the trace so far in, the trace extended and a result out. *)
Definition DM (A : Type) := list event -> list event * result A.

Definition dret {A} (a : A) : DM A := fun tr => (tr, Ok a).

Definition dbind {A B} (m : DM A) (k : A -> DM B) : DM B :=
  fun tr => match m tr with
            | (tr', Ok a) => k a tr'
            | (tr', Err e) => (tr', Err e)
            end.

(** Making a call: record it, then return its result. *)
Definition call {A} (ev : event) (r : result A) : DM A := fun tr => (tr ++ [ev], r).

Notation "'let!' x ':=' m 'in' k" := (dbind m (fun x => k))
  (at level 10, x name, m at level 100, k at level 200) : lily_scope.

(** [xerrors.Errorf("msg: %w", err)] on a failing call. *)
Definition wrap {A} (msg : string) (r : result A) : result A :=
  match r with Ok a => Ok a | Err e => Err (ErrWrap msg e) end.

(** [r.Init(repo.FullNode)]: [ErrRepoExists] is not an error. *)
Definition init_result (r : result unit) : result unit :=
  match r with
  | Ok _ => Ok tt
  | Err e => if decide (e = ErrRepoExists) then Ok tt else Err (ErrWrap "repo init error" e)
  end.

(** The flag-dependent node options, from the genesis bytes. *)
Definition node_options (f : daemonOpts) (genBytes : string) : NodeOptions :=
  {| genesis_override := if decide (String.length genBytes = 0) then None else Some genBytes;
     api_endpoint := if api_set f then Some ("/ip4/127.0.0.1/tcp/" +:+ api f) else None;
     unset_peermgr := negb (bootstrap f) |}.

(** [LilyDaemon.Action] *)
Definition Action (f : daemonOpts) (env : Env) : DM unit :=
  let! _ := call (EvNewFS (repo f)) (wrap "opening fs repo" (NewFS env (repo f))) in
  let! _ := if decide (config f = "") then dret tt
            else call (EvSetConfigPath (config f)) (Ok tt) in
  let! _ := call EvInit (init_result (Init env)) in
  let! _ := call EvGetParams (wrap "fetching proof parameters" (GetParams env)) in
  let! genBytes := if decide (genesis f = "") then call EvMaybeGenesis (Ok (MaybeGenesis env))
                   else call (EvReadGenesis (genesis f))
                          (wrap "reading genesis" (ReadFile env (genesis f))) in
  let! _ := if decide (importsnapshot f = "") then dret tt
            else call (EvImportChain (importsnapshot f)) (ImportChain env (importsnapshot f)) in
  let opts := node_options f genBytes in
  let! _ := call (EvNodeNew opts) (wrap "initializing node" (NodeNew env opts)) in
  let! endpoint := call EvAPIEndpoint (wrap "getting api endpoint" (APIEndpoint env)) in
  call (EvServeRPC endpoint) (ServeRPC env endpoint).

(** Running the action from an empty trace. *)
Definition run (f : daemonOpts) (env : Env) : list event * result unit := Action f env [].

End Daemon.

Module DaemonFacts.
Import Daemon.

(** The genesis bytes the action reads, and the endpoint it serves. *)
Definition genesis_bytes (f : daemonOpts) (env : Env) : string :=
  if decide (genesis f = "") then MaybeGenesis env
  else match ReadFile env (genesis f) with Ok b => b | Err _ => "" end.

Definition endpoint_of (env : Env) : string :=
  match APIEndpoint env with Ok e => e | Err _ => "" end.

(** The calls of a run in which every call succeeds. *)
Definition canonical (f : daemonOpts) (env : Env) : list event :=
  [EvNewFS (repo f)] ++
  (if decide (config f = "") then [] else [EvSetConfigPath (config f)]) ++
  [EvInit; EvGetParams] ++
  (if decide (genesis f = "") then [EvMaybeGenesis] else [EvReadGenesis (genesis f)]) ++
  (if decide (importsnapshot f = "") then [] else [EvImportChain (importsnapshot f)]) ++
  [EvNodeNew (node_options f (genesis_bytes f env)); EvAPIEndpoint; EvServeRPC (endpoint_of env)].

Ltac drun :=
  unfold run, Action, dbind, call, dret, wrap, init_result, canonical, genesis_bytes,
    endpoint_of in *; simpl in *;
  repeat match goal with
         | |- context [NewFS ?env ?p] => destruct (NewFS env p) eqn:?
         | |- context [Init ?env] => destruct (Init env) eqn:?
         | |- context [GetParams ?env] => destruct (GetParams env) eqn:?
         | |- context [ReadFile ?env ?p] => destruct (ReadFile env p) eqn:?
         | |- context [ImportChain ?env ?p] => destruct (ImportChain env p) eqn:?
         | |- context [NodeNew ?env ?o] => destruct (NodeNew env o) eqn:?
         | |- context [APIEndpoint ?env] => destruct (APIEndpoint env) eqn:?
         | |- context [decide ?P] => destruct (decide P)
         end; simpl in *;
  repeat match goal with u : unit |- _ => destruct u end.

(** C26: The daemon makes its calls in one fixed order: the trace of every
    run, failing or not, is a prefix of the run in which every call
    succeeds (open, configure, initialise, fetch parameters, read the
    genesis, import the snapshot, build the node, read the endpoint,
    serve). *)
Theorem run_trace_prefix (f : daemonOpts) (env : Env) : (run f env).1 `prefix_of` canonical f env.
Proof. drun; by eexists. Qed.

(** The environment with another result of [Init]. *)
Definition with_init (env : Env) (r : result unit) : Env :=
  {| NewFS := NewFS env; Init := r; GetParams := GetParams env; ReadFile := ReadFile env;
     MaybeGenesis := MaybeGenesis env; ImportChain := ImportChain env; NodeNew := NodeNew env;
     APIEndpoint := APIEndpoint env; ServeRPC := ServeRPC env |}.

(** What a run that built the node went through. *)
Lemma run_node_facts (f : daemonOpts) (env : Env) (o : NodeOptions) :
  EvNodeNew o ∈ (run f env).1 ->
  NewFS env (repo f) = Ok tt /\ init_result (Init env) = Ok tt /\ GetParams env = Ok tt /\
  (genesis f <> "" -> exists b, ReadFile env (genesis f) = Ok b) /\
  (importsnapshot f <> "" -> ImportChain env (importsnapshot f) = Ok tt) /\
  o = node_options f (genesis_bytes f env).
Proof.
  drun; intros Hin;
    apply list_elem_of_In in Hin; simpl in Hin;
    repeat (destruct Hin as [Hin|Hin]; [try discriminate|]); try contradiction;
    simplify_eq; split_and!; try done; intros; eauto.
Qed.

(** C25: The node is only built once the repository is open and
    initialised, the proof parameters are fetched, the genesis file (when
    one is given) is read and the snapshot (when one is given) is
    imported; it is built with the options of the flags and of the
    genesis bytes read. *)
Theorem run_node_preconditions (f : daemonOpts) (env : Env) (o : NodeOptions) :
  EvNodeNew o ∈ (run f env).1 ->
  NewFS env (repo f) = Ok tt /\ init_result (Init env) = Ok tt /\ GetParams env = Ok tt /\
  (genesis f <> "" -> exists b, ReadFile env (genesis f) = Ok b) /\
  (importsnapshot f <> "" -> ImportChain env (importsnapshot f) = Ok tt) /\
  o = node_options f (genesis_bytes f env).
Proof. apply run_node_facts. Qed.

(** C27: An existing repository is not an error: a run whose [Init] returns
    [ErrRepoExists] is the run whose [Init] succeeds, call for call; any
    other [Init] error stops the run with "repo init error". *)
Theorem run_init (f : daemonOpts) (env : Env) :
  (Init env = Err ErrRepoExists -> run f env = run f (with_init env (Ok tt))) /\
  (forall e, Init env = Err e -> e <> ErrRepoExists -> NewFS env (repo f) = Ok tt ->
     (run f env).2 = Err (ErrWrap "repo init error" e)).
Proof.
  split.
  - intros Hi. unfold run, Action. rewrite Hi. reflexivity.
  - intros e Hi Hne Hfs. drun; congruence.
Qed.

(** C28: When every call succeeds the run makes all its calls and returns
    what serving the RPC API on the endpoint returns. *)
Theorem run_serves (f : daemonOpts) (env : Env) (ep : string) :
  NewFS env (repo f) = Ok tt -> init_result (Init env) = Ok tt -> GetParams env = Ok tt ->
  (genesis f <> "" -> exists b, ReadFile env (genesis f) = Ok b) ->
  (importsnapshot f <> "" -> ImportChain env (importsnapshot f) = Ok tt) ->
  NodeNew env (node_options f (genesis_bytes f env)) = Ok tt ->
  APIEndpoint env = Ok ep ->
  run f env = (canonical f env, ServeRPC env ep).
Proof.
  intros Hfs Hi Hp Hg Hs Hn He. unfold genesis_bytes in Hn.
  drun; rewrite ?Hfs, ?Hi, ?Hp, ?He in *; simplify_eq/=;
    repeat match goal with
           | H : ?P -> exists _, _ , Hne : ?P |- _ => destruct (H Hne); clear H
           | H : ?P -> _ , Hne : ?P |- _ => specialize (H Hne)
           end; simplify_eq/=; done.
Qed.

(** C29: A failing snapshot import stops the run before the node is built
    and its error is returned as is, without the context the other calls'
    errors get. *)
Theorem run_import_error (f : daemonOpts) (env : Env) (e : error) :
  importsnapshot f <> "" -> NewFS env (repo f) = Ok tt -> init_result (Init env) = Ok tt ->
  GetParams env = Ok tt -> (genesis f <> "" -> exists b, ReadFile env (genesis f) = Ok b) ->
  ImportChain env (importsnapshot f) = Err e ->
  (run f env).2 = Err e.
Proof.
  intros Hsnap Hfs Hi Hp Hg Hs.
  drun; rewrite ?Hfs, ?Hi, ?Hp in *; simplify_eq/=;
    repeat match goal with
           | H : ?P -> exists _, _ , Hne : ?P |- _ => destruct (H Hne); clear H
           end; simplify_eq/=; done.
Qed.

End DaemonFacts.

Module DaemonWitnesses.
Import Daemon DaemonFacts.

(** The default flags with a snapshot to import. *)
Definition flags0 : daemonOpts :=
  {| api := "1234"; api_set := false; repo := "~/.lotus"; bootstrap := true; config := "";
     importsnapshot := "snapshot.car"; genesis := "" |}.

(** An existing repository, and every other call succeeding; or the
    snapshot import failing. *)
Definition env_with (import : result unit) : Env :=
  {| NewFS := fun _ => Ok tt; Init := Err ErrRepoExists; GetParams := Ok tt;
     ReadFile := fun _ => Ok "genesis.car"; MaybeGenesis := "builtin-genesis";
     ImportChain := fun _ => import; NodeNew := fun _ => Ok tt;
     APIEndpoint := Ok "/ip4/127.0.0.1/tcp/1234/http"; ServeRPC := fun _ => Ok tt |}.

Lemma run_node_preconditions_witness :
  let o := node_options flags0 "builtin-genesis" in
  EvNodeNew o ∈ (run flags0 (env_with (Ok tt))).1 /\
  (NewFS (env_with (Ok tt)) (repo flags0) = Ok tt /\
   init_result (Init (env_with (Ok tt))) = Ok tt /\ GetParams (env_with (Ok tt)) = Ok tt /\
   (genesis flags0 <> "" -> exists b, ReadFile (env_with (Ok tt)) (genesis flags0) = Ok b) /\
   (importsnapshot flags0 <> "" ->
      ImportChain (env_with (Ok tt)) (importsnapshot flags0) = Ok tt) /\
   o = node_options flags0 (genesis_bytes flags0 (env_with (Ok tt)))).
Proof.
  intros o. assert (Hin : EvNodeNew o ∈ (run flags0 (env_with (Ok tt))).1)
    by (apply (bool_decide_unpack _); vm_compute; reflexivity).
  split; [exact Hin | exact (run_node_preconditions flags0 (env_with (Ok tt)) o Hin)].
Defined.

Lemma run_init_witness :
  run flags0 (env_with (Ok tt)) = run flags0 (with_init (env_with (Ok tt)) (Ok tt)).
Proof. apply (proj1 (run_init flags0 (env_with (Ok tt)))). reflexivity. Defined.

Lemma run_serves_witness :
  run flags0 (env_with (Ok tt)) = (canonical flags0 (env_with (Ok tt)), Ok tt).
Proof.
  apply (run_serves flags0 (env_with (Ok tt)) "/ip4/127.0.0.1/tcp/1234/http");
    try reflexivity; by intros.
Defined.

Lemma run_import_error_witness : (run flags0 (env_with (Err (ErrUser 7)))).2 = Err (ErrUser 7).
Proof.
  apply run_import_error; try reflexivity; by intros.
Defined.

End DaemonWitnesses.
