(* ===== verification/DaemonFlags.v ===== *)
(** * The flags of the lily daemon command

    The [Flags] of [LilyDaemon] ([src/commands/lily/daemon.go]) and how
    urfave/cli (v2) resolves them into [daemonFlags] before [Action] runs:
    a flag given on the command line wins, else the first of its
    environment variables that is set, else its default [Value]; a
    boolean read from the environment goes through [strconv.ParseBool]
    (an empty value is [false]), and a flag counts as set ([c.IsSet]) when
    it came from the command line or the environment. The resolution is
    urfave/cli's, modelled from its documented behaviour. *)

From Stdlib Require Import ZArith String.
From stdpp Require Import base list strings.
From S2P Require Import Prelude Daemon.

Open Scope lily_scope.
Local Open Scope string_scope.

Module DaemonFlags.
Import Daemon.

(** A flag's default: [cli.StringFlag] or [cli.BoolFlag]. *)
Inductive flag_value := FString (s : string) | FBool (b : bool).

(** [cli.StringFlag] and [cli.BoolFlag]: name, environment variables and
    default value (the usage text is not modelled). *)
Record Flag := { Name : string; EnvVars : list string; Value : flag_value }.

(** The [Flags] of [LilyDaemon]. *)
Definition flag_api : Flag :=
  {| Name := "api"; EnvVars := ["SENTINEL_LILY_API"]; Value := FString "1234" |}.
Definition flag_repo : Flag :=
  {| Name := "repo"; EnvVars := ["SENTINEL_LILY_REPO"]; Value := FString "~/.lotus" |}.
Definition flag_bootstrap : Flag :=
  {| Name := "bootstrap"; EnvVars := ["SENTINEL_LILY_BOOTSTRAP"]; Value := FBool true |}.
Definition flag_config : Flag :=
  {| Name := "config"; EnvVars := ["SENTINEL_LILY_CONFIG"]; Value := FString "" |}.
Definition flag_importsnapshot : Flag :=
  {| Name := "import-snapshot"; EnvVars := ["SENTINEL_LILY_SNAPSHOT"]; Value := FString "" |}.
Definition flag_genesis : Flag :=
  {| Name := "genesis"; EnvVars := ["SENTINEL_LILY_GENESIS"]; Value := FString "" |}.

Definition LilyDaemon_Flags : list Flag :=
  [flag_api; flag_repo; flag_bootstrap; flag_config; flag_importsnapshot; flag_genesis].

(** [strconv.ParseBool] *)
Definition ParseBool (s : string) : option bool :=
  if decide (s ∈ ["1"; "t"; "T"; "TRUE"; "true"; "True"]) then Some true
  else if decide (s ∈ ["0"; "f"; "F"; "FALSE"; "false"; "False"]) then Some false
  else None.

(** The first environment variable of the list that is set. *)
Fixpoint flagFromEnv (env : string -> option string) (vars : list string) : option string :=
  match vars with
  | [] => None
  | v :: vs => match env v with Some x => Some x | None => flagFromEnv env vs end
  end.

(** A command-line argument [--name=value], as a pair; a bare boolean flag
    is [--name=true]. The last occurrence wins. *)
Definition arg_lookup (args : list (string * string)) (name : string) : option string :=
  foldl (fun acc kv => if decide (kv.1 = name) then Some kv.2 else acc) None args.

(** Parsing a value into the flag's kind; an empty boolean from the
    environment is [false]. *)
Definition parse_value (fl : Flag) (src : string) (v : string) : result flag_value :=
  match Value fl with
  | FString _ => Ok (FString v)
  | FBool _ =>
      if decide (src = "env" /\ v = "") then Ok (FBool false)
      else match ParseBool v with
           | Some b => Ok (FBool b)
           | None => Err (ErrDecode ("could not parse as bool value from " +:+ src +:+
                                     " for flag " +:+ Name fl))
           end
  end.

(** One flag: its value and whether it was set. *)
Definition resolve (args : list (string * string)) (env : string -> option string) (fl : Flag)
  : result (flag_value * bool) :=
  match arg_lookup args (Name fl) with
  | Some v => let? x := parse_value fl "command line" v in Ok (x, true)
  | None =>
      match flagFromEnv env (EnvVars fl) with
      | Some v => let? x := parse_value fl "env" v in Ok (x, true)
      | None => Ok (Value fl, false)
      end
  end.

Definition as_string (v : flag_value) : string :=
  match v with FString s => s | FBool _ => "" end.
Definition as_bool (v : flag_value) : bool :=
  match v with FBool b => b | FString _ => false end.

(** The [Destination]s: the flags written into [daemonFlags], with
    [c.IsSet("api")]. *)
Definition daemonFlags_of (args : list (string * string)) (env : string -> option string)
  : result daemonOpts :=
  let? '(api, api_set) := resolve args env flag_api in
  let? '(repo, _) := resolve args env flag_repo in
  let? '(boot, _) := resolve args env flag_bootstrap in
  let? '(config, _) := resolve args env flag_config in
  let? '(snap, _) := resolve args env flag_importsnapshot in
  let? '(gen, _) := resolve args env flag_genesis in
  Ok {| Daemon.api := as_string api; api_set := api_set; Daemon.repo := as_string repo;
        bootstrap := as_bool boot; Daemon.config := as_string config;
        importsnapshot := as_string snap; Daemon.genesis := as_string gen |}.

(** Starting the command: the flags are resolved, then [Action] runs. *)
Definition start (args : list (string * string)) (env : string -> option string)
    (denv : Env) : list event * result unit :=
  match daemonFlags_of args env with
  | Ok o => run o denv
  | Err e => ([], Err e)
  end.

End DaemonFlags.

Module DaemonFlagsFacts.
Import Daemon DaemonFlags.

(** The value a string flag resolves to. *)
Definition string_flag (args : list (string * string)) (env : string -> option string)
    (fl : Flag) : string :=
  match arg_lookup args (Name fl) with
  | Some v => v
  | None => match flagFromEnv env (EnvVars fl) with Some v => v | None => as_string (Value fl) end
  end.

Lemma resolve_string (args : list (string * string)) (env : string -> option string)
    (fl : Flag) (d : string) (v : flag_value) (b : bool) :
  Value fl = FString d -> resolve args env fl = Ok (v, b) ->
  as_string v = string_flag args env fl /\
  b = bool_decide (arg_lookup args (Name fl) <> None \/ flagFromEnv env (EnvVars fl) <> None).
Proof.
  intros Hd. unfold resolve, string_flag, parse_value. rewrite Hd.
  destruct (arg_lookup _ _) eqn:Ha; simpl;
    [|destruct (flagFromEnv _ _) eqn:He; simpl]; intros [= <- <-]; by split.
Qed.

(** The fields of the resolved options. *)
Lemma daemonFlags_of_fields (args : list (string * string)) (env : string -> option string)
    (o : daemonOpts) :
  daemonFlags_of args env = Ok o ->
  Daemon.api o = string_flag args env flag_api /\
  Daemon.repo o = string_flag args env flag_repo /\
  Daemon.config o = string_flag args env flag_config /\
  importsnapshot o = string_flag args env flag_importsnapshot /\
  Daemon.genesis o = string_flag args env flag_genesis /\
  api_set o = bool_decide (arg_lookup args "api" <> None \/ env "SENTINEL_LILY_API" <> None).
Proof.
  unfold daemonFlags_of.
  destruct (resolve args env flag_api) as [[va ba]|] eqn:Ea; simpl; [|discriminate].
  destruct (resolve args env flag_repo) as [[vr br]|] eqn:Er; simpl; [|discriminate].
  destruct (resolve args env flag_bootstrap) as [[vb bb]|]; simpl; [|discriminate].
  destruct (resolve args env flag_config) as [[vc bc]|] eqn:Ec; simpl; [|discriminate].
  destruct (resolve args env flag_importsnapshot) as [[vs bs]|] eqn:Es; simpl; [|discriminate].
  destruct (resolve args env flag_genesis) as [[vg bg]|] eqn:Eg; simpl; [|discriminate].
  intros [= <-]. simpl.
  apply resolve_string with (d := "1234") in Ea as [-> ->]; [|done].
  apply resolve_string with (d := "~/.lotus") in Er as [-> _]; [|done].
  apply resolve_string with (d := "") in Ec as [-> _]; [|done].
  apply resolve_string with (d := "") in Es as [-> _]; [|done].
  apply resolve_string with (d := "") in Eg as [-> _]; [|done].
  split_and!; try done. simpl. by destruct (env "SENTINEL_LILY_API").
Qed.

(** C12: Resolving the daemon's flags gives each string option the value
    of the command line, else of its environment variable, else its
    declared default, and [--api] counts as set exactly when the command
    line or [SENTINEL_LILY_API] gives it. *)
Theorem daemonFlags_resolution (args : list (string * string)) (env : string -> option string)
    (o : daemonOpts) :
  daemonFlags_of args env = Ok o ->
  Daemon.api o = string_flag args env flag_api /\
  Daemon.repo o = string_flag args env flag_repo /\
  Daemon.config o = string_flag args env flag_config /\
  importsnapshot o = string_flag args env flag_importsnapshot /\
  Daemon.genesis o = string_flag args env flag_genesis /\
  api_set o = bool_decide (arg_lookup args "api" <> None \/ env "SENTINEL_LILY_API" <> None).
Proof. apply daemonFlags_of_fields. Qed.

(** C11: The [--api] flag declares the default ["1234"], but that value
    never reaches the node: unless [--api] or [SENTINEL_LILY_API] is
    given, the daemon builds its node without setting an API endpoint. *)
Theorem start_api_default_unused (args : list (string * string))
    (env : string -> option string) (denv : Env) (o : NodeOptions) :
  arg_lookup args "api" = None -> env "SENTINEL_LILY_API" = None ->
  EvNodeNew o ∈ (start args env denv).1 -> api_endpoint o = None.
Proof.
  intros Ha He. unfold start.
  destruct (daemonFlags_of args env) as [f|] eqn:Ef; simpl; [|by intros ?%not_elem_of_nil].
  intros Hin. destruct (DaemonFacts.run_node_facts f denv o Hin) as (_ & _ & _ & _ & _ & ->).
  destruct (daemonFlags_of_fields args env f Ef) as (_ & _ & _ & _ & _ & Hset).
  unfold node_options. simpl. rewrite Hset, bool_decide_false; [done|]. naive_solver.
Qed.

(** C14: A [SENTINEL_LILY_BOOTSTRAP] that is not a boolean (and no
    [--bootstrap] on the command line) stops the command before the
    daemon makes any call. *)
Theorem start_bootstrap_parse_error (args : list (string * string))
    (env : string -> option string) (denv : Env) (v : string) :
  arg_lookup args "bootstrap" = None -> env "SENTINEL_LILY_BOOTSTRAP" = Some v ->
  v <> "" -> ParseBool v = None ->
  exists e, start args env denv = ([], Err e).
Proof.
  intros Ha He Hne Hp. unfold start, daemonFlags_of.
  assert (Hs : forall fl d, Value fl = FString d -> exists r, resolve args env fl = Ok r).
  { intros fl d Hd. unfold resolve, parse_value. rewrite Hd.
    destruct (arg_lookup args (Name fl)); simpl; [by eexists|].
    destruct (flagFromEnv env (EnvVars fl)); simpl; by eexists. }
  destruct (Hs flag_api "1234" eq_refl) as [[? ?] ->]. simpl.
  destruct (Hs flag_repo "~/.lotus" eq_refl) as [[? ?] ->]. simpl.
  unfold resolve at 1. cbn [Name EnvVars flag_bootstrap flagFromEnv]. rewrite Ha, He.
  unfold parse_value. cbn [Value flag_bootstrap]. rewrite decide_False by naive_solver.
  rewrite Hp. simpl. eauto.
Qed.

End DaemonFlagsFacts.

Module DaemonFlagsWitnesses.
Import Daemon DaemonFlags DaemonFlagsFacts.

Definition no_env : string -> option string := fun _ => None.

(** An environment that only sets a malformed [SENTINEL_LILY_BOOTSTRAP]. *)
Definition bad_bootstrap_env : string -> option string :=
  fun v => if decide (v = "SENTINEL_LILY_BOOTSTRAP") then Some "yes" else None.

Definition denv : Env :=
  {| NewFS := fun _ => Ok tt; Init := Ok tt; GetParams := Ok tt;
     ReadFile := fun _ => Ok "genesis.car"; MaybeGenesis := "builtin-genesis";
     ImportChain := fun _ => Ok tt; NodeNew := fun _ => Ok tt;
     APIEndpoint := Ok "/ip4/127.0.0.1/tcp/1234/http"; ServeRPC := fun _ => Ok tt |}.

Lemma daemonFlags_resolution_witness :
  daemonFlags_of [("repo", "/data/lily")] no_env =
    Ok {| Daemon.api := "1234"; api_set := false; Daemon.repo := "/data/lily";
          bootstrap := true; Daemon.config := ""; importsnapshot := ""; Daemon.genesis := "" |} /\
  Daemon.repo {| Daemon.api := "1234"; api_set := false; Daemon.repo := "/data/lily";
          bootstrap := true; Daemon.config := ""; importsnapshot := ""; Daemon.genesis := "" |}
    = string_flag [("repo", "/data/lily")] no_env flag_repo.
Proof.
  assert (H : daemonFlags_of [("repo", "/data/lily")] no_env =
    Ok {| Daemon.api := "1234"; api_set := false; Daemon.repo := "/data/lily";
          bootstrap := true; Daemon.config := ""; importsnapshot := ""; Daemon.genesis := "" |})
    by reflexivity.
  split; [exact H | exact (proj1 (proj2 (daemonFlags_resolution _ _ _ H)))].
Defined.

Lemma start_api_default_unused_witness :
  let o := node_options {| Daemon.api := "1234"; api_set := false; Daemon.repo := "~/.lotus";
             bootstrap := true; Daemon.config := ""; importsnapshot := ""; Daemon.genesis := "" |}
             "builtin-genesis" in
  EvNodeNew o ∈ (start [] no_env denv).1 /\ api_endpoint o = None.
Proof.
  intros o. assert (Hin : EvNodeNew o ∈ (start [] no_env denv).1)
    by (apply (bool_decide_unpack _); vm_compute; reflexivity).
  split; [exact Hin | exact (start_api_default_unused [] no_env denv o eq_refl eq_refl Hin)].
Defined.

Lemma start_bootstrap_parse_error_witness :
  exists e, start [] bad_bootstrap_env denv = ([], Err e).
Proof. apply (start_bootstrap_parse_error [] bad_bootstrap_env denv "yes"); reflexivity || done. Defined.

End DaemonFlagsWitnesses.
